(** * Live viewer: the session synchronisation engine

    A shallow embedding of the browser front end of the live viewer:
    - [GraphVisualizer] (graph.js): model normalisation, visit counts,
      current/failed element, and the calls it makes on the drawing surface;
    - [UIManager] (ui.js): the statistics panel, the step, output and error
      panels, the two sections, and the resizer;
    - [WebSocketClient] (websocket.js): message dispatch, the handler table,
      and the socket's open, send and close;
    - the message handlers of main.js.

    JavaScript values are embedded with their types made explicit: a property
    that may be absent is an [option]; [a || b] and [if (a)] follow the
    truthiness of the value ([""] and [0] are falsy, arrays and objects are
    truthy).  Objects used as dictionaries ([visitCounts], [messageHandlers],
    the item table of the drawing surface) are plain objects: a finite map
    holds their own keys, and a key they do not own reads the member of that
    name inherited from [Object.prototype], if there is one.  An exception is
    a [Throw] outcome that keeps the state reached so far.

    The source holds two revisions of graph.js.  The embedding follows the
    current one, in which [updateStep] looks the element up before it
    touches any state and vertices are keyed by name. *)

From Stdlib Require Import Ascii.
From stdpp Require Import gmap strings list fin_maps pretty.

Open Scope string_scope.
Open Scope list_scope.
Open Scope Z_scope.

(** ** JavaScript helpers *)

(** Truthiness of an optional string: [undefined], [null] and [""] are falsy. *)
Definition truthy (s : option string) : bool :=
  match s with
  | Some t => negb (String.eqb t "")
  | None => false
  end.

(** [a || b] where [a] may be absent and [b] is a string. *)
Definition js_or (a : option string) (b : string) : string :=
  match a with
  | Some t => if String.eqb t "" then b else t
  | None => b
  end.

(** [a || 0] on an optional number. *)
Definition js_or0 (a : option Z) : Z :=
  match a with
  | Some n => n
  | None => 0
  end.

(** ** Plain objects read by key *)

(** The members a plain object inherits from [Object.prototype]: reading a
    key the object does not own answers the member of that name.  Eleven are
    functions; [__proto__] is an accessor that answers the prototype, an
    object.  All of them are truthy. *)
Inductive ProtoMember :=
  | Pconstructor
  | PhasOwnProperty
  | PisPrototypeOf
  | PpropertyIsEnumerable
  | PtoLocaleString
  | PtoString
  | PvalueOf
  | PdefineGetter
  | PdefineSetter
  | PlookupGetter
  | PlookupSetter
  | Pproto.

Definition protoMember (key : string) : option ProtoMember :=
  if String.eqb key "constructor" then Some Pconstructor
  else if String.eqb key "hasOwnProperty" then Some PhasOwnProperty
  else if String.eqb key "isPrototypeOf" then Some PisPrototypeOf
  else if String.eqb key "propertyIsEnumerable" then Some PpropertyIsEnumerable
  else if String.eqb key "toLocaleString" then Some PtoLocaleString
  else if String.eqb key "toString" then Some PtoString
  else if String.eqb key "valueOf" then Some PvalueOf
  else if String.eqb key "__defineGetter__" then Some PdefineGetter
  else if String.eqb key "__defineSetter__" then Some PdefineSetter
  else if String.eqb key "__lookupGetter__" then Some PlookupGetter
  else if String.eqb key "__lookupSetter__" then Some PlookupSetter
  else if String.eqb key "__proto__" then Some Pproto
  else None.

(** [typeof member === 'function'] *)
Definition callable (m : ProtoMember) : bool :=
  match m with
  | Pproto => false
  | _ => true
  end.

(** [member(argument)], called as a plain function with an object as its
    argument: [this] is [undefined].  [Object] answers its argument and
    [toString] answers a text; every other member needs an object for [this]
    and throws a [TypeError]. *)
Definition returnsWithoutThis (m : ProtoMember) : bool :=
  match m with
  | Pconstructor | PtoString => true
  | _ => false
  end.

(** ** Raw models, as carried by a [start] message *)

Record Vertex := {
  v_id : string;
  v_name : option string
}.

Record Edge := {
  e_id : string;
  e_name : option string;
  e_sourceVertexId : string;
  e_targetVertexId : string
}.

(** One JavaScript object plays both roles: a container with a [models]
    collection, or directly a sub-model with [vertices] and [edges]. *)
#[local] Unset Elimination Schemes.
Inductive Model := MkModel {
  m_name : option string;
  m_models : option (list Model);
  m_vertices : option (list Vertex);
  m_edges : option (list Edge)
}.
#[local] Set Elimination Schemes.

(** ** Canonical graph data handed to the drawing surface *)

Record G6Node := {
  n_id : string;
  n_label : string;
  n_originalId : string;
  n_modelName : string;
  n_type : string;
  n_fill : string;
  n_stroke : string
}.

Record G6Edge := {
  g_id : string;
  g_source : string;
  g_target : string;
  g_label : string;
  g_originalId : string;
  g_modelName : string
}.

Record G6Data := {
  nodes : list G6Node;
  edges : list G6Edge
}.

(** ** GraphVisualizer.convertModelsToG6Data *)

(** The object pushed on [nodes] for one vertex. *)
Definition vertexToNode (modelName : string) (vertex : Vertex) : G6Node :=
  {| n_id := js_or (v_name vertex) (v_id vertex);
     n_label := js_or (v_name vertex) (v_id vertex);
     n_originalId := v_id vertex;
     n_modelName := modelName;
     n_type := "rect";
     n_fill := "#ffffff";
     n_stroke := "#5B8FF9" |}.

(** [vertices?.find(v => v.id === id)] *)
Definition findVertex (vertices : option (list Vertex)) (id : string) : option Vertex :=
  match vertices with
  | Some vs => List.find (fun v => String.eqb (v_id v) id) vs
  | None => None
  end.

(** The object pushed on [edges] for one edge; [sourceVertex?.name || edge.sourceVertexId]. *)
Definition edgeToG6 (modelName : string) (vertices : option (list Vertex)) (edge : Edge) : G6Edge :=
  let sourceVertex := findVertex vertices (e_sourceVertexId edge) in
  let targetVertex := findVertex vertices (e_targetVertexId edge) in
  {| g_id := js_or (e_name edge) (e_id edge);
     g_source := js_or (sourceVertex ≫= v_name) (e_sourceVertexId edge);
     g_target := js_or (targetVertex ≫= v_name) (e_targetVertexId edge);
     g_label := js_or (e_name edge) "";
     g_originalId := e_id edge;
     g_modelName := modelName |}.

(** Body of [actualModels.forEach]: vertices are appended to [nodes], then
    edges to [edges]; an absent collection appends nothing. *)
Definition convertSubModel (modelName : string) (acc : G6Data) (actualModel : Model) : G6Data :=
  let nodes1 :=
    match m_vertices actualModel with
    | Some vs => nodes acc ++ map (vertexToNode modelName) vs
    | None => nodes acc
    end in
  let edges1 :=
    match m_edges actualModel with
    | Some es => edges acc ++ map (edgeToG6 modelName (m_vertices actualModel)) es
    | None => edges acc
    end in
  {| nodes := nodes1; edges := edges1 |}.

(** Body of [models.forEach]: [model.name || 'default'] and
    [model.models || [model]]. *)
Definition convertModel (acc : G6Data) (model : Model) : G6Data :=
  let modelName := js_or (m_name model) "default" in
  let actualModels :=
    match m_models model with
    | Some ms => ms
    | None => [model]
    end in
  fold_left (convertSubModel modelName) actualModels acc.

Definition convertModelsToG6Data (models : list Model) : G6Data :=
  fold_left convertModel models {| nodes := []; edges := [] |}.

(** ** The drawing surface

    The drawing surface is the external AntV G6 library, reached through
    [this.graph].  It is embedded by the contract the visualizer relies on:
    it accepts a declarative node/edge list and keeps its items in a plain
    object keyed by identifier.  [findById] reads that object, so it answers
    the item of an identifier, and for an identifier on no item the member
    of that name inherited from [Object.prototype], if there is one.  On
    [render] an item whose identifier [findById] already answers for is
    refused (the first one stays), and so is an edge whose source or target
    is not a node of the surface.  A style update is merged into the item's
    style, leaving the keys the update does not name as they were.

    Not embedded: layout and viewport; what the surface does with an edge
    whose endpoint names an edge or an inherited member (the embedding takes
    such an edge as refused), and with an item whose identifier is empty
    (the embedding keeps it under that identifier). *)

Record Style := {
  fill : option string;
  stroke : option string;
  lineWidth : Z;
  shadowColor : option string;
  shadowBlur : Z;
  endArrowFill : option string
}.

(** The [style] object of an [updateItem] call: only the listed keys change;
    a listed key may be given [undefined]. *)
Record StylePatch := {
  p_fill : option (option string);
  p_stroke : option (option string);
  p_lineWidth : option Z;
  p_shadowColor : option (option string);
  p_shadowBlur : option Z;
  p_endArrowFill : option (option string)
}.

Inductive ItemModel :=
  | NodeModel (n : G6Node)
  | EdgeModel (e : G6Edge).

Record Item := {
  it_model : ItemModel;
  it_style : Style
}.

Inductive ItemType := node | edge.

Definition getType (it : Item) : ItemType :=
  match it_model it with
  | NodeModel _ => node
  | EdgeModel _ => edge
  end.

Definition getID (it : Item) : string :=
  match it_model it with
  | NodeModel n => n_id n
  | EdgeModel e => g_id e
  end.

Record G6Graph := {
  g6_data : G6Data;
  itemMap : gmap string Item
}.

(** [defaultNode] merged with the node's own [style]. *)
Definition nodeItem (n : G6Node) : Item :=
  {| it_model := NodeModel n;
     it_style := {| fill := Some (n_fill n); stroke := Some (n_stroke n);
                    lineWidth := 2; shadowColor := None; shadowBlur := 0;
                    endArrowFill := None |} |}.

(** [defaultEdge]. *)
Definition edgeItem (e : G6Edge) : Item :=
  {| it_model := EdgeModel e;
     it_style := {| fill := None; stroke := Some "#94a3b8";
                    lineWidth := 2; shadowColor := None; shadowBlur := 0;
                    endArrowFill := Some "#94a3b8" |} |}.

(** What reading the item table by key answers: the item under that key, a
    member inherited from [Object.prototype], or [undefined]. *)
Inductive Lookup :=
  | Found (it : Item)
  | Inherited (m : ProtoMember)
  | Undefined.

Definition lookupItem (m : gmap string Item) (id : string) : Lookup :=
  match m !! id with
  | Some it => Found it
  | None =>
      match protoMember id with
      | Some member => Inherited member
      | None => Undefined
      end
  end.

(** Adding an item: refused when the table already answers for its id. *)
Definition addItem (it : Item) (m : gmap string Item) : gmap string Item :=
  match lookupItem m (getID it) with
  | Undefined => <[getID it := it]> m
  | _ => m
  end.

(** The identifier is that of a node of the table. *)
Definition isNode (m : gmap string Item) (id : string) : bool :=
  match m !! id with
  | Some it =>
      match getType it with
      | node => true
      | edge => false
      end
  | None => false
  end.

(** Adding an edge: refused when its source or its target is not a node. *)
Definition addEdge (e : G6Edge) (m : gmap string Item) : gmap string Item :=
  if isNode m (g_source e) && isNode m (g_target e) then addItem (edgeItem e) m else m.

Definition applyPatch (p : StylePatch) (s : Style) : Style :=
  {| fill := default (fill s) (p_fill p);
     stroke := default (stroke s) (p_stroke p);
     lineWidth := default (lineWidth s) (p_lineWidth p);
     shadowColor := default (shadowColor s) (p_shadowColor p);
     shadowBlur := default (shadowBlur s) (p_shadowBlur p);
     endArrowFill := default (endArrowFill s) (p_endArrowFill p) |}.

Definition patchItem (p : StylePatch) (it : Item) : Item :=
  {| it_model := it_model it; it_style := applyPatch p (it_style it) |}.

(** The calls the visualizer makes on the surface that may change it. *)
Inductive G6Call :=
  | CallData (d : G6Data)
  | CallRender
  | CallFitView (padding : Z)
  | CallClear
  | CallUpdateItem (id : string) (p : StylePatch).

Definition G6_new : G6Graph :=
  {| g6_data := {| nodes := []; edges := [] |}; itemMap := ∅ |}.

(** [render] drops the displayed items and adds the nodes, then the edges,
    of the data last given to [data]. *)
Definition G6_render (d : G6Data) : gmap string Item :=
  fold_left (fun m e => addEdge e m) (edges d)
    (fold_left (fun m n => addItem (nodeItem n) m) (nodes d) ∅).

Definition G6_apply (c : G6Call) (g : G6Graph) : G6Graph :=
  match c with
  | CallData d => {| g6_data := d; itemMap := itemMap g |}
  | CallRender => {| g6_data := g6_data g; itemMap := G6_render (g6_data g) |}
  | CallFitView _ => g
  | CallClear => {| g6_data := g6_data g; itemMap := ∅ |}
  | CallUpdateItem id p =>
      {| g6_data := g6_data g; itemMap := alter (patchItem p) id (itemMap g) |}
  end.

Definition G6_findById (g : G6Graph) (id : string) : Lookup :=
  lookupItem (itemMap g) id.

(** ** Computations: state, exceptions, and the surface calls made *)

Inductive JsError :=
  | TypeError (what : string)
  | SyntaxError (what : string).

Inductive outcome (A : Type) :=
  | Ret (a : A)
  | Throw (e : JsError).
Arguments Ret {A} a.
Arguments Throw {A} e.

Record result (S A : Type) := Result {
  r_value : outcome A;
  r_state : S;
  r_calls : list G6Call
}.
Arguments Result {S A} _ _ _.
Arguments r_value {S A} _.
Arguments r_state {S A} _.
Arguments r_calls {S A} _.

Definition M (S A : Type) : Type := S -> result S A.

#[global] Instance M_ret {S} : MRet (M S) :=
  fun A a s => Result (Ret a) s [].

#[global] Instance M_bind {S} : MBind (M S) :=
  fun A B k m s =>
    let r := m s in
    match r_value r with
    | Ret a =>
        let r2 := k a (r_state r) in
        Result (r_value r2) (r_state r2) (r_calls r ++ r_calls r2)
    | Throw e => Result (Throw e) (r_state r) (r_calls r)
    end.

Definition throw {S A} (e : JsError) : M S A :=
  fun s => Result (Throw e) s [].

(** [try { m } catch (error) { h error }]: the handler starts from the state
    the body had reached when it threw. *)
Definition try_catch {S A} (m : M S A) (h : JsError -> M S A) : M S A :=
  fun s =>
    let r := m s in
    match r_value r with
    | Ret a => r
    | Throw e =>
        let r2 := h e (r_state r) in
        Result (r_value r2) (r_state r2) (r_calls r ++ r_calls r2)
    end.

Definition get {S} : M S S := fun s => Result (Ret s) s [].
Definition modify {S} (f : S -> S) : M S unit := fun s => Result (Ret tt) (f s) [].

(** Run a computation on a component of a larger state. *)
Definition zoom {S T A} (proj : T -> S) (inj : S -> T -> T) (m : M S A) : M T A :=
  fun t =>
    let r := m (proj t) in
    Result (r_value r) (inj (r_state r) t) (r_calls r).

(** Reading a property of [undefined] or [null]. *)
Definition deref {S A} (o : option A) (what : string) : M S A :=
  match o with
  | Some a => mret a
  | None => throw (TypeError ("Cannot read properties of undefined (reading " +:+ what +:+ ")"))
  end.

(** ** GraphVisualizer (graph.js) *)

(** What [visitCounts] may hold under a key: a number, or the text that
    [+ 1] makes of a value that is not a number, which is the text of an
    inherited member followed by as many ["1"] as were appended. *)
Inductive CountValue :=
  | Count (n : nat)
  | Appended (m : ProtoMember) (ones : nat).

Record GraphVisualizer := {
  graph : option G6Graph;
  models : list Model;
  visitCounts : gmap string CountValue;
  currentStepId : option string;
  failedStepId : option string;
  layoutDirection : string
}.

(** The state left by the constructor: no surface yet. *)
Definition GraphVisualizer_new : GraphVisualizer :=
  {| graph := None; models := []; visitCounts := ∅;
     currentStepId := None; failedStepId := None; layoutDirection := "TB" |}.

Definition set_graph (g : option G6Graph) (v : GraphVisualizer) : GraphVisualizer :=
  {| graph := g; models := models v; visitCounts := visitCounts v;
     currentStepId := currentStepId v; failedStepId := failedStepId v;
     layoutDirection := layoutDirection v |}.

Definition set_models (ms : list Model) (v : GraphVisualizer) : GraphVisualizer :=
  {| graph := graph v; models := ms; visitCounts := visitCounts v;
     currentStepId := currentStepId v; failedStepId := failedStepId v;
     layoutDirection := layoutDirection v |}.

Definition set_visitCounts (c : gmap string CountValue) (v : GraphVisualizer) : GraphVisualizer :=
  {| graph := graph v; models := models v; visitCounts := c;
     currentStepId := currentStepId v; failedStepId := failedStepId v;
     layoutDirection := layoutDirection v |}.

Definition set_currentStepId (i : option string) (v : GraphVisualizer) : GraphVisualizer :=
  {| graph := graph v; models := models v; visitCounts := visitCounts v;
     currentStepId := i; failedStepId := failedStepId v;
     layoutDirection := layoutDirection v |}.

Definition set_failedStepId (i : option string) (v : GraphVisualizer) : GraphVisualizer :=
  {| graph := graph v; models := models v; visitCounts := visitCounts v;
     currentStepId := currentStepId v; failedStepId := i;
     layoutDirection := layoutDirection v |}.

(** [this.graph.<call>(...)]: a [TypeError] when [this.graph] is [null];
    otherwise the call reaches the surface and is recorded. *)
Definition g6 (c : G6Call) : M GraphVisualizer unit :=
  fun v =>
    match graph v with
    | Some g => Result (Ret tt) (set_graph (Some (G6_apply c g)) v) [c]
    | None => Result (Throw (TypeError "Cannot read properties of null")) v []
    end.

(** [this.graph.findById(id)] *)
Definition findById (id : string) : M GraphVisualizer Lookup :=
  v ← get;
  g ← deref (graph v) "findById";
  mret (G6_findById g id).

(** [item.getType()] on what [findById] answered, known to be truthy: an
    inherited member has no such method. *)
Definition notAnItem {A} : M GraphVisualizer A :=
  throw (TypeError "item.getType is not a function").

(** [(visitCounts[id] || 0) + 1]: one more than the number stored; a text
    or an inherited member with ["1"] appended. *)
Definition plusOne (counts : gmap string CountValue) (id : string) : CountValue :=
  match counts !! id with
  | Some (Count n) => Count (n + 1)
  | Some (Appended m ones) => Appended m (ones + 1)
  | None =>
      match protoMember id with
      | Some m => Appended m 1
      | None => Count 1
      end
  end.

(** [visitCounts[id] = value]: the object gets the key as its own, except
    for ["__proto__"], whose setter ignores a value that is not an object. *)
Definition assign (id : string) (value : CountValue) (counts : gmap string CountValue)
    : gmap string CountValue :=
  if String.eqb id "__proto__" then counts else <[id := value]> counts.

(** [visitCounts[id] || 0] as a number: none when what is read is a text or
    an inherited member. *)
Definition readCount (counts : gmap string CountValue) (id : string) : option nat :=
  match counts !! id with
  | Some (Count n) => Some n
  | Some (Appended _ _) => None
  | None =>
      match protoMember id with
      | Some _ => None
      | None => Some 0%nat
      end
  end.

(** [initialize]: creates the (empty) surface. *)
Definition initialize : M GraphVisualizer unit :=
  modify (set_graph (Some G6_new)).

(** [d3.scaleLinear().domain([0, 5]).range(['#d1f4e0', '#10b981']).clamp(true)]:
    each colour channel is interpolated linearly between the two end colours
    and rounded; [n] is the visit count clamped to 5. *)
Definition channel (a b n : Z) : Z :=
  (2 * (5 * a + (b - a) * n) + 5) `div` 10.

Definition colorScale (visitCount : nat) : string :=
  let n := Z.min (Z.of_nat visitCount) 5 in
  "rgb(" +:+ pretty (channel 209 16 n) +:+ ", "
         +:+ pretty (channel 244 185 n) +:+ ", "
         +:+ pretty (channel 224 129 n) +:+ ")".

(** The scale applied to what [visitCounts[id] || 0] reads: for a value that
    is not a number the scale answers [undefined]. *)
Definition colorOf (counts : gmap string CountValue) (id : string) : option string :=
  colorScale <$> readCount counts id.

Definition renderGraph : M GraphVisualizer unit :=
  v ← get;
  match graph v, models v with
  | None, _ => mret tt
  | Some _, [] => mret tt
  | Some _, _ :: _ =>
      let graphData := convertModelsToG6Data (models v) in
      g6 (CallData graphData);;
      g6 CallRender;;
      g6 (CallFitView 40)
  end.

Definition setModels (modelsData : list Model) : M GraphVisualizer unit :=
  modify (set_models modelsData);;
  modify (set_visitCounts ∅);;
  modify (set_currentStepId None);;
  modify (set_failedStepId None);;
  renderGraph.

Definition colorPatch (t : ItemType) (color : option string) : StylePatch :=
  match t with
  | node =>
      {| p_fill := Some color; p_stroke := Some color; p_lineWidth := None;
         p_shadowColor := None; p_shadowBlur := None; p_endArrowFill := None |}
  | edge =>
      {| p_fill := None; p_stroke := Some color; p_lineWidth := None;
         p_shadowColor := None; p_shadowBlur := None; p_endArrowFill := Some color |}
  end.

Definition updateElementColor (elementId : string) : M GraphVisualizer unit :=
  v ← get;
  let color := colorOf (visitCounts v) elementId in
  item ← findById elementId;
  match item with
  | Undefined => mret tt
  | Inherited _ => notAnItem
  | Found it => g6 (CallUpdateItem elementId (colorPatch (getType it) color))
  end.

(** The same style object is sent for nodes and for edges. *)
Definition highlightPatch (highlight : bool) : StylePatch :=
  {| p_fill := None; p_stroke := None;
     p_lineWidth := Some (if highlight then 4 else 2);
     p_shadowColor := Some (if highlight then Some "#3b82f6" else None);
     p_shadowBlur := Some (if highlight then 10 else 0);
     p_endArrowFill := None |}.

Definition highlightElement (elementId : string) (highlight : bool) : M GraphVisualizer unit :=
  item ← findById elementId;
  match item with
  | Undefined => mret tt
  | Inherited _ => notAnItem
  | Found it =>
      match getType it with
      | node => g6 (CallUpdateItem elementId (highlightPatch highlight))
      | edge => g6 (CallUpdateItem elementId (highlightPatch highlight))
      end
  end.

Definition updateStep (stepId : string) : M GraphVisualizer unit :=
  v ← get;
  match graph v with
  | None => mret tt
  | Some _ =>
      if String.eqb stepId "" then mret tt
      else
        item ← findById stepId;
        match item with
        | Undefined => mret tt
        | _ =>
            (match currentStepId v with
             | Some previous =>
                 if String.eqb previous "" then mret tt
                 else highlightElement previous false
             | None => mret tt
             end);;
            modify (fun v => set_visitCounts
                      (assign stepId (plusOne (visitCounts v) stepId) (visitCounts v)) v);;
            modify (set_currentStepId (Some stepId));;
            updateElementColor stepId;;
            highlightElement stepId true
        end
  end.

Definition failedPatch (t : ItemType) : StylePatch :=
  match t with
  | node =>
      {| p_fill := Some (Some "#ef4444"); p_stroke := Some (Some "#dc2626");
         p_lineWidth := None; p_shadowColor := None; p_shadowBlur := None;
         p_endArrowFill := None |}
  | edge =>
      {| p_fill := None; p_stroke := Some (Some "#ef4444"); p_lineWidth := None;
         p_shadowColor := None; p_shadowBlur := None;
         p_endArrowFill := Some (Some "#ef4444") |}
  end.

Definition markElementAsFailed (elementId : string) : M GraphVisualizer unit :=
  modify (set_failedStepId (Some elementId));;
  item ← findById elementId;
  match item with
  | Undefined => mret tt
  | Inherited _ => notAnItem
  | Found it => g6 (CallUpdateItem elementId (failedPatch (getType it)))
  end.

Definition clear : M GraphVisualizer unit :=
  v ← get;
  (match graph v with
   | Some _ => g6 CallClear
   | None => mret tt
   end);;
  modify (set_visitCounts ∅);;
  modify (set_currentStepId None);;
  modify (set_failedStepId None).

(** ** Inbound messages *)

Record Step := {
  s_id : option string;
  s_name : option string;
  s_modelName : option string;
  s_data : option string  (* the payload, already rendered as JSON text *)
}.

Record ErrorInfo := {
  err_message : option string;
  err_trace : option string
}.

Record StepResult := {
  sr_id : option string;
  sr_output : option string;
  sr_error : option ErrorInfo
}.

(** The argument of [updateStatistics]: the [statistics] object of an [end]
    message, with [status] added by the handler.  Figures are integers. *)
Record Statistics := {
  st_status : option bool;
  totalNumberOfModels : option Z;
  totalCompletedNumberOfModels : option Z;
  totalFailedNumberOfModels : option Z;
  edgeCoverage : option Z;
  totalNumberOfVisitedEdges : option Z;
  totalNumberOfUnvisitedEdges : option Z;
  vertexCoverage : option Z;
  totalNumberOfVisitedVertices : option Z;
  totalNumberOfUnvisitedVertices : option Z
}.

Record Message := {
  type : option string;
  msg_models : option (list Model);
  msg_step : option Step;
  msg_result : option StepResult;
  msg_status : option bool;
  msg_statistics : option Statistics;
  msg_message : option string;
  msg_trace : option string
}.

(** ** UIManager (ui.js) *)

Record StatsPanel := {
  statsStatus : string;
  statsStatusClass : string;
  statsModelsTotal : string;
  statsModelsCompleted : string;
  statsModelsFailed : string;
  statsEdgeCoverage : string;
  statsEdgeCoverageClass : string;
  statsEdgesVisited : string;
  statsEdgesUnvisited : string;
  statsVertexCoverage : string;
  statsVertexCoverageClass : string;
  statsVerticesVisited : string;
  statsVerticesUnvisited : string
}.

Record StepPanel := {
  stepName : string;
  stepId : string;
  stepModel : string;
  stepData : string
}.

Record UIManager := {
  setupOverlayHidden : bool;
  errorAlertHidden : bool;
  currentStepSectionHidden : bool;
  statisticsSectionHidden : bool;
  stepPanel : StepPanel;
  statsPanel : StatsPanel;
  outputText : string;
  errorMessage : string;
  errorTrace : string
}.

Definition newline : string := String "010"%char "".

Definition hideError (u : UIManager) : UIManager :=
  {| setupOverlayHidden := setupOverlayHidden u; errorAlertHidden := true;
     currentStepSectionHidden := currentStepSectionHidden u;
     statisticsSectionHidden := statisticsSectionHidden u;
     stepPanel := stepPanel u; statsPanel := statsPanel u;
     outputText := outputText u; errorMessage := errorMessage u;
     errorTrace := errorTrace u |}.

Definition hideSetupOverlay (u : UIManager) : UIManager :=
  hideError
    {| setupOverlayHidden := true; errorAlertHidden := errorAlertHidden u;
       currentStepSectionHidden := currentStepSectionHidden u;
       statisticsSectionHidden := statisticsSectionHidden u;
       stepPanel := stepPanel u; statsPanel := statsPanel u;
       outputText := outputText u; errorMessage := errorMessage u;
       errorTrace := errorTrace u |}.

Definition set_currentStepSectionHidden (b : bool) (u : UIManager) : UIManager :=
  {| setupOverlayHidden := setupOverlayHidden u; errorAlertHidden := errorAlertHidden u;
     currentStepSectionHidden := b;
     statisticsSectionHidden := statisticsSectionHidden u;
     stepPanel := stepPanel u; statsPanel := statsPanel u;
     outputText := outputText u; errorMessage := errorMessage u;
     errorTrace := errorTrace u |}.

Definition set_statisticsSectionHidden (b : bool) (u : UIManager) : UIManager :=
  {| setupOverlayHidden := setupOverlayHidden u; errorAlertHidden := errorAlertHidden u;
     currentStepSectionHidden := currentStepSectionHidden u;
     statisticsSectionHidden := b;
     stepPanel := stepPanel u; statsPanel := statsPanel u;
     outputText := outputText u; errorMessage := errorMessage u;
     errorTrace := errorTrace u |}.

Definition showCurrentStepSection := set_currentStepSectionHidden false.
Definition hideCurrentStepSection := set_currentStepSectionHidden true.
Definition showStatisticsSection := set_statisticsSectionHidden false.
Definition hideStatisticsSection := set_statisticsSectionHidden true.

Definition updateStepInfo (step : Step) (u : UIManager) : UIManager :=
  {| setupOverlayHidden := setupOverlayHidden u; errorAlertHidden := errorAlertHidden u;
     currentStepSectionHidden := currentStepSectionHidden u;
     statisticsSectionHidden := statisticsSectionHidden u;
     stepPanel := {| stepName := js_or (s_name step) "";
                     stepId := js_or (s_id step) "";
                     stepModel := js_or (s_modelName step) "";
                     stepData := default "{}" (s_data step) |};
     statsPanel := statsPanel u;
     outputText := outputText u; errorMessage := errorMessage u;
     errorTrace := errorTrace u |}.

Definition set_outputText (t : string) (u : UIManager) : UIManager :=
  {| setupOverlayHidden := setupOverlayHidden u; errorAlertHidden := errorAlertHidden u;
     currentStepSectionHidden := currentStepSectionHidden u;
     statisticsSectionHidden := statisticsSectionHidden u;
     stepPanel := stepPanel u; statsPanel := statsPanel u;
     outputText := t; errorMessage := errorMessage u;
     errorTrace := errorTrace u |}.

Definition appendOutput (text : string) (u : UIManager) : UIManager :=
  set_outputText (outputText u +:+ text +:+ newline) u.

Definition clearOutput : UIManager -> UIManager := set_outputText "".

Definition updateError (message trace : string) (u : UIManager) : UIManager :=
  {| setupOverlayHidden := setupOverlayHidden u; errorAlertHidden := errorAlertHidden u;
     currentStepSectionHidden := currentStepSectionHidden u;
     statisticsSectionHidden := statisticsSectionHidden u;
     stepPanel := stepPanel u; statsPanel := statsPanel u;
     outputText := outputText u; errorMessage := message;
     errorTrace := trace |}.

Definition clearError : UIManager -> UIManager := updateError "" "".

Definition getCoverageClass (percentage : Z) : string :=
  if 80 <=? percentage then "bg-green-100 text-green-800"
  else if 50 <=? percentage then "bg-yellow-100 text-yellow-800"
  else "bg-red-100 text-red-800".

(** [`${n}%`] *)
Definition percentText (n : Z) : string := pretty n +:+ "%".

Definition updateStatisticsPanel (statistics : Statistics) (p : StatsPanel) : StatsPanel :=
  let status := st_status statistics in
  let edgeCoverage := js_or0 (edgeCoverage statistics) in
  let vertexCoverage := js_or0 (vertexCoverage statistics) in
  {| statsStatus :=
       match status with
       | Some b => if b then "Passed" else "Failed"
       | None => statsStatus p
       end;
     statsStatusClass :=
       match status with
       | Some b => "px-3 py-1 rounded-full text-sm font-medium " +:+
                   (if b then "bg-green-100 text-green-800" else "bg-red-100 text-red-800")
       | None => statsStatusClass p
       end;
     statsModelsTotal := pretty (js_or0 (totalNumberOfModels statistics));
     statsModelsCompleted := pretty (js_or0 (totalCompletedNumberOfModels statistics));
     statsModelsFailed := pretty (js_or0 (totalFailedNumberOfModels statistics));
     statsEdgeCoverage := percentText edgeCoverage;
     statsEdgeCoverageClass :=
       "px-2 py-1 rounded text-xs font-medium " +:+ getCoverageClass edgeCoverage;
     statsEdgesVisited := pretty (js_or0 (totalNumberOfVisitedEdges statistics));
     statsEdgesUnvisited := pretty (js_or0 (totalNumberOfUnvisitedEdges statistics));
     statsVertexCoverage := percentText vertexCoverage;
     statsVertexCoverageClass :=
       "px-2 py-1 rounded text-xs font-medium " +:+ getCoverageClass vertexCoverage;
     statsVerticesVisited := pretty (js_or0 (totalNumberOfVisitedVertices statistics));
     statsVerticesUnvisited := pretty (js_or0 (totalNumberOfUnvisitedVertices statistics)) |}.

Definition updateStatistics (statistics : Statistics) (u : UIManager) : UIManager :=
  {| setupOverlayHidden := setupOverlayHidden u; errorAlertHidden := errorAlertHidden u;
     currentStepSectionHidden := currentStepSectionHidden u;
     statisticsSectionHidden := statisticsSectionHidden u;
     stepPanel := stepPanel u;
     statsPanel := updateStatisticsPanel statistics (statsPanel u);
     outputText := outputText u; errorMessage := errorMessage u;
     errorTrace := errorTrace u |}.

(** ** WebSocketClient (websocket.js) and the application state (main.js) *)

(** The five functions main.js registers as handlers. *)
Inductive Handler :=
  | HandleStartMessage
  | HandleStepStartMessage
  | HandleStepEndMessage
  | HandleEndMessage
  | HandleErrorMessage.

Record WebSocketClient := {
  connected : bool;
  messageHandlers : gmap string (option Handler)
}.

(** The state left by the constructor: five known types, no handler yet. *)
Definition WebSocketClient_new : WebSocketClient :=
  {| connected := false;
     messageHandlers :=
       <["start" := None]> (<["step-start" := None]> (<["step-end" := None]>
       (<["end" := None]> (<["error" := None]> ∅)))) |}.

(** [on]: only a type the table already has can be given a handler. *)
Definition on (messageType : string) (handler : Handler) (c : WebSocketClient) : WebSocketClient :=
  match messageHandlers c !! messageType with
  | Some _ =>
      {| connected := connected c;
         messageHandlers := <[messageType := Some handler]> (messageHandlers c) |}
  | None => c
  end.

Inductive LogEntry :=
  | ConsoleLog (text : string)
  | ConsoleWarn (text : string)
  | ConsoleError (text : string).

Record App := {
  graphVisualizer : GraphVisualizer;
  uiManager : UIManager;
  wsClient : WebSocketClient;
  isRunning : bool;
  console : list LogEntry
}.

Definition set_graphVisualizer (v : GraphVisualizer) (a : App) : App :=
  {| graphVisualizer := v; uiManager := uiManager a; wsClient := wsClient a;
     isRunning := isRunning a; console := console a |}.

Definition set_uiManager (u : UIManager) (a : App) : App :=
  {| graphVisualizer := graphVisualizer a; uiManager := u; wsClient := wsClient a;
     isRunning := isRunning a; console := console a |}.

Definition set_wsClient (c : WebSocketClient) (a : App) : App :=
  {| graphVisualizer := graphVisualizer a; uiManager := uiManager a; wsClient := c;
     isRunning := isRunning a; console := console a |}.

Definition set_isRunning (b : bool) (a : App) : App :=
  {| graphVisualizer := graphVisualizer a; uiManager := uiManager a; wsClient := wsClient a;
     isRunning := b; console := console a |}.

Definition set_console (l : list LogEntry) (a : App) : App :=
  {| graphVisualizer := graphVisualizer a; uiManager := uiManager a; wsClient := wsClient a;
     isRunning := isRunning a; console := l |}.

(** A method call on [graphVisualizer]. *)
Definition viz {A} (m : M GraphVisualizer A) : M App A :=
  zoom graphVisualizer set_graphVisualizer m.

(** A method call on [uiManager]. *)
Definition ui (f : UIManager -> UIManager) : M App unit :=
  modify (fun a => set_uiManager (f (uiManager a)) a).

(** The transport's console lines; the DEBUG lines of the visualizer and of
    the handlers change no state and are left out. *)
Definition log (e : LogEntry) : M App unit :=
  modify (fun a => set_console (console a ++ [e]) a).

Definition setupWebSocketHandlers (c : WebSocketClient) : WebSocketClient :=
  on "error" HandleErrorMessage
    (on "end" HandleEndMessage
      (on "step-end" HandleStepEndMessage
        (on "step-start" HandleStepStartMessage
          (on "start" HandleStartMessage c)))).

(** The application once [init] has run, on a page whose panels are [u]. *)
Definition init (u : UIManager) : App :=
  {| graphVisualizer := r_state (initialize GraphVisualizer_new);
     uiManager := u;
     wsClient := setupWebSocketHandlers WebSocketClient_new;
     isRunning := false;
     console := [] |}.

Definition handleStartMessage (message : Message) : M App unit :=
  ui hideSetupOverlay;;
  ui clearOutput;;
  ui clearError;;
  ui showCurrentStepSection;;
  ui hideStatisticsSection;;
  (match msg_models message with
   | Some (m :: ms) =>
       try_catch (viz (setModels (m :: ms))) (fun _ => mret tt)
   | Some [] => mret tt
   | None => mret tt
   end);;
  modify (set_isRunning true).

Definition handleStepStartMessage (message : Message) : M App unit :=
  step ← deref (msg_step message) "id";
  ui (updateStepInfo step);;
  if truthy (s_id step) then
    viz (updateStep (default "" (s_id step)))
  else if truthy (s_name step) then
    try_catch (viz (updateStep (default "" (s_name step)))) (fun _ => mret tt)
  else mret tt.

Definition handleStepEndMessage (message : Message) : M App unit :=
  result ← deref (msg_result message) "output";
  (if truthy (sr_output result)
   then ui (appendOutput (default "" (sr_output result)))
   else mret tt);;
  match sr_error result with
  | Some error =>
      let errorMsg := js_or (err_message error) "Unknown error" in
      let errorTrace := js_or (err_trace error) "" in
      ui (updateError errorMsg errorTrace);;
      if truthy (sr_id result)
      then viz (markElementAsFailed (default "" (sr_id result)))
      else mret tt
  | None => mret tt
  end.

(** [{ status: message.status, ...message.statistics }] *)
Definition withStatus (status : option bool) (s : Statistics) : Statistics :=
  {| st_status := match st_status s with Some b => Some b | None => status end;
     totalNumberOfModels := totalNumberOfModels s;
     totalCompletedNumberOfModels := totalCompletedNumberOfModels s;
     totalFailedNumberOfModels := totalFailedNumberOfModels s;
     edgeCoverage := edgeCoverage s;
     totalNumberOfVisitedEdges := totalNumberOfVisitedEdges s;
     totalNumberOfUnvisitedEdges := totalNumberOfUnvisitedEdges s;
     vertexCoverage := vertexCoverage s;
     totalNumberOfVisitedVertices := totalNumberOfVisitedVertices s;
     totalNumberOfUnvisitedVertices := totalNumberOfUnvisitedVertices s |}.

(** [{ status: message.status }] *)
Definition onlyStatus (status : option bool) : Statistics :=
  {| st_status := status;
     totalNumberOfModels := None; totalCompletedNumberOfModels := None;
     totalFailedNumberOfModels := None; edgeCoverage := None;
     totalNumberOfVisitedEdges := None; totalNumberOfUnvisitedEdges := None;
     vertexCoverage := None; totalNumberOfVisitedVertices := None;
     totalNumberOfUnvisitedVertices := None |}.

Definition handleEndMessage (message : Message) : M App unit :=
  ui hideCurrentStepSection;;
  ui showStatisticsSection;;
  (match msg_statistics message with
   | Some statistics => ui (updateStatistics (withStatus (msg_status message) statistics))
   | None => ui (updateStatistics (onlyStatus (msg_status message)))
   end);;
  modify (set_isRunning false);;
  ui (appendOutput (newline +:+ "=== Test Execution Completed ===")).

Definition handleErrorMessage (message : Message) : M App unit :=
  let errorMsg := js_or (msg_message message) "Unknown error" in
  let errorTrace := js_or (msg_trace message) "" in
  ui (updateError errorMsg errorTrace);;
  match msg_step message with
  | Some step =>
      if truthy (s_id step)
      then viz (markElementAsFailed (default "" (s_id step)))
      else mret tt
  | None => mret tt
  end.

Definition call (h : Handler) (message : Message) : M App unit :=
  match h with
  | HandleStartMessage => handleStartMessage message
  | HandleStepStartMessage => handleStepStartMessage message
  | HandleStepEndMessage => handleStepEndMessage message
  | HandleEndMessage => handleEndMessage message
  | HandleErrorMessage => handleErrorMessage message
  end.

(** [handler(message)] for a function the table inherits. *)
Definition callInherited (m : ProtoMember) : M App unit :=
  if returnsWithoutThis m then mret tt
  else throw (TypeError "Cannot convert undefined or null to object").

(** [messageHandlers[type]]: an absent [type] reads the key ["undefined"];
    a key the table does not own reads the inherited member of that name,
    and a member that is a function is called like a handler. *)
Definition handleMessage (message : Message) : M App unit :=
  a ← get;
  let key := default "undefined" (type message) in
  match messageHandlers (wsClient a) !! key with
  | Some (Some handler) => call handler message
  | Some None => log (ConsoleLog "Unhandled message type:")
  | None =>
      match protoMember key with
      | Some m =>
          if callable m then callInherited m
          else log (ConsoleLog "Unhandled message type:")
      | None => log (ConsoleLog "Unhandled message type:")
      end
  end.

(** What a transport frame holds: text that [JSON.parse] rejects, the JSON
    value [null], or a JSON object read as a message. *)
Inductive Payload :=
  | NotJson (data : string)
  | JsonNull
  | JsonObject (message : Message).

Definition JSON_parse (data : Payload) : M App (option Message) :=
  match data with
  | NotJson _ => throw (SyntaxError "Unexpected token")
  | JsonNull => mret None
  | JsonObject m => mret (Some m)
  end.

(** [ws.onmessage] *)
Definition onmessage (data : Payload) : M App unit :=
  try_catch
    (parsed ← JSON_parse data;
     message ← deref parsed "type";
     log (ConsoleLog "DEBUG [CLIENT]: Received message:");;
     handleMessage message)
    (fun _ => log (ConsoleError "Error parsing message:")).

(** Frames are handled one after the other, in arrival order. *)
Definition deliver (a : App) (data : Payload) : App := r_state (onmessage data a).

Definition run (frames : list Payload) (a : App) : App := fold_left deliver frames a.

(** * Vocabulary of the statements *)

(** ** Calls, operations and the handler table *)

(** The surface after a list of calls, applied in order. *)
Definition replay (cs : list G6Call) (g : G6Graph) : G6Graph :=
  fold_left (fun g c => G6_apply c g) cs g.

(** The call that removes the highlight of the previous current element. *)
Definition unhighlightCalls (g : G6Graph) (current : option string) : list G6Call :=
  match current with
  | Some previous =>
      if String.eqb previous "" then []
      else match itemMap g !! previous with
           | Some _ => [CallUpdateItem previous (highlightPatch false)]
           | None => []
           end
  | None => []
  end.

(** The calls of a visit of [id], an item of type [t], painted [color]:
    highlight of the previous element off, colour, highlight on. *)
Definition visitCalls (g : G6Graph) (current : option string) (id : string)
    (t : ItemType) (color : option string) : list G6Call :=
  unhighlightCalls g current ++
  [CallUpdateItem id (colorPatch t color);
   CallUpdateItem id (highlightPatch true)].

(** The state a visit of [id] leaves when it gets past the first step. *)
Definition visitedState (v : GraphVisualizer) (g : G6Graph) (id : string) : GraphVisualizer :=
  {| graph := Some g; models := models v;
     visitCounts := assign id (plusOne (visitCounts v) id) (visitCounts v);
     currentStepId := Some id; failedStepId := failedStepId v;
     layoutDirection := layoutDirection v |}.

(** The method a handler calls on the visualizer, if any. *)
Inductive VizOp :=
  | OpNone
  | OpSetModels (ms : list Model)
  | OpUpdateStep (id : string)
  | OpMarkFailed (id : string).

(** The method call an operation stands for. *)
Definition doOp (op : VizOp) : M GraphVisualizer unit :=
  match op with
  | OpNone => mret tt
  | OpSetModels ms => setModels ms
  | OpUpdateStep id => updateStep id
  | OpMarkFailed id => markElementAsFailed id
  end.

(** The call each handler of main.js makes, read off the message. *)
Definition handlerOp (h : Handler) (message : Message) : VizOp :=
  match h with
  | HandleStartMessage =>
      match msg_models message with
      | Some (m :: ms) => OpSetModels (m :: ms)
      | _ => OpNone
      end
  | HandleStepStartMessage =>
      match msg_step message with
      | Some step =>
          if truthy (s_id step) then OpUpdateStep (default "" (s_id step))
          else if truthy (s_name step) then OpUpdateStep (default "" (s_name step))
          else OpNone
      | None => OpNone
      end
  | HandleStepEndMessage =>
      match msg_result message with
      | Some result =>
          match sr_error result with
          | Some _ =>
              if truthy (sr_id result) then OpMarkFailed (default "" (sr_id result))
              else OpNone
          | None => OpNone
          end
      | None => OpNone
      end
  | HandleEndMessage => OpNone
  | HandleErrorMessage =>
      match msg_step message with
      | Some step =>
          if truthy (s_id step) then OpMarkFailed (default "" (s_id step)) else OpNone
      | None => OpNone
      end
  end.

(** The call a frame leads to, through the handler table [c]. *)
Definition frameOp (c : WebSocketClient) (data : Payload) : VizOp :=
  match data with
  | JsonObject message =>
      match messageHandlers c !! default "undefined" (type message) with
      | Some (Some h) => handlerOp h message
      | _ => OpNone
      end
  | _ => OpNone
  end.

(** The handler table main.js sets up. *)
Definition std : WebSocketClient := setupWebSocketHandlers WebSocketClient_new.

(** ** Frames and what they ask of the visualizer *)

(** The identifier a [step-start] handler passes to [updateStep]. *)
Definition stepKey (step : Step) : option string :=
  if truthy (s_id step) then s_id step
  else if truthy (s_name step) then s_name step
  else None.

(** [message.type === t] *)
Definition hasType (t : string) (message : Message) : bool :=
  match type message with
  | Some s => String.eqb s t
  | None => false
  end.

(** The element a frame visits: a [step-start] message with a usable key. *)
Definition visited (data : Payload) : option string :=
  match data with
  | JsonObject message =>
      if hasType "step-start" message then msg_step message ≫= stepKey else None
  | _ => None
  end.

(** A [start] message that carries at least one model. *)
Definition isRunStart (data : Payload) : bool :=
  match data with
  | JsonObject message =>
      hasType "start" message &&
      match msg_models message with
      | Some (_ :: _) => true
      | _ => false
      end
  | _ => false
  end.

(** The element a frame reports as failed: an [error] message naming a step,
    or a [step-end] message whose result carries an error and an id. *)
Definition failedOf (data : Payload) : option string :=
  match data with
  | JsonObject message =>
      if hasType "error" message then
        step ← msg_step message;
        if truthy (s_id step) then s_id step else None
      else if hasType "step-end" message then
        result ← msg_result message;
        match sr_error result with
        | Some _ => if truthy (sr_id result) then sr_id result else None
        | None => None
        end
      else None
  | _ => None
  end.

(** The identifier resolves to an item of the surface. *)
Definition known (v : GraphVisualizer) (id : string) : bool :=
  match graph v with
  | Some g => bool_decide (is_Some (itemMap g !! id))
  | None => false
  end.

(** The number [visitCounts] holds for [id], and 0 when it holds none. *)
Definition visitCount (v : GraphVisualizer) (id : string) : nat :=
  match visitCounts v !! id with
  | Some (Count n) => n
  | _ => 0%nat
  end.

(** The number of frames that visit [id]. *)
Definition countVisits (id : string) (frames : list Payload) : nat :=
  length (filter (fun data => visited data = Some id) frames).

(** An operation without the models it may carry. *)
Inductive OpKind := KNone | KRebuild | KVisit (id : string) | KFail (id : string).

Definition opKind (op : VizOp) : OpKind :=
  match op with
  | OpNone => KNone
  | OpSetModels _ => KRebuild
  | OpUpdateStep id => KVisit id
  | OpMarkFailed id => KFail id
  end.

(** The call is a style update. *)
Definition isUpdate (c : G6Call) : Prop :=
  match c with
  | CallUpdateItem _ _ => True
  | _ => False
  end.

(** [init] has run: the five handlers are registered and the surface exists. *)
Definition Ready (a : App) : Prop :=
  wsClient a = std ∧ is_Some (graph (graphVisualizer a)).

(** ** The current highlight *)

(** An item drawn with the emphasis [highlightElement(_, true)] applies. *)
Definition highlighted (it : Item) : Prop := lineWidth (it_style it) = 4.

(** No two distinct elements are highlighted. *)
Definition atMostOneHighlighted (g : G6Graph) : Prop :=
  forall x y itx ity,
    itemMap g !! x = Some itx -> itemMap g !! y = Some ity ->
    highlighted itx -> highlighted ity -> x = y.

(** The surface of the visualizer (an empty one before [initialize]). *)
Definition surface (v : GraphVisualizer) : G6Graph := default G6_new (graph v).

(** What [findById] answers for [id] on the visualizer's surface. *)
Definition lookupOf (v : GraphVisualizer) (id : string) : Lookup :=
  G6_findById (surface v) id.

(** [findById] answers for [id], with an item or with an inherited member. *)
Definition answered (v : GraphVisualizer) (id : string) : bool :=
  match lookupOf v id with
  | Undefined => false
  | _ => true
  end.

(** The current element is an inherited member and no item: taking its
    highlight off throws, so no element can be visited. *)
Definition stuck (v : GraphVisualizer) : bool :=
  match currentStepId v with
  | Some previous =>
      if String.eqb previous "" then false
      else match lookupOf v previous with
           | Inherited _ => true
           | _ => false
           end
  | None => false
  end.

(** No item is kept under the name of an inherited member. *)
Definition plainItems (g : G6Graph) : Prop :=
  forall id, is_Some (itemMap g !! id) -> protoMember id = None.

(** [visitCounts] holds a number under the identifier of an item, a text
    under the name of an inherited member that is on no item, and nothing
    under any other key. *)
Definition countsResolve (v : GraphVisualizer) : Prop :=
  forall id c, visitCounts v !! id = Some c ->
    match lookupOf v id with
    | Found _ => exists n, c = Count n
    | Inherited m => exists ones, c = Appended m ones
    | Undefined => False
    end.

(** The successive surfaces while a list of calls is applied: before the
    first call, and after each call. *)
Fixpoint instants (g : G6Graph) (cs : list G6Call) : list G6Graph :=
  g :: match cs with
       | [] => []
       | c :: cs' => instants (G6_apply c g) cs'
       end.

(** Only the element named by [o] may be highlighted. *)
Definition onlyHighlighted (g : G6Graph) (o : option string) : Prop :=
  forall x it, itemMap g !! x = Some it -> highlighted it -> o = Some x.

(** The current element, if any, is a non-empty identifier that [findById]
    answers for, no item is kept under the name of an inherited member, and
    no item but the current element is highlighted. *)
Definition HighlightInv (v : GraphVisualizer) : Prop :=
  exists g, graph v = Some g ∧
    (forall x, currentStepId v = Some x -> x ≠ "" ∧ G6_findById g x ≠ Undefined) ∧
    plainItems g ∧
    onlyHighlighted g (currentStepId v).

(** What the visualizer is asked never includes [setModels] of an empty list. *)
Definition wellFormedOp (op : VizOp) : Prop :=
  match op with
  | OpSetModels [] => False
  | _ => True
  end.

(** The calls on the surface made while a frame is handled. *)
Definition onmessage_calls (a : App) (data : Payload) : list G6Call :=
  r_calls (onmessage data a).

(** What holds in every state the application reaches. *)
Definition Consistent (a : App) : Prop :=
  Ready a ∧ HighlightInv (graphVisualizer a) ∧ countsResolve (graphVisualizer a).

(** ** The failure colour *)

(** The item carries the colours [markElementAsFailed] applies to its type. *)
Definition failureColoured (it : Item) : bool :=
  match getType it with
  | node =>
      bool_decide (fill (it_style it) = Some "#ef4444" ∧
                   stroke (it_style it) = Some "#dc2626")
  | edge =>
      bool_decide (stroke (it_style it) = Some "#ef4444" ∧
                   endArrowFill (it_style it) = Some "#ef4444")
  end.

(** The element [id] is on the surface and shows the failure colours. *)
Definition showsFailure (v : GraphVisualizer) (id : string) : bool :=
  match graph v with
  | Some g =>
      match itemMap g !! id with
      | Some it => failureColoured it
      | None => false
      end
  | None => false
  end.

(** A call that leaves the fill, stroke and arrow of [id] alone. *)
Definition keepsFailure (c : G6Call) (id : string) : Prop :=
  match c with
  | CallUpdateItem x p =>
      x ≠ id ∨ p = highlightPatch false ∨ p = highlightPatch true
  | _ => False
  end.

(** ** Sample data *)

(** A page with empty panels and the setup overlay showing. *)
Definition sample_ui : UIManager :=
  {| setupOverlayHidden := false; errorAlertHidden := true;
     currentStepSectionHidden := true; statisticsSectionHidden := true;
     stepPanel := {| stepName := ""; stepId := ""; stepModel := ""; stepData := "" |};
     statsPanel :=
       {| statsStatus := ""; statsStatusClass := ""; statsModelsTotal := "";
          statsModelsCompleted := ""; statsModelsFailed := "";
          statsEdgeCoverage := ""; statsEdgeCoverageClass := "";
          statsEdgesVisited := ""; statsEdgesUnvisited := "";
          statsVertexCoverage := ""; statsVertexCoverageClass := "";
          statsVerticesVisited := ""; statsVerticesUnvisited := "" |};
     outputText := ""; errorMessage := ""; errorTrace := "" |}.

(** Two vertices [v1] ("A"), [v2] ("B") and the edge [e1] ("go") from A to B. *)
Definition sample_model : Model :=
  MkModel None None
    (Some [ {| v_id := "v1"; v_name := Some "A" |}; {| v_id := "v2"; v_name := Some "B" |} ])
    (Some [ {| e_id := "e1"; e_name := Some "go";
               e_sourceVertexId := "v1"; e_targetVertexId := "v2" |} ]).

(** A message of type [t] with no other field. *)
Definition emptyMessage (t : string) : Message :=
  {| type := Some t; msg_models := None; msg_step := None; msg_result := None;
     msg_status := None; msg_statistics := None; msg_message := None; msg_trace := None |}.

(** [{type: "start", models: ms}] *)
Definition startFrame (ms : list Model) : Payload :=
  JsonObject
    {| type := Some "start"; msg_models := Some ms; msg_step := None; msg_result := None;
       msg_status := None; msg_statistics := None; msg_message := None; msg_trace := None |}.

(** [{type: "step-start", step: {id, name}}] *)
Definition stepStartFrame (id name : option string) : Payload :=
  JsonObject
    {| type := Some "step-start"; msg_models := None;
       msg_step := Some {| s_id := id; s_name := name; s_modelName := None; s_data := None |};
       msg_result := None; msg_status := None; msg_statistics := None;
       msg_message := None; msg_trace := None |}.

(** [{type: "error", message: "assertion failed", step: {id}}] *)
Definition errorFrame (id : string) : Payload :=
  JsonObject
    {| type := Some "error"; msg_models := None;
       msg_step := Some {| s_id := Some id; s_name := None; s_modelName := None; s_data := None |};
       msg_result := None; msg_status := None; msg_statistics := None;
       msg_message := Some "assertion failed"; msg_trace := None |}.

(** [{type: "end", status}] *)
Definition endFrame (status : bool) : Payload :=
  JsonObject
    {| type := Some "end"; msg_models := None; msg_step := None; msg_result := None;
       msg_status := Some status; msg_statistics := None;
       msg_message := None; msg_trace := None |}.

(** Four [step-start] frames: two name "A", one carries the raw id "v1",
    which is not on the surface, and one names "B". *)
Definition sample_visits : list Payload :=
  [stepStartFrame None (Some "A"); stepStartFrame (Some "v1") (Some "A");
   stepStartFrame None (Some "A"); stepStartFrame None (Some "B")].

(** The application after the first run-start. *)
Definition sample_started : App :=
  deliver (run [] (init sample_ui)) (startFrame [sample_model]).

(** The application after a run-start and a visit of "A". *)
Definition sample_after_visit : App :=
  run [startFrame [sample_model]; stepStartFrame None (Some "A")] (init sample_ui).

(** The application after a run that visited "A" and ended. *)
Definition sample_after_end : App :=
  run [startFrame [sample_model]; stepStartFrame None (Some "A"); endFrame true]
    (init sample_ui).



(** ** Normalisation *)

(** [model.models || [model]] *)
Definition actualModels (model : Model) : list Model :=
  match m_models model with
  | Some ms => ms
  | None => [model]
  end.

(** [model.name || 'default'] *)
Definition modelNameOf (model : Model) : string := js_or (m_name model) "default".

(** The nodes one sub-model contributes. *)
Definition subNodes (modelName : string) (actual : Model) : list G6Node :=
  match m_vertices actual with
  | Some vs => map (vertexToNode modelName) vs
  | None => []
  end.

(** The edges one sub-model contributes. *)
Definition subEdges (modelName : string) (actual : Model) : list G6Edge :=
  match m_edges actual with
  | Some es => map (edgeToG6 modelName (m_vertices actual)) es
  | None => []
  end.

(** An edge one of whose declared endpoints matches no vertex of its sub-model. *)
Definition dangling (vertices : option (list Vertex)) (edge : Edge) : Prop :=
  findVertex vertices (e_sourceVertexId edge) = None ∨
  findVertex vertices (e_targetVertexId edge) = None.

(** The claim as the specification words it: a dangling edge does not reach
    the edge list. *)
Definition dangling_edges_excluded : Prop :=
  forall models model actual es edge,
    model ∈ models -> actual ∈ actualModels model ->
    m_edges actual = Some es -> edge ∈ es ->
    dangling (m_vertices actual) edge ->
    forall g, g ∈ edges (convertModelsToG6Data models) -> g_originalId g ≠ e_id edge.

(** The edge [e1] ("go") leaves [v1] for [v9], which no vertex has. *)
Definition dangling_edge : Edge :=
  {| e_id := "e1"; e_name := Some "go";
     e_sourceVertexId := "v1"; e_targetVertexId := "v9" |}.

(** A sub-model with the single vertex [v1] ("A") and the dangling edge. *)
Definition dangling_model : Model :=
  MkModel None None (Some [ {| v_id := "v1"; v_name := Some "A" |} ]) (Some [dangling_edge]).



(** A flat sub-model that carries its own name, "Login". *)
Definition named_model : Model :=
  MkModel (Some "Login") None (Some [ {| v_id := "v1"; v_name := Some "A" |} ]) None.

(** ** Statistics, run start and failures *)

(** The specification's formula: [round(visited / total × 100)] when
    [total > 0], else [0] (rounding half up, as [Math.round] does). *)
Definition spec_percentage (visited total : Z) : Z :=
  if 0 <? total then (200 * visited + total) `div` (2 * total) else 0.

(** The claim as the specification words it: the two figures shown are the
    formula applied to the visited and total counts of the statistics. *)
Definition coverage_computed_from_counts : Prop :=
  forall (s : Statistics) (p : StatsPanel),
    let visitedE := js_or0 (totalNumberOfVisitedEdges s) in
    let totalE := visitedE + js_or0 (totalNumberOfUnvisitedEdges s) in
    let visitedV := js_or0 (totalNumberOfVisitedVertices s) in
    let totalV := visitedV + js_or0 (totalNumberOfUnvisitedVertices s) in
    0 <= visitedE <= totalE -> 0 <= visitedV <= totalV ->
    statsEdgeCoverage (updateStatisticsPanel s p) = percentText (spec_percentage visitedE totalE) ∧
    statsVertexCoverage (updateStatisticsPanel s p) = percentText (spec_percentage visitedV totalV).

(** Two edges out of three visited, reported with the truncated figure 66. *)
Definition sample_statistics : Statistics :=
  {| st_status := None;
     totalNumberOfModels := Some 1; totalCompletedNumberOfModels := Some 1;
     totalFailedNumberOfModels := Some 0;
     edgeCoverage := Some 66;
     totalNumberOfVisitedEdges := Some 2; totalNumberOfUnvisitedEdges := Some 1;
     vertexCoverage := Some 100;
     totalNumberOfVisitedVertices := Some 2; totalNumberOfUnvisitedVertices := Some 0 |}.

(** An [end] message. *)
Definition isEnd (data : Payload) : bool :=
  match data with
  | JsonObject message => hasType "end" message
  | _ => false
  end.

(** The claim as the specification words it: after an [end] frame, any
    [start] message that carries a models array resets the session. *)
Definition start_resets_session : Prop :=
  forall u history finish message ms,
    isEnd finish = true ->
    type message = Some "start" -> msg_models message = Some ms ->
    let a := run (history ++ [finish]) (init u) in
    let v := graphVisualizer (deliver a (JsonObject message)) in
    visitCounts v = ∅ ∧ currentStepId v = None ∧ failedStepId v = None ∧
    graph v = Some {| g6_data := convertModelsToG6Data ms;
                      itemMap := G6_render (convertModelsToG6Data ms) |}.

(** A [start] message whose models array is empty. *)
Definition emptyStart : Message :=
  {| type := Some "start"; msg_models := Some []; msg_step := None;
     msg_result := None; msg_status := None; msg_statistics := None;
     msg_message := None; msg_trace := None |}.

(** A [start] message that carries [named_model]. *)
Definition secondStart : Message :=
  {| type := Some "start"; msg_models := Some [named_model]; msg_step := None;
     msg_result := None; msg_status := None; msg_statistics := None;
     msg_message := None; msg_trace := None |}.

(** The claim as the specification words it: once marked failed, an element
    keeps the failure colour through any later frames, until a rebuild. *)
Definition failure_colour_persists_until_rebuild : Prop :=
  forall u history data later id,
    let a := run history (init u) in
    failedOf data = Some id -> known (graphVisualizer a) id = true ->
    Forall (fun p => isRunStart p = false) later ->
    showsFailure (graphVisualizer (run later (deliver a data))) id = true.

(** Frames that follow a failure of "A" without visiting "A" again. *)
Definition sample_later : list Payload :=
  [stepStartFrame None (Some "B"); errorFrame "B"; endFrame false].

(** ** Unhandled frames *)

(** No handler is registered for the message's type: the table has no such
    key, or the key still holds [null]. *)
Definition unhandled (c : WebSocketClient) (message : Message) : Prop :=
  messageHandlers c !! default "undefined" (type message) = None ∨
  messageHandlers c !! default "undefined" (type message) = Some None.

(** What the console gets, after the line for the received message, when no
    handler is registered for the message's type: the line for an unhandled
    type, unless the type names a function every object inherits; that
    function is called in place of a handler, and either returns, which
    leaves no line, or throws into the [catch] of [onmessage]. *)
Definition unhandledLines (c : WebSocketClient) (message : Message) : list LogEntry :=
  let key := default "undefined" (type message) in
  match messageHandlers c !! key, protoMember key with
  | None, Some m =>
      if callable m
      then if returnsWithoutThis m then [] else [ConsoleError "Error parsing message:"]
      else [ConsoleLog "Unhandled message type:"]
  | _, _ => [ConsoleLog "Unhandled message type:"]
  end.

(** The application with [entries] added to the console. *)
Definition logged (entries : list LogEntry) (a : App) : App :=
  set_console (console a ++ entries) a.

(** * Further vocabulary and methods *)

(** A sub-model reduced to what normalisation reads of it. *)
Definition strip (sub : Model) : Model :=
  MkModel None None (m_vertices sub) (m_edges sub).

(** A named container of the two sub-models of a checkout flow; the container
    carries a stray vertex of its own, and the first sub-model a name and a
    nested collection. *)
Definition nested_container : Model :=
  MkModel (Some "Shop")
    (Some [ MkModel (Some "Cart") (Some [sample_model])
              (Some [ {| v_id := "c1"; v_name := Some "Cart" |} ]) None;
            dangling_model ])
    (Some [ {| v_id := "x"; v_name := Some "Stray" |} ]) None.

(** The item an identifier resolves to on the visualizer's surface. *)
Definition itemOf (v : GraphVisualizer) (id : string) : option Item :=
  itemMap (surface v) !! id.

(** The three style keys [highlightElement] writes. *)
Definition emphasis (it : Item) : Z * option string * Z :=
  (lineWidth (it_style it), shadowColor (it_style it), shadowBlur (it_style it)).

(** What [highlightElement(_, true)] and [highlightElement(_, false)] leave. *)
Definition emphasisOn : Z * option string * Z := (4, Some "#3b82f6", 10).
Definition emphasisOff : Z * option string * Z := (2, None, 0).

(** The item carries [color] in the keys [updateElementColor] writes for its type. *)
Definition visitColoured (it : Item) (color : string) : Prop :=
  match getType it with
  | node => fill (it_style it) = Some color ∧ stroke (it_style it) = Some color
  | edge => stroke (it_style it) = Some color ∧ endArrowFill (it_style it) = Some color
  end.



(** Exactly the current element carries the emphasis. *)
Definition EmphasisInv (v : GraphVisualizer) : Prop :=
  forall x it, itemOf v x = Some it ->
    emphasis it = if decide (currentStepId v = Some x) then emphasisOn else emphasisOff.

(** The node "A" of [sample_model] after its first visit. *)
Definition sample_item_A : Item :=
  {| it_model :=
       NodeModel {| n_id := "A"; n_label := "A"; n_originalId := "v1";
                    n_modelName := "default"; n_type := "rect";
                    n_fill := "#ffffff"; n_stroke := "#5B8FF9" |};
     it_style :=
       {| fill := Some "rgb(170, 232, 205)"; stroke := Some "rgb(170, 232, 205)";
          lineWidth := 4; shadowColor := Some "#3b82f6"; shadowBlur := 10;
          endArrowFill := None |} |}.

(** ** GraphVisualizer.destroy (graph.js) *)

(** [destroy]: the surface is torn down and the reference to it dropped; what
    the teardown does to the surface itself is not observable afterwards. *)
Definition destroy : M GraphVisualizer unit :=
  v ← get;
  match graph v with
  | Some _ => modify (set_graph None)
  | None => mret tt
  end.

(** The visualizer once a run is loaded and one element visited. *)
Definition sample_viz : GraphVisualizer :=
  r_state (updateStep "A"
    (r_state (setModels [sample_model] (r_state (initialize GraphVisualizer_new))))).

(** ** What a handler does besides its call on the visualizer *)

(** The panel updates each handler of main.js makes, read off the message. *)
Definition handlerUi (h : Handler) (message : Message) (u : UIManager) : UIManager :=
  match h with
  | HandleStartMessage =>
      hideStatisticsSection (showCurrentStepSection (clearError (clearOutput (hideSetupOverlay u))))
  | HandleStepStartMessage =>
      match msg_step message with
      | Some step => updateStepInfo step u
      | None => u
      end
  | HandleStepEndMessage =>
      match msg_result message with
      | Some result =>
          let u1 := if truthy (sr_output result)
                    then appendOutput (default "" (sr_output result)) u else u in
          match sr_error result with
          | Some error =>
              updateError (js_or (err_message error) "Unknown error")
                          (js_or (err_trace error) "") u1
          | None => u1
          end
      | None => u
      end
  | HandleEndMessage =>
      appendOutput (newline +:+ "=== Test Execution Completed ===")
        (updateStatistics
           match msg_statistics message with
           | Some statistics => withStatus (msg_status message) statistics
           | None => onlyStatus (msg_status message)
           end
           (showStatisticsSection (hideCurrentStepSection u)))
  | HandleErrorMessage =>
      updateError (js_or (msg_message message) "Unknown error") (js_or (msg_trace message) "") u
  end.

(** The value a handler leaves in [isRunning]. *)
Definition handlerRunning (h : Handler) (b : bool) : bool :=
  match h with
  | HandleStartMessage => true
  | HandleEndMessage => false
  | _ => b
  end.

(** The handler reads a property of a field the message does not have. *)
Definition handlerThrows (h : Handler) (message : Message) : bool :=
  match h with
  | HandleStepStartMessage => bool_decide (msg_step message = None)
  | HandleStepEndMessage => bool_decide (msg_result message = None)
  | _ => false
  end.

(** The handler makes its call on the visualizer inside a [try] of its own. *)
Definition guarded (h : Handler) (message : Message) : bool :=
  match h with
  | HandleStartMessage => true
  | HandleStepStartMessage =>
      match msg_step message with
      | Some step => negb (truthy (s_id step))
      | None => false
      end
  | _ => false
  end.

(** The computation ended in an exception. *)
Definition threw {S A} (r : result S A) : bool :=
  match r_value r with
  | Throw _ => true
  | Ret _ => false
  end.

(** A frame the transport cannot hand to a handler in full: text that is not
    JSON, the JSON value [null], a [step-start] message without [step], a
    [step-end] message without [result]. *)
Definition malformed (data : Payload) : bool :=
  match data with
  | NotJson _ => true
  | JsonNull => true
  | JsonObject message =>
      (hasType "step-start" message && bool_decide (msg_step message = None)) ||
      (hasType "step-end" message && bool_decide (msg_result message = None))
  end.

(** [findById] answers for the identifier with something that is no element. *)
Definition inheritedOnly (v : GraphVisualizer) (id : string) : bool :=
  answered v id && negb (known v id).

(** A visit of the identifier throws: [findById] answers for it, and the
    visualizer is stuck or the answer is no element. *)
Definition visitThrows (v : GraphVisualizer) (id : string) : bool :=
  answered v id && (stuck v || negb (known v id)).

(** The identifier a [step-start] message passes to [updateStep] outside
    any [try]: the id of its step, when the step has one. *)
Definition visitedById (data : Payload) : option string :=
  match data with
  | JsonObject message =>
      if hasType "step-start" message then
        step ← msg_step message;
        if truthy (s_id step) then s_id step else None
      else None
  | _ => None
  end.

(** The type of the message names a function every object inherits, one that
    throws when it is called the way a handler is. *)
Definition throwingType (data : Payload) : bool :=
  match data with
  | JsonObject message =>
      match protoMember (default "undefined" (type message)) with
      | Some m => callable m && negb (returnsWithoutThis m)
      | None => false
      end
  | _ => false
  end.

(** The frames that end in the [catch] of [onmessage], in the state [a]: a
    malformed frame, a message whose type names an inherited function that
    throws, a [step-start] whose step id makes [updateStep] throw, and a
    failure report for an identifier that is no element although
    [findById] answers for it. *)
Definition endsInCatch (a : App) (data : Payload) : bool :=
  malformed data || throwingType data
  || from_option (visitThrows (graphVisualizer a)) false (visitedById data)
  || from_option (inheritedOnly (graphVisualizer a)) false (failedOf data).

(** ** Registrations *)

(** A sequence of [on] calls, in order. *)
Definition register (regs : list (string * Handler)) (c : WebSocketClient) : WebSocketClient :=
  fold_left (fun c r => on r.1 r.2 c) regs c.

(** The handler of the last registration for [k], starting from [o]. *)
Definition lastFor (k : string) (regs : list (string * Handler)) (o : option Handler)
    : option Handler :=
  fold_left (fun o r => if decide (r.1 = k) then Some r.2 else o) regs o.

Definition knownTypes : list string := ["start"; "step-start"; "step-end"; "end"; "error"].

(** ** Frames and the panels *)

(** The panel updates a frame leads to, through the handlers of main.js: none
    when no handler is registered for the type or the handler throws on its
    first line. *)
Definition frameUi (data : Payload) (u : UIManager) : UIManager :=
  match data with
  | JsonObject message =>
      match messageHandlers std !! default "undefined" (type message) with
      | Some (Some h) => if handlerThrows h message then u else handlerUi h message u
      | _ => u
      end
  | _ => u
  end.

Definition frameRunning (data : Payload) (b : bool) : bool :=
  match data with
  | JsonObject message =>
      match messageHandlers std !! default "undefined" (type message) with
      | Some (Some h) => if handlerThrows h message then b else handlerRunning h b
      | _ => b
      end
  | _ => b
  end.

(** A [start] message, with or without models. *)
Definition isStart (data : Payload) : bool :=
  match data with
  | JsonObject message => hasType "start" message
  | _ => false
  end.

(** The text a frame adds to the output panel: the output of a [step-end]
    result and the completion line of an [end], each followed by a newline. *)
Definition outputOf (data : Payload) : string :=
  match data with
  | JsonObject message =>
      if hasType "step-end" message then
        match msg_result message with
        | Some result =>
            if truthy (sr_output result) then default "" (sr_output result) +:+ newline
            else ""
        | None => ""
        end
      else if hasType "end" message then
        (newline +:+ "=== Test Execution Completed ===") +:+ newline
      else ""
  | _ => ""
  end.

Definition transcript (frames : list Payload) : string :=
  foldr (fun data rest => outputOf data +:+ rest) "" frames.

(** The error a frame reports, as message and trace: an [error] message, or a
    [step-end] whose result carries an error. *)
Definition errorOf (data : Payload) : option (string * string) :=
  match data with
  | JsonObject message =>
      if hasType "error" message then
        Some (js_or (msg_message message) "Unknown error", js_or (msg_trace message) "")
      else if hasType "step-end" message then
        result ← msg_result message;
        error ← sr_error result;
        Some (js_or (err_message error) "Unknown error", js_or (err_trace error) "")
      else None
  | _ => None
  end.

(** The step a [step-start] message carries. *)
Definition stepOf (data : Payload) : option Step :=
  match data with
  | JsonObject message => if hasType "step-start" message then msg_step message else None
  | _ => None
  end.

(** The status an [end] message reports: the one inside [statistics] wins
    over the message's own. *)
Definition statusOf (message : Message) : option bool :=
  match msg_statistics message ≫= st_status with
  | Some b => Some b
  | None => msg_status message
  end.

(** A step-end frame with output, for the examples. *)
Definition stepEndFrame (output : string) : Payload :=
  JsonObject
    {| type := Some "step-end"; msg_models := None; msg_step := None;
       msg_result := Some {| sr_id := None; sr_output := Some output; sr_error := None |};
       msg_status := None; msg_statistics := None; msg_message := None; msg_trace := None |}.

(** ** The colours of an item *)

(** The three style keys [updateElementColor] and [markElementAsFailed] write. *)
Definition colours (it : Item) : option string * option string * option string :=
  (fill (it_style it), stroke (it_style it), endArrowFill (it_style it)).

(** The colours an item of type [t] has when both keys of its type hold [c]. *)
Definition paint (t : ItemType) (c : string) : option string * option string * option string :=
  match t with
  | node => (Some c, Some c, None)
  | edge => (None, Some c, Some c)
  end.

(** The colours of a freshly rendered item. *)
Definition defaultColours (t : ItemType) : option string * option string * option string :=
  match t with
  | node => (Some "#ffffff", Some "#5B8FF9", None)
  | edge => (None, Some "#94a3b8", Some "#94a3b8")
  end.

(** The colours [markElementAsFailed] leaves. *)
Definition failureColours (t : ItemType) : option string * option string * option string :=
  match t with
  | node => (Some "#ef4444", Some "#dc2626", None)
  | edge => (None, Some "#ef4444", Some "#ef4444")
  end.

(** The colours of an element visited [count] times and not reported failed
    since its last visit. *)
Definition countColours (t : ItemType) (count : nat) : option string * option string * option string :=
  match count with
  | O => defaultColours t
  | S _ => paint t (colorScale count)
  end.

Definition ColourInv (v : GraphVisualizer) : Prop :=
  forall id it, itemOf v id = Some it ->
    colours it = failureColours (getType it) ∨
    colours it = countColours (getType it) (visitCount v id).

(** ** UIManager.setupResizer (ui.js) *)

Module Resizer.

(** What the three listeners of [setupResizer] read and write: the flag
    [isResizing] of the closure, the [style.width] of the two panels in
    pixels (none while the style sheet decides), the cursor and selection
    style of the body, and the number of [resize] events dispatched. *)
Record State := {
  isResizing : bool;
  leftWidth : option Z;
  rightWidth : option Z;
  cursor : string;
  userSelect : string;
  resizeEvents : nat
}.

Definition initial : State :=
  {| isResizing := false; leftWidth := None; rightWidth := None;
     cursor := ""; userSelect := ""; resizeEvents := 0 |}.

Definition mousedown (s : State) : State :=
  {| isResizing := true; leftWidth := leftWidth s; rightWidth := rightWidth s;
     cursor := "col-resize"; userSelect := "none"; resizeEvents := resizeEvents s |}.

(** [clientX] is the pointer position, [innerWidth] the window width when the
    event is handled. *)
Definition mousemove (clientX innerWidth : Z) (s : State) : State :=
  if negb (isResizing s) then s
  else
    let containerWidth := innerWidth in
    let leftWidth1 := clientX in
    let rightWidth1 := containerWidth - leftWidth1 - 8 in
    if (300 <? leftWidth1) && (300 <? rightWidth1) then
      {| isResizing := isResizing s; leftWidth := Some leftWidth1;
         rightWidth := Some rightWidth1; cursor := cursor s; userSelect := userSelect s;
         resizeEvents := S (resizeEvents s) |}
    else s.

Definition mouseup (s : State) : State :=
  if isResizing s then
    {| isResizing := false; leftWidth := leftWidth s; rightWidth := rightWidth s;
       cursor := ""; userSelect := ""; resizeEvents := resizeEvents s |}
  else s.

Inductive Event :=
  | MouseDown
  | MouseMove (clientX innerWidth : Z)
  | MouseUp.

Definition handle (s : State) (e : Event) : State :=
  match e with
  | MouseDown => mousedown s
  | MouseMove clientX innerWidth => mousemove clientX innerWidth s
  | MouseUp => mouseup s
  end.

Definition run (events : list Event) (s : State) : State := fold_left handle events s.

(** The panel widths are unset, or both set by one accepted move. *)
Definition Sized (events : list Event) (s : State) : Prop :=
  match leftWidth s, rightWidth s with
  | None, None => True
  | Some l, Some r =>
      300 < l ∧ 300 < r ∧ exists w, MouseMove l w ∈ events ∧ l + r + 8 = w
  | _, _ => False
  end.

End Resizer.

(** ** WebSocketClient: connect, send, disconnect (ui.js) *)

Module Socket.

(** A message handed to [send]: its [type] and, for the handshake, [client]. *)
Record Outgoing := {
  o_type : string;
  o_client : option string
}.

(** A message handed to [this.ws.send]: the socket it was handed to, by its
    number, and whether that socket was open at that moment. *)
Record Handed := {
  h_socket : nat;
  h_message : Outgoing;
  h_open : bool
}.

(** The transport side of the client.  Each [new WebSocket] is a socket of
    its own, numbered in order of creation; [ws] is the one [this.ws]
    holds.  [opened] lists the sockets that are open, [sent] the messages
    handed to [this.ws.send], in order, and [warnings] counts the warnings
    of [send].  Not embedded: what a socket does with a message handed to
    it while it is not open. *)
Record State := {
  ws : option nat;
  connected : bool;
  port : Z;
  created : nat;
  opened : list nat;
  sent : list Handed;
  warnings : nat
}.

Definition initial : State :=
  {| ws := None; connected := false; port := 5555; created := 0; opened := [];
     sent := []; warnings := 0 |}.

Definition send (message : Outgoing) (s : State) : State :=
  match ws s with
  | Some k =>
      if connected s then
        {| ws := ws s; connected := connected s; port := port s; created := created s;
           opened := opened s;
           sent := sent s ++ [ {| h_socket := k; h_message := message;
                                  h_open := bool_decide (k ∈ opened s) |} ];
           warnings := warnings s |}
      else
        {| ws := ws s; connected := connected s; port := port s; created := created s;
           opened := opened s; sent := sent s; warnings := S (warnings s) |}
  | None =>
      {| ws := ws s; connected := connected s; port := port s; created := created s;
         opened := opened s; sent := sent s; warnings := S (warnings s) |}
  end.

(** [connect(port)]: the port is stored first; a new socket is created, and
    stored in [this.ws], only when the health check answered.  The flag
    [connected] is left as it is. *)
Definition connect (newPort : Z) (healthy : bool) (s : State) : State :=
  {| ws := if healthy then Some (created s) else ws s;
     connected := connected s; port := newPort;
     created := if healthy then S (created s) else created s;
     opened := opened s; sent := sent s; warnings := warnings s |}.

Definition set_connected (b : bool) (s : State) : State :=
  {| ws := ws s; connected := b; port := port s; created := created s;
     opened := opened s; sent := sent s; warnings := warnings s |}.

Definition set_opened (l : list nat) (s : State) : State :=
  {| ws := ws s; connected := connected s; port := port s; created := created s;
     opened := l; sent := sent s; warnings := warnings s |}.

(** The [onopen] handler of any socket the client created: it sets the flag
    and sends the handshake through [this.ws], whichever socket that is. *)
Definition onopen (s : State) : State :=
  send {| o_type := "start"; o_client := None |}
    (send {| o_type := "init"; o_client := Some "viewer" |} (set_connected true s)).

Definition onerror (s : State) : State := set_connected false s.

Definition onclose (s : State) : State := set_connected false s.

Definition disconnect (s : State) : State :=
  match ws s with
  | Some k =>
      {| ws := None; connected := false; port := port s; created := created s;
         opened := List.filter (fun j => negb (Nat.eqb j k)) (opened s);
         sent := sent s; warnings := warnings s |}
  | None => s
  end.

Definition isConnected (s : State) : bool := connected s.

(** What happens to the client: its methods are called, and the sockets it
    created open, fail and close.  An event of a socket that was never
    created does not occur. *)
Inductive Event :=
  | Connect (port : Z) (healthy : bool)
  | Open (socket : nat)
  | Error (socket : nat)
  | Close (socket : nat)
  | Send (message : Outgoing)
  | Disconnect.

Definition handle (s : State) (e : Event) : State :=
  match e with
  | Connect p healthy => connect p healthy s
  | Open k =>
      if Nat.ltb k (created s) then onopen (set_opened (k :: opened s) s) else s
  | Error k => if Nat.ltb k (created s) then onerror s else s
  | Close k =>
      if Nat.ltb k (created s)
      then onclose (set_opened (List.filter (fun j => negb (Nat.eqb j k)) (opened s)) s)
      else s
  | Send message => send message s
  | Disconnect => disconnect s
  end.

Definition run (events : list Event) (s : State) : State := fold_left handle events s.

Definition isConnect (e : Event) : bool :=
  match e with
  | Connect _ true => true
  | _ => false
  end.

Definition isOpen (e : Event) : bool :=
  match e with
  | Open _ => true
  | _ => false
  end.

Definition init_message : Outgoing := {| o_type := "init"; o_client := Some "viewer" |}.
Definition start_message : Outgoing := {| o_type := "start"; o_client := None |}.

End Socket.

(** * Lemmas and theorems *)

#[local] Arguments G6_apply : simpl never.
#[local] Arguments convertModelsToG6Data : simpl never.
#[local] Arguments protoMember : simpl never.

(** ** Running a computation step by step *)

Ltac run_monad :=
  cbv [mbind M_bind mret M_ret get modify throw try_catch zoom deref]; cbn.

Lemma result_eta {S A} (r : result S A) :
  Result (r_value r) (r_state r) (r_calls r) = r.
Proof. by destruct r. Qed.

Lemma bind_Ret {S A B} (m : M S A) (k : A -> M S B) s a s1 cs :
  m s = Result (Ret a) s1 cs ->
  (m ≫= k) s = Result (r_value (k a s1)) (r_state (k a s1)) (cs ++ r_calls (k a s1)).
Proof. intros H. unfold mbind, M_bind. by rewrite H. Qed.

Lemma bind_Throw {S A B} (m : M S A) (k : A -> M S B) s e s1 cs :
  m s = Result (Throw e) s1 cs ->
  (m ≫= k) s = Result (Throw e) s1 cs.
Proof. intros H. unfold mbind, M_bind. by rewrite H. Qed.

Lemma bind_pure {S A B} (m : M S A) (k : A -> M S B) s a s1 :
  m s = Result (Ret a) s1 [] -> (m ≫= k) s = k a s1.
Proof. intros H. erewrite bind_Ret by done. apply result_eta. Qed.

Lemma get_bind {S B} (k : S -> M S B) s : (get ≫= k) s = k s s.
Proof. by apply bind_pure. Qed.

Lemma modify_bind {S B} (f : S -> S) (k : unit -> M S B) s :
  (modify f ≫= k) s = k tt (f s).
Proof. by apply bind_pure. Qed.

Lemma mret_bind {S A B} (a : A) (k : A -> M S B) s : (mret a ≫= k) s = k a s.
Proof. by apply bind_pure. Qed.

(** ** Reading the item table *)

Lemma lookupItem_Some m id it : m !! id = Some it -> lookupItem m id = Found it.
Proof. intros H. unfold lookupItem. by rewrite H. Qed.

Lemma lookupItem_Found m id it : lookupItem m id = Found it ↔ m !! id = Some it.
Proof. unfold lookupItem. destruct (m !! id), (protoMember id); intuition congruence. Qed.

Lemma lookupItem_Inherited m id member :
  lookupItem m id = Inherited member ↔ m !! id = None ∧ protoMember id = Some member.
Proof. unfold lookupItem. destruct (m !! id), (protoMember id); intuition congruence. Qed.

Lemma lookupItem_Undefined m id :
  lookupItem m id = Undefined ↔ m !! id = None ∧ protoMember id = None.
Proof. unfold lookupItem. destruct (m !! id), (protoMember id); intuition congruence. Qed.

Lemma lookup_updateItem g x p id :
  itemMap (G6_apply (CallUpdateItem x p) g) !! id =
    if decide (x = id) then patchItem p <$> itemMap g !! id else itemMap g !! id.
Proof. unfold G6_apply. cbn. rewrite lookup_alter. case_decide; subst; done. Qed.

Lemma findById_updateItem g x p id :
  G6_findById (G6_apply (CallUpdateItem x p) g) id =
    match G6_findById g id with
    | Found it => Found (if decide (x = id) then patchItem p it else it)
    | answer => answer
    end.
Proof.
  unfold G6_findById, lookupItem. rewrite lookup_updateItem.
  destruct (itemMap g !! id) as [it|]; case_decide; cbn; try done; by destruct (protoMember id).
Qed.

Lemma lookup_unhighlight g cur id :
  itemMap (replay (unhighlightCalls g cur) g) !! id =
    if decide (cur = Some id ∧ id ≠ "")
    then patchItem (highlightPatch false) <$> itemMap g !! id
    else itemMap g !! id.
Proof.
  unfold unhighlightCalls.
  destruct (decide (cur = Some id ∧ id ≠ "")) as [[-> Hne]|Hn].
  - apply String.eqb_neq in Hne as Hb. rewrite Hb.
    destruct (itemMap g !! id) eqn:E; cbn.
    + rewrite lookup_updateItem, decide_True by done. by rewrite E.
    + by rewrite E.
  - destruct cur as [prev|]; [|done].
    destruct (String.eqb_spec prev "") as [->|Hp]; [done|].
    destruct (itemMap g !! prev) eqn:E; [|done]. cbn.
    rewrite lookup_updateItem, decide_False; [done|].
    intros ->. by apply Hn.
Qed.

(** ** The methods of the visualizer, once the surface exists *)

Lemma surface_eq v g : graph v = Some g -> surface v = g.
Proof. intros H. unfold surface. by rewrite H. Qed.

Lemma lookupOf_eq v g id : graph v = Some g -> lookupOf v id = G6_findById g id.
Proof. intros H. unfold lookupOf. by rewrite (surface_eq _ _ H). Qed.

Lemma findById_eq v g id :
  graph v = Some g -> findById id v = Result (Ret (G6_findById g id)) v [].
Proof. intros Hg. unfold findById. rewrite get_bind, Hg. done. Qed.

Lemma findById_null v id :
  graph v = None ->
  findById id v =
    Result (Throw (TypeError "Cannot read properties of undefined (reading findById)")) v [].
Proof. intros Hg. unfold findById. rewrite get_bind, Hg. done. Qed.

Lemma g6_eq v g c :
  graph v = Some g -> g6 c v = Result (Ret tt) (set_graph (Some (G6_apply c g)) v) [c].
Proof. intros Hg. unfold g6. by rewrite Hg. Qed.

Lemma highlightElement_eq v g id b :
  graph v = Some g ->
  highlightElement id b v =
    match G6_findById g id with
    | Found _ =>
        Result (Ret tt)
          (set_graph (Some (G6_apply (CallUpdateItem id (highlightPatch b)) g)) v)
          [CallUpdateItem id (highlightPatch b)]
    | Inherited _ => Result (Throw (TypeError "item.getType is not a function")) v []
    | Undefined => Result (Ret tt) v []
    end.
Proof.
  intros Hg. unfold highlightElement.
  erewrite bind_pure by (by apply findById_eq).
  destruct (G6_findById g id) as [it| |]; [|done..].
  destruct (getType it); by apply g6_eq.
Qed.

Lemma updateElementColor_eq v g id :
  graph v = Some g ->
  updateElementColor id v =
    match G6_findById g id with
    | Found it =>
        let c := CallUpdateItem id (colorPatch (getType it) (colorOf (visitCounts v) id)) in
        Result (Ret tt) (set_graph (Some (G6_apply c g)) v) [c]
    | Inherited _ => Result (Throw (TypeError "item.getType is not a function")) v []
    | Undefined => Result (Ret tt) v []
    end.
Proof.
  intros Hg. unfold updateElementColor. rewrite get_bind.
  erewrite bind_pure by (by apply findById_eq).
  destruct (G6_findById g id) as [it| |]; [|done..]. by apply g6_eq.
Qed.

Lemma markElementAsFailed_eq v g id :
  graph v = Some g ->
  markElementAsFailed id v =
    match G6_findById g id with
    | Found it =>
        let c := CallUpdateItem id (failedPatch (getType it)) in
        Result (Ret tt) (set_graph (Some (G6_apply c g)) (set_failedStepId (Some id) v)) [c]
    | Inherited _ =>
        Result (Throw (TypeError "item.getType is not a function"))
          (set_failedStepId (Some id) v) []
    | Undefined => Result (Ret tt) (set_failedStepId (Some id) v) []
    end.
Proof.
  intros Hg. unfold markElementAsFailed. rewrite modify_bind.
  erewrite bind_pure by (by apply findById_eq).
  destruct (G6_findById g id) as [it| |]; [|done..]. by apply g6_eq.
Qed.

Lemma getType_patchItem p it : getType (patchItem p it) = getType it.
Proof. done. Qed.

Lemma stuck_eq v g :
  graph v = Some g ->
  stuck v =
    match currentStepId v with
    | Some previous =>
        if String.eqb previous "" then false
        else match G6_findById g previous with
             | Inherited _ => true
             | _ => false
             end
    | None => false
    end.
Proof. intros Hg. unfold stuck. destruct (currentStepId v); [|done]. by rewrite (lookupOf_eq _ g). Qed.

(** The first step of a visit: the highlight of the previous element goes. *)
Lemma unhighlight_eq v g :
  graph v = Some g ->
  (match currentStepId v with
   | Some previous =>
       if String.eqb previous "" then mret tt else highlightElement previous false
   | None => mret tt
   end : M GraphVisualizer unit) v =
    if stuck v
    then Result (Throw (TypeError "item.getType is not a function")) v []
    else Result (Ret tt)
           (set_graph (Some (replay (unhighlightCalls g (currentStepId v)) g)) v)
           (unhighlightCalls g (currentStepId v)).
Proof.
  intros Hg. rewrite (stuck_eq _ g Hg). unfold unhighlightCalls.
  assert (set_graph (Some g) v = v) as Hid by (destruct v; cbn in *; by subst).
  destruct (currentStepId v) as [prev|]; [|by rewrite <- Hid at 1].
  destruct (String.eqb prev ""); [by rewrite <- Hid at 1|].
  rewrite (highlightElement_eq _ g) by done. unfold G6_findById, lookupItem.
  destruct (itemMap g !! prev); [done|]. destruct (protoMember prev); [done|].
  by rewrite <- Hid at 1.
Qed.

Lemma replay_app cs1 cs2 g : replay (cs1 ++ cs2) g = replay cs2 (replay cs1 g).
Proof. apply fold_left_app. Qed.

Lemma findById_unhighlight g cur id :
  G6_findById (replay (unhighlightCalls g cur) g) id =
    match G6_findById g id with
    | Found it =>
        Found (if decide (cur = Some id ∧ id ≠ "")
               then patchItem (highlightPatch false) it else it)
    | answer => answer
    end.
Proof.
  unfold G6_findById, lookupItem. rewrite lookup_unhighlight.
  destruct (itemMap g !! id) as [it|]; case_decide; cbn; try done;
    by destruct (protoMember id).
Qed.

(** The part of [updateStep] that follows the removal of the old highlight. *)
Lemma updateStep_tail_eq v g id :
  graph v = Some g ->
  ((modify (fun v => set_visitCounts
              (assign id (plusOne (visitCounts v) id) (visitCounts v)) v);;
    modify (set_currentStepId (Some id));;
    updateElementColor id;;
    highlightElement id true) : M GraphVisualizer unit) v =
  match G6_findById g id with
  | Found it =>
      let color := colorOf (assign id (plusOne (visitCounts v) id) (visitCounts v)) id in
      let cs := [CallUpdateItem id (colorPatch (getType it) color);
                 CallUpdateItem id (highlightPatch true)] in
      Result (Ret tt) (visitedState v (replay cs g) id) cs
  | Inherited _ =>
      Result (Throw (TypeError "item.getType is not a function")) (visitedState v g id) []
  | Undefined => Result (Ret tt) (visitedState v g id) []
  end.
Proof.
  intros Hg. rewrite !modify_bind.
  set (v1 := set_currentStepId (Some id) (set_visitCounts _ v)).
  assert (graph v1 = Some g) as Hg1 by done.
  pose proof (updateElementColor_eq v1 g id Hg1) as Hc.
  destruct (G6_findById g id) as [it|m|] eqn:Hl.
  - erewrite bind_Ret by exact Hc. erewrite highlightElement_eq by reflexivity.
    rewrite findById_updateItem, Hl. done.
  - erewrite bind_Throw by exact Hc. subst v1. destruct v; cbn in *. by subst.
  - erewrite bind_pure by exact Hc. erewrite highlightElement_eq by exact Hg1.
    rewrite Hl. subst v1. destruct v; cbn in *. by subst.
Qed.

Lemma updateStep_eq v g id :
  graph v = Some g ->
  updateStep id v =
    if String.eqb id "" then Result (Ret tt) v []
    else
      match G6_findById g id with
      | Undefined => Result (Ret tt) v []
      | answer =>
          if stuck v
          then Result (Throw (TypeError "item.getType is not a function")) v []
          else
            match answer with
            | Found it =>
                let color :=
                  colorOf (assign id (plusOne (visitCounts v) id) (visitCounts v)) id in
                let cs := visitCalls g (currentStepId v) id (getType it) color in
                Result (Ret tt) (visitedState v (replay cs g) id) cs
            | _ =>
                let cs := unhighlightCalls g (currentStepId v) in
                Result (Throw (TypeError "item.getType is not a function"))
                  (visitedState v (replay cs g) id) cs
            end
      end.
Proof.
  intros Hg. unfold updateStep. rewrite get_bind, Hg.
  destruct (String.eqb id ""); [done|].
  erewrite bind_pure by (by apply findById_eq).
  pose proof (unhighlight_eq v g Hg) as Hu.
  pose proof (findById_unhighlight g (currentStepId v) id) as Hf.
  destruct (G6_findById g id) as [it|m|] eqn:Hl; [| |done].
  - destruct (stuck v).
    + erewrite bind_Throw by exact Hu. done.
    + erewrite bind_Ret by exact Hu.
      rewrite (updateStep_tail_eq (set_graph (Some (replay (unhighlightCalls g (currentStepId v)) g)) v) (replay (unhighlightCalls g (currentStepId v)) g) id eq_refl), Hf. cbn.
      unfold visitCalls. rewrite replay_app.
      assert (getType (if decide (currentStepId v = Some id ∧ id ≠ "")
                                    then patchItem (highlightPatch false) it else it)
                          = getType it) as Ht by (by case_decide).
      rewrite Ht by done. reflexivity.
  - destruct (stuck v).
    + erewrite bind_Throw by exact Hu. done.
    + erewrite bind_Ret by exact Hu.
      rewrite (updateStep_tail_eq (set_graph (Some (replay (unhighlightCalls g (currentStepId v)) g)) v) (replay (unhighlightCalls g (currentStepId v)) g) id eq_refl), Hf. cbn. by rewrite app_nil_r.
Qed.

Lemma updateStep_unresolved v g id :
  graph v = Some g ->
  id = "" ∨ G6_findById g id = Undefined ->
  updateStep id v = Result (Ret tt) v [].
Proof.
  intros Hg H. rewrite (updateStep_eq _ g) by done.
  destruct (String.eqb_spec id "") as [-> |Hne]; [done|].
  destruct H as [?| ->]; done.
Qed.

Lemma updateStep_stuck v g id :
  graph v = Some g -> id ≠ "" -> G6_findById g id ≠ Undefined -> stuck v = true ->
  updateStep id v = Result (Throw (TypeError "item.getType is not a function")) v [].
Proof.
  intros Hg Hne Hl Hs. rewrite (updateStep_eq _ g) by done.
  apply String.eqb_neq in Hne as ->. rewrite Hs. by destruct (G6_findById g id).
Qed.

Lemma updateStep_inherited v g id m :
  graph v = Some g -> id ≠ "" -> G6_findById g id = Inherited m -> stuck v = false ->
  let cs := unhighlightCalls g (currentStepId v) in
  updateStep id v =
    Result (Throw (TypeError "item.getType is not a function"))
      (visitedState v (replay cs g) id) cs.
Proof.
  intros Hg Hne Hl Hs. rewrite (updateStep_eq _ g) by done.
  apply String.eqb_neq in Hne as ->. by rewrite Hl, Hs.
Qed.

Lemma updateStep_resolved v g id it :
  graph v = Some g -> id ≠ "" -> itemMap g !! id = Some it -> stuck v = false ->
  let color := colorOf (assign id (plusOne (visitCounts v) id) (visitCounts v)) id in
  let cs := visitCalls g (currentStepId v) id (getType it) color in
  updateStep id v = Result (Ret tt) (visitedState v (replay cs g) id) cs.
Proof.
  intros Hg Hne Hl Hs. rewrite (updateStep_eq _ g) by done.
  apply String.eqb_neq in Hne as ->.
  unfold G6_findById. rewrite (lookupItem_Some _ _ _ Hl), Hs. done.
Qed.

(** The four ways a call of [updateStep] can go. *)
Lemma updateStep_cases v g id :
  graph v = Some g ->
  (updateStep id v = Result (Ret tt) v [] ∧ (id = "" ∨ G6_findById g id = Undefined)) ∨
  (updateStep id v = Result (Throw (TypeError "item.getType is not a function")) v [] ∧
   id ≠ "" ∧ G6_findById g id ≠ Undefined ∧ stuck v = true) ∨
  (exists m,
     updateStep id v =
       Result (Throw (TypeError "item.getType is not a function"))
         (visitedState v (replay (unhighlightCalls g (currentStepId v)) g) id)
         (unhighlightCalls g (currentStepId v)) ∧
     id ≠ "" ∧ G6_findById g id = Inherited m ∧ stuck v = false) ∨
  (exists it,
     let color := colorOf (assign id (plusOne (visitCounts v) id) (visitCounts v)) id in
     let cs := visitCalls g (currentStepId v) id (getType it) color in
     updateStep id v = Result (Ret tt) (visitedState v (replay cs g) id) cs ∧
     id ≠ "" ∧ itemMap g !! id = Some it ∧ stuck v = false).
Proof.
  intros Hg. destruct (decide (id = "")) as [-> |Hne].
  { left. split; [|by left]. by eapply updateStep_unresolved; eauto. }
  destruct (G6_findById g id) as [it|m|] eqn:Hl.
  - destruct (stuck v) eqn:Hs.
    + right; left. split; [|done]. eapply updateStep_stuck; eauto. congruence.
    + right; right; right. exists it. apply lookupItem_Found in Hl as Hit.
      split; [|done]. by eapply updateStep_resolved.
  - destruct (stuck v) eqn:Hs.
    + right; left. split; [|done]. eapply updateStep_stuck; eauto. congruence.
    + right; right; left. exists m. split; [|done]. by eapply updateStep_inherited.
  - left. split; [|by right]. eapply updateStep_unresolved; eauto.
Qed.

Lemma renderGraph_eq v :
  renderGraph v =
    match graph v, models v with
    | Some g, _ :: _ =>
        let d := convertModelsToG6Data (models v) in
        Result (Ret tt)
          (set_graph (Some {| g6_data := d; itemMap := G6_render d |}) v)
          [CallData d; CallRender; CallFitView 40]
    | _, _ => Result (Ret tt) v []
    end.
Proof.
  unfold renderGraph. rewrite get_bind.
  destruct (graph v) as [g|] eqn:Hg; [|done].
  destruct (models v) as [|m ms] eqn:Hm; [done|].
  erewrite bind_Ret by (by apply g6_eq).
  erewrite bind_Ret by (by apply g6_eq).
  erewrite g6_eq by reflexivity. cbn.
  destruct v; cbn in *. done.
Qed.

Lemma setModels_eq v ms :
  setModels ms v =
    match graph v, ms with
    | Some g, _ :: _ =>
        let d := convertModelsToG6Data ms in
        Result (Ret tt)
          {| graph := Some {| g6_data := d; itemMap := G6_render d |};
             models := ms; visitCounts := ∅; currentStepId := None;
             failedStepId := None; layoutDirection := layoutDirection v |}
          [CallData d; CallRender; CallFitView 40]
    | _, _ =>
        Result (Ret tt)
          {| graph := graph v; models := ms; visitCounts := ∅; currentStepId := None;
             failedStepId := None; layoutDirection := layoutDirection v |}
          []
    end.
Proof.
  unfold setModels. rewrite !modify_bind, renderGraph_eq.
  destruct v as [[g|] ms0 vc cur failed dir], ms; done.
Qed.

Lemma clear_eq v :
  clear v =
    Result (Ret tt)
      {| graph := G6_apply CallClear <$> graph v; models := models v; visitCounts := ∅;
         currentStepId := None; failedStepId := None;
         layoutDirection := layoutDirection v |}
      (match graph v with Some _ => [CallClear] | None => [] end).
Proof.
  unfold clear. rewrite get_bind.
  destruct (graph v) as [g|] eqn:Hg.
  - erewrite bind_Ret by (by apply g6_eq). rewrite !modify_bind. done.
  - rewrite mret_bind, !modify_bind. destruct v; cbn in *. by subst.
Qed.

(** ** From a frame to the operation on the visualizer *)

Ltac run_app :=
  cbv [mbind M_bind mret M_ret get modify throw try_catch zoom deref ui viz log
       set_graphVisualizer set_uiManager set_isRunning set_console
       graphVisualizer wsClient uiManager isRunning console
       r_value r_state r_calls].

#[local] Opaque updateStep markElementAsFailed setModels.

Ltac crunch :=
  run_app; repeat (case_match; simplify_eq/=); rewrite ?app_nil_r; split_and?; try done; try congruence.

Lemma call_viz h message a :
  let r := call h message a in
  let rv := doOp (handlerOp h message) (graphVisualizer a) in
  graphVisualizer (r_state r) = r_state rv ∧ r_calls r = r_calls rv ∧
  wsClient (r_state r) = wsClient a ∧ console (r_state r) = console a.
Proof.
  destruct a as [gv u c run0 con].
  destruct h; cbn [call handlerOp].
  - unfold handleStartMessage, doOp. crunch.
  - unfold handleStepStartMessage, doOp. crunch.
  - unfold handleStepEndMessage, doOp. crunch.
  - unfold handleEndMessage, doOp. crunch.
  - unfold handleErrorMessage, doOp. crunch.
Qed.

(** The whole effect of a handler: the panels and [isRunning] are written
    before the call on the visualizer or whatever that call does. *)
Lemma call_app h message a :
  let rv := doOp (handlerOp h message) (graphVisualizer a) in
  let r := call h message a in
  r_state r =
    (if handlerThrows h message then a
     else {| graphVisualizer := r_state rv; uiManager := handlerUi h message (uiManager a);
             wsClient := wsClient a; isRunning := handlerRunning h (isRunning a);
             console := console a |}) ∧
  (if handlerThrows h message then exists e, r_value r = Throw e
   else threw r = negb (guarded h message) && threw rv).
Proof.
  intros rv r. subst rv r.
  destruct a as [gv u c run0 con]. cbn [graphVisualizer uiManager wsClient isRunning console] in *.
  destruct h; cbn [call handlerOp handlerUi handlerRunning handlerThrows guarded] in *.
  - unfold handleStartMessage, threw.
    destruct (msg_models message) as [[|m ms]|]; cbn [doOp] in *; [by run_app| |by run_app].
    run_app. by destruct (setModels (m :: ms) gv) as [[[]|e] s cs].
  - unfold handleStepStartMessage, threw.
    destruct (msg_step message) as [step|]; [|rewrite bool_decide_eq_true_2 by done; run_app; eauto].
    rewrite bool_decide_eq_false_2 by done. run_app.
    destruct (truthy (s_id step)); cbn [doOp negb andb] in *.
    { by destruct (updateStep _ gv) as [[[]|e] s cs]. }
    destruct (truthy (s_name step)); cbn [doOp] in *; [|done].
    by destruct (updateStep _ gv) as [[[]|e] s cs].
  - unfold handleStepEndMessage, threw.
    destruct (msg_result message) as [result|]; [|rewrite bool_decide_eq_true_2 by done; run_app; eauto].
    rewrite bool_decide_eq_false_2 by done. run_app.
    destruct (sr_error result) as [error|]; cbn [doOp] in *.
    + destruct (truthy (sr_id result)); cbn [doOp] in *.
      * destruct (truthy (sr_output result));
          by destruct (markElementAsFailed _ gv) as [[[]|e] s cs].
      * by destruct (truthy (sr_output result)).
    + by destruct (truthy (sr_output result)).
  - unfold handleEndMessage, threw. destruct (msg_statistics message); by run_app.
  - unfold handleErrorMessage, threw.
    destruct (msg_step message) as [step|]; cbn [doOp] in *; [|by run_app].
    destruct (truthy (s_id step)); cbn [doOp] in *; [|by run_app].
    run_app. by destruct (markElementAsFailed _ gv) as [[[]|e] s cs].
Qed.

Lemma onmessage_viz data a :
  let r := onmessage data a in
  let rv := doOp (frameOp (wsClient a) data) (graphVisualizer a) in
  r_value r = Ret tt ∧ graphVisualizer (r_state r) = r_state rv ∧
  r_calls r = r_calls rv ∧ wsClient (r_state r) = wsClient a.
Proof.
  destruct data as [raw | | message]; [by destruct a | by destruct a |].
  unfold onmessage, JSON_parse, handleMessage, frameOp.
  destruct (messageHandlers (wsClient a) !! default "undefined" (type message))
    as [[h|]|] eqn:Hh.
  - pose proof (call_viz h message
        (set_console (console a ++ [ConsoleLog "DEBUG [CLIENT]: Received message:"]) a))
      as (Hv & Hc & Hw & _).
    destruct a as [gv u c run0 con]. cbn in Hh, Hv, Hc, Hw. cbn [wsClient graphVisualizer].
    run_app. cbn. rewrite Hh.
    destruct (call h message _) as [[[]|e] s cs]; cbn in *; rewrite ?app_nil_r; by split_and!.
  - destruct a as [gv u c run0 con]. cbn in Hh. run_app. cbn. by rewrite Hh.
  - destruct a as [gv u c run0 con]. cbn in Hh. unfold callInherited. run_app. cbn.
    rewrite Hh. destruct (protoMember _) as [m|]; [|done].
    by destruct (callable m), (returnsWithoutThis m).
Qed.

#[local] Transparent updateStep markElementAsFailed setModels.

Lemma deliver_viz a data :
  graphVisualizer (deliver a data) =
    r_state (doOp (frameOp (wsClient a) data) (graphVisualizer a)).
Proof. apply onmessage_viz. Qed.

Lemma deliver_wsClient a data : wsClient (deliver a data) = wsClient a.
Proof. apply onmessage_viz. Qed.

Lemma run_wsClient frames a : wsClient (run frames a) = wsClient a.
Proof.
  revert a. induction frames as [|p frames IH]; intros a; [done|].
  cbn. unfold run in IH. by rewrite IH, deliver_wsClient.
Qed.

Lemma run_app_eq frames1 frames2 a : run (frames1 ++ frames2) a = run frames2 (run frames1 a).
Proof. apply fold_left_app. Qed.

Lemma std_handlers k :
  messageHandlers std !! k =
    if decide (k = "error") then Some (Some HandleErrorMessage)
    else if decide (k = "end") then Some (Some HandleEndMessage)
    else if decide (k = "step-end") then Some (Some HandleStepEndMessage)
    else if decide (k = "step-start") then Some (Some HandleStepStartMessage)
    else if decide (k = "start") then Some (Some HandleStartMessage)
    else None.
Proof.
  assert (messageHandlers std =
    <["error" := Some HandleErrorMessage]> (<["end" := Some HandleEndMessage]>
    (<["step-end" := Some HandleStepEndMessage]> (<["step-start" := Some HandleStepStartMessage]>
    (<["start" := Some HandleStartMessage]> ∅))))) as ->.
  { vm_compute. reflexivity. }
  repeat (rewrite lookup_insert; case_decide; [subst; rewrite ?decide_True by done; done|]).
  rewrite lookup_empty. repeat (rewrite decide_False by done). done.
Qed.

Lemma init_wsClient u : wsClient (init u) = std.
Proof. done. Qed.

Lemma init_graph u : graph (graphVisualizer (init u)) = Some G6_new.
Proof. done. Qed.

Lemma truthy_default o : truthy o = true -> o = Some (default "" o) ∧ default "" o ≠ "".
Proof.
  destruct o as [t|]; cbn; [|done]. destruct (String.eqb_spec t ""); cbn; [done|]. done.
Qed.

Lemma stepKey_Some step id : stepKey step = Some id -> id ≠ "".
Proof.
  unfold stepKey. destruct (truthy (s_id step)) eqn:E1.
  - apply truthy_default in E1 as [E ?]. rewrite E. by intros [= <-].
  - destruct (truthy (s_name step)) eqn:E2; [|done].
    apply truthy_default in E2 as [E ?]. rewrite E. by intros [= <-].
Qed.

Lemma handlerOp_stepStart message :
  handlerOp HandleStepStartMessage message =
    match msg_step message ≫= stepKey with
    | Some id => OpUpdateStep id
    | None => OpNone
    end.
Proof.
  cbn. destruct (msg_step message) as [step|]; cbn; [|done]. unfold stepKey.
  destruct (truthy (s_id step)) eqn:E1.
  - apply truthy_default in E1 as [-> ?]. done.
  - destruct (truthy (s_name step)) eqn:E2; [|done].
    apply truthy_default in E2 as [-> ?]. done.
Qed.

Lemma frameOp_std_cases data :
  match opKind (frameOp std data) with
  | KRebuild => isRunStart data = true ∧ visited data = None ∧ failedOf data = None
  | KVisit id => isRunStart data = false ∧ visited data = Some id ∧ failedOf data = None
  | KFail id => isRunStart data = false ∧ visited data = None ∧ failedOf data = Some id
  | KNone => isRunStart data = false ∧ visited data = None ∧ failedOf data = None
  end.
Proof.
  destruct data as [raw | | message]; cbn; [done..|].
  rewrite std_handlers. unfold hasType.
  destruct (type message) as [t|]; cbn; [|done].
  destruct (decide (t = "error")) as [-> |He].
  { cbn. destruct (msg_step message) as [step|]; cbn; [|done].
    destruct (truthy (s_id step)) eqn:E; cbn; [|done].
    by apply truthy_default in E as [<- _]. }
  apply String.eqb_neq in He as ->.
  destruct (decide (t = "end")) as [-> |Hn]; [done|].
  destruct (decide (t = "step-end")) as [-> |Hse].
  { cbn. destruct (msg_result message) as [result|]; cbn; [|done].
    destruct (sr_error result); cbn; [|done].
    destruct (truthy (sr_id result)) eqn:E; cbn; [|done].
    by apply truthy_default in E as [<- _]. }
  apply String.eqb_neq in Hse as ->.
  destruct (decide (t = "step-start")) as [-> |Hss].
  { cbn. fold (handlerOp HandleStepStartMessage message). rewrite handlerOp_stepStart.
    by destruct (msg_step message ≫= stepKey). }
  apply String.eqb_neq in Hss as ->.
  destruct (decide (t = "start")) as [-> |Hs].
  { cbn. repeat case_match; done. }
  apply String.eqb_neq in Hs as ->. done.
Qed.

Lemma frameOp_std_runStart data :
  isRunStart data = true ->
  exists message m ms,
    data = JsonObject message ∧ msg_models message = Some (m :: ms) ∧
    frameOp std data = OpSetModels (m :: ms).
Proof.
  destruct data as [raw | | message]; cbn; [done..|].
  unfold hasType. destruct (type message) as [t|] eqn:Ht; cbn; [|done].
  destruct (String.eqb_spec t "start") as [-> |]; cbn; [|done].
  destruct (msg_models message) as [[|m ms]|] eqn:Hm; [done| |done].
  intros _. exists message, m, ms. split_and!; [done..|].
  rewrite std_handlers. repeat (case_decide; [done|]). rewrite decide_True by done.
  cbn. by rewrite Hm.
Qed.

(** The operation of a frame, read off the frame. *)
Lemma frameOp_std_visit data id :
  visited data = Some id -> frameOp std data = OpUpdateStep id.
Proof.
  intros Hv. pose proof (frameOp_std_cases data) as Hc.
  destruct (frameOp std data) as [|ms|x|x]; cbn [opKind] in Hc;
    destruct Hc as (_ & Hc & _); congruence.
Qed.

Lemma frameOp_std_failed data id :
  failedOf data = Some id -> frameOp std data = OpMarkFailed id.
Proof.
  intros Hv. pose proof (frameOp_std_cases data) as Hc.
  destruct (frameOp std data) as [|ms|x|x]; cbn [opKind] in Hc;
    destruct Hc as (_ & _ & Hc); congruence.
Qed.

Lemma frameOp_std_none data :
  isRunStart data = false -> visited data = None -> failedOf data = None ->
  frameOp std data = OpNone.
Proof.
  intros H1 H2 H3. pose proof (frameOp_std_cases data) as Hc.
  destruct (frameOp std data) as [|ms|x|x]; cbn [opKind] in Hc;
    destruct Hc as (? & ? & ?); congruence.
Qed.

(** ** Style updates keep the set of items *)

Lemma updateItem_is_Some g x p id :
  is_Some (itemMap (G6_apply (CallUpdateItem x p) g) !! id) ↔ is_Some (itemMap g !! id).
Proof. rewrite lookup_updateItem. case_decide; [apply fmap_is_Some|done]. Qed.

Lemma replay_updates_is_Some cs g id :
  Forall isUpdate cs ->
  is_Some (itemMap (replay cs g) !! id) ↔ is_Some (itemMap g !! id).
Proof.
  intros H. revert g. induction H as [|c cs Hc _ IH]; intros g; [done|].
  cbn. fold (replay cs (G6_apply c g)). rewrite IH.
  destruct c; try done. apply updateItem_is_Some.
Qed.

Lemma unhighlightCalls_updates g cur : Forall isUpdate (unhighlightCalls g cur).
Proof.
  unfold unhighlightCalls. destruct cur as [prev|]; [|done].
  destruct (String.eqb prev ""); [done|]. destruct (itemMap g !! prev); repeat constructor.
Qed.

Lemma visitCalls_updates g cur id t n : Forall isUpdate (visitCalls g cur id t n).
Proof.
  unfold visitCalls. apply Forall_app. split; [apply unhighlightCalls_updates|].
  repeat constructor.
Qed.

Lemma known_iff v g id : graph v = Some g -> known v id = true ↔ is_Some (itemMap g !! id).
Proof. intros Hg. unfold known. rewrite Hg. apply bool_decide_eq_true. Qed.

Lemma known_false v g id : graph v = Some g -> known v id = false ↔ itemMap g !! id = None.
Proof.
  intros Hg. unfold known. rewrite Hg, bool_decide_eq_false, <- eq_None_not_Some. done.
Qed.

Lemma known_ext v v' g g' :
  graph v = Some g -> graph v' = Some g' ->
  (forall id, is_Some (itemMap g' !! id) ↔ is_Some (itemMap g !! id)) ->
  forall id, known v' id = known v id.
Proof.
  intros Hg Hg' H id. unfold known. rewrite Hg, Hg'. apply bool_decide_ext, H.
Qed.

(** What [findById] answers is an item as long as the item table has the
    identifier; otherwise the answer depends on the identifier alone. *)
Lemma lookupItem_None m id :
  m !! id = None ->
  lookupItem m id = match protoMember id with Some member => Inherited member | None => Undefined end.
Proof. intros H. unfold lookupItem. by rewrite H. Qed.

Lemma lookupItem_ext m m' id :
  (is_Some (m' !! id) ↔ is_Some (m !! id)) ->
  match lookupItem m id with
  | Found _ => exists it', lookupItem m' id = Found it'
  | answer => lookupItem m' id = answer
  end.
Proof.
  intros H. unfold lookupItem.
  destruct (m !! id) as [it|] eqn:E.
  - destruct (proj2 H) as [it' ->]; eauto.
  - destruct (m' !! id) as [it'|] eqn:E'.
    + destruct (proj1 H) as [? ?]; [eauto|done].
    + by destruct (protoMember id).
Qed.

Lemma findById_replay_updates cs g id :
  Forall isUpdate cs ->
  match G6_findById g id with
  | Found _ => exists it', G6_findById (replay cs g) id = Found it'
  | answer => G6_findById (replay cs g) id = answer
  end.
Proof. intros H. apply lookupItem_ext. by apply replay_updates_is_Some. Qed.

Lemma answered_iff v g id :
  graph v = Some g -> answered v id = true ↔ G6_findById g id ≠ Undefined.
Proof.
  intros Hg. unfold answered, lookupOf. rewrite (surface_eq _ _ Hg).
  by destruct (G6_findById g id).
Qed.

Lemma answered_false v g id :
  graph v = Some g -> answered v id = false ↔ G6_findById g id = Undefined.
Proof.
  intros Hg. unfold answered, lookupOf. rewrite (surface_eq _ _ Hg).
  by destruct (G6_findById g id).
Qed.

Lemma known_answered v id : known v id = true -> answered v id = true.
Proof.
  unfold known, answered, lookupOf, surface. destruct (graph v) as [g|]; [|done]. cbn.
  intros [it Hit]%bool_decide_eq_true. unfold G6_findById. by rewrite (lookupItem_Some _ _ _ Hit).
Qed.

Lemma answered_plain v id :
  protoMember id = None -> answered v id = known v id.
Proof.
  intros Hp. unfold known, answered, lookupOf, surface, G6_findById, lookupItem.
  destruct (graph v) as [g|]; cbn.
  - destruct (itemMap g !! id) eqn:E; rewrite ?Hp.
    + symmetry. apply bool_decide_eq_true. eauto.
    + symmetry. apply bool_decide_eq_false. by intros [? ?].
  - rewrite lookup_empty. by rewrite Hp.
Qed.

(** ** The application is ready once [init] has run *)

Lemma doOp_graph_is_Some op v :
  is_Some (graph v) -> is_Some (graph (r_state (doOp op v))).
Proof.
  intros [g Hg]. destruct op as [|ms|id|id]; cbn [doOp].
  - cbn. eauto.
  - rewrite setModels_eq, Hg. destruct ms; cbn; eauto.
  - destruct (updateStep_cases v g id Hg) as [[-> _]|[[-> _]|[(m & -> & _)|(it & -> & _)]]];
      cbn; eauto.
  - erewrite markElementAsFailed_eq by eauto.
    destruct (G6_findById g id); cbn; rewrite ?Hg; eauto.
Qed.

Lemma Ready_init u : Ready (init u).
Proof. split; [done|]. cbn. eauto. Qed.

Lemma Ready_deliver a data : Ready a -> Ready (deliver a data).
Proof.
  intros [Hw Hg]. split; [by rewrite deliver_wsClient|].
  rewrite deliver_viz. by apply doOp_graph_is_Some.
Qed.

Lemma Ready_run frames a : Ready a -> Ready (run frames a).
Proof.
  revert a. induction frames as [|p frames IH]; intros a Ha; [done|].
  cbn. apply IH, Ready_deliver, Ha.
Qed.

Lemma Ready_clear a : Ready a -> Ready (r_state (viz clear a)).
Proof.
  intros [Hw [g Hg]]. split; [done|]. cbn. rewrite clear_eq. cbn. rewrite Hg. cbn. eauto.
Qed.

Lemma visited_nonempty data id : visited data = Some id -> id ≠ "".
Proof.
  destruct data as [| |message]; cbn; try done.
  destruct (hasType _ _); [|done].
  destruct (msg_step message) as [step|]; cbn; [|done]. apply stepKey_Some.
Qed.

(** ** The "current" highlight *)

Lemma onlyHighlighted_atMostOne g o : onlyHighlighted g o -> atMostOneHighlighted g.
Proof.
  intros H x y itx ity Hx Hy Hhx Hhy.
  pose proof (H _ _ Hx Hhx). pose proof (H _ _ Hy Hhy). congruence.
Qed.

Lemma onlyHighlighted_None g o : onlyHighlighted g None -> onlyHighlighted g o.
Proof. intros H x it Hx Hh. by pose proof (H _ _ Hx Hh). Qed.

Lemma only_unhighlight g cur :
  (forall x, cur = Some x -> x ≠ "") ->
  onlyHighlighted g cur ->
  onlyHighlighted (replay (unhighlightCalls g cur) g) None.
Proof.
  intros Hne H x it. rewrite lookup_unhighlight. case_decide as Hd.
  - destruct (itemMap g !! x) as [it0|]; cbn; [|done]. intros [= <-]. unfold highlighted. cbn. done.
  - intros Hx Hh. pose proof (H _ _ Hx Hh) as Hc. destruct Hd. split; [done|]. by apply Hne.
Qed.

Lemma only_patch g o id p :
  p_lineWidth p = None ->
  onlyHighlighted g o ->
  onlyHighlighted (G6_apply (CallUpdateItem id p) g) o.
Proof.
  intros Hp H x it. rewrite lookup_updateItem. case_decide as Hd; [|apply H].
  subst. destruct (itemMap g !! x) as [it0|] eqn:E; cbn; [|done].
  intros [= <-]. unfold highlighted. cbn. rewrite Hp. cbn. by apply H.
Qed.

Lemma only_highlight g id b :
  onlyHighlighted g None ->
  onlyHighlighted (G6_apply (CallUpdateItem id (highlightPatch b)) g) (Some id).
Proof.
  intros H x it. rewrite lookup_updateItem. case_decide as Hd; [by subst|].
  intros Hx Hh. by pose proof (H _ _ Hx Hh).
Qed.

Lemma colorPatch_lineWidth t c : p_lineWidth (colorPatch t c) = None.
Proof. by destruct t. Qed.

Lemma failedPatch_lineWidth t : p_lineWidth (failedPatch t) = None.
Proof. by destruct t. Qed.

(** ** What [render] puts on the surface *)

Lemma addItem_Forall (P : string -> Item -> Prop) it m :
  (protoMember (getID it) = None -> P (getID it) it) ->
  map_Forall P m -> map_Forall P (addItem it m).
Proof.
  intros Hit Hm. unfold addItem, lookupItem.
  destruct (m !! getID it) eqn:E; [done|].
  destruct (protoMember (getID it)); [done|].
  apply map_Forall_insert_2; auto.
Qed.

Lemma addEdge_Forall (P : string -> Item -> Prop) e m :
  (protoMember (g_id e) = None -> P (g_id e) (edgeItem e)) ->
  map_Forall P m -> map_Forall P (addEdge e m).
Proof.
  intros Hit Hm. unfold addEdge. destruct (_ && _); [|done]. by apply addItem_Forall.
Qed.

(** Every item of a rendered surface is the fresh item of a node or of an
    edge of the data, under its own identifier, which is no inherited name. *)
Lemma G6_render_keyed (P : string -> Item -> Prop) d :
  (forall n, n ∈ nodes d -> protoMember (n_id n) = None -> P (n_id n) (nodeItem n)) ->
  (forall e, e ∈ edges d -> protoMember (g_id e) = None -> P (g_id e) (edgeItem e)) ->
  map_Forall P (G6_render d).
Proof.
  intros Hn He. unfold G6_render.
  assert (forall es m, (forall e, e ∈ es -> protoMember (g_id e) = None -> P (g_id e) (edgeItem e)) ->
            map_Forall P m -> map_Forall P (fold_left (fun m e => addEdge e m) es m)) as HE.
  { induction es as [|e es IH]; intros m Hes Hm; [done|]. cbn. apply IH.
    - intros e' He'. apply Hes. by right.
    - apply addEdge_Forall; [|done]. apply Hes. by left. }
  assert (forall ns m, (forall n, n ∈ ns -> protoMember (n_id n) = None -> P (n_id n) (nodeItem n)) ->
            map_Forall P m -> map_Forall P (fold_left (fun m n => addItem (nodeItem n) m) ns m)) as HN.
  { induction ns as [|n ns IH]; intros m Hns Hm; [done|]. cbn. apply IH.
    - intros n' Hn'. apply Hns. by right.
    - apply (addItem_Forall P (nodeItem n)); [|done]. apply Hns. by left. }
  apply HE; [done|]. apply HN; [done|]. apply map_Forall_empty.
Qed.

Lemma G6_render_Forall (P : Item -> Prop) d :
  (forall n, P (nodeItem n)) -> (forall e, P (edgeItem e)) ->
  map_Forall (fun _ => P) (G6_render d).
Proof. intros Hn He. apply G6_render_keyed; auto. Qed.

Lemma G6_render_Forall_in (P : Item -> Prop) d :
  (forall n, n ∈ nodes d -> P (nodeItem n)) -> (forall e, e ∈ edges d -> P (edgeItem e)) ->
  map_Forall (fun _ => P) (G6_render d).
Proof. intros Hn He. apply G6_render_keyed; auto. Qed.

(** Freshly rendered items carry no highlight. *)
Lemma G6_render_fresh d :
  map_Forall (fun _ i => lineWidth (it_style i) = 2) (G6_render d).
Proof. by apply G6_render_Forall. Qed.

Lemma G6_render_plain d : plainItems {| g6_data := d; itemMap := G6_render d |}.
Proof.
  intros id [it Hit]. cbn in Hit.
  by apply (G6_render_keyed (fun k _ => protoMember k = None) d) in Hit.
Qed.

Lemma only_render g : onlyHighlighted (G6_apply CallRender g) None.
Proof.
  intros x it Hx Hh. unfold G6_apply in Hx. cbn in Hx.
  apply (G6_render_fresh (g6_data g)) in Hx. unfold highlighted in Hh. cbn in Hx. lia.
Qed.

Lemma plainItems_ext g g' :
  (forall id, is_Some (itemMap g' !! id) ↔ is_Some (itemMap g !! id)) ->
  plainItems g -> plainItems g'.
Proof. intros H Hp id Hid. apply Hp, H, Hid. Qed.

Lemma plainItems_replay cs g : Forall isUpdate cs -> plainItems g -> plainItems (replay cs g).
Proof. intros H. apply plainItems_ext. intros id. by apply replay_updates_is_Some. Qed.

Lemma plainItems_proto g id : plainItems g -> itemMap g !! id = None ∨ protoMember id = None.
Proof.
  intros Hp. destruct (itemMap g !! id) eqn:E; [right; apply Hp; eauto|by left].
Qed.

Lemma handlerOp_wellFormed h message : wellFormedOp (handlerOp h message).
Proof. destruct h; cbn; repeat case_match; done. Qed.

Lemma frameOp_wellFormed c data : wellFormedOp (frameOp c data).
Proof.
  destruct data; cbn; try done. repeat case_match; try done. apply handlerOp_wellFormed.
Qed.

(** ** What one visit writes *)

Lemma findById_Inherited_proto g id m :
  G6_findById g id = Inherited m -> itemMap g !! id = None ∧ protoMember id = Some m.
Proof.
  unfold G6_findById, lookupItem. destruct (itemMap g !! id); [done|].
  destruct (protoMember id); [|done]. by intros [= ->].
Qed.

Lemma findById_Found_plain g id it :
  plainItems g -> itemMap g !! id = Some it -> protoMember id = None ∧ id ≠ "__proto__".
Proof.
  intros Hp Hit. assert (protoMember id = None) as H by (apply Hp; eauto).
  split; [done|]. by intros ->.
Qed.

Lemma assign_lookup id c counts x :
  assign id c counts !! x =
    if decide (id = x ∧ id ≠ "__proto__") then Some c else counts !! x.
Proof.
  unfold assign. destruct (String.eqb_spec id "__proto__") as [-> |Hne].
  - rewrite decide_False by (by intros [_ ?]). done.
  - case_decide as Hd.
    + destruct Hd as [<- _]. by rewrite lookup_insert_eq.
    + rewrite lookup_insert_ne; [done|]. intros <-. by destruct Hd.
Qed.

(** The count a visit of an item stores, in a state the application reaches. *)
Lemma visit_count_item v g id it :
  graph v = Some g -> plainItems g -> countsResolve v -> itemMap g !! id = Some it ->
  assign id (plusOne (visitCounts v) id) (visitCounts v) =
    <[id := Count (visitCount v id + 1)]> (visitCounts v) ∧
  colorOf (assign id (plusOne (visitCounts v) id) (visitCounts v)) id =
    Some (colorScale (visitCount v id + 1)).
Proof.
  intros Hg Hp Hc Hit. destruct (findById_Found_plain _ _ _ Hp Hit) as [Hpm Hne].
  assert (plusOne (visitCounts v) id = Count (visitCount v id + 1)) as ->.
  { unfold plusOne, visitCount. destruct (visitCounts v !! id) as [c|] eqn:E.
    - apply Hc in E. unfold lookupOf in E. rewrite (surface_eq _ _ Hg) in E.
      unfold G6_findById in E. rewrite (lookupItem_Some _ _ _ Hit) in E.
      by destruct E as [n ->].
    - by rewrite Hpm. }
  assert (assign id (Count (visitCount v id + 1)) (visitCounts v) =
          <[id := Count (visitCount v id + 1)]> (visitCounts v)) as ->.
  { unfold assign. by apply String.eqb_neq in Hne as ->. }
  split; [done|]. unfold colorOf, readCount. by rewrite lookup_insert_eq.
Qed.

(** Every operation keeps the invariants, at every instant of its calls. *)
Lemma doOp_highlight op v :
  wellFormedOp op -> HighlightInv v -> countsResolve v ->
  let r := doOp op v in
  HighlightInv (r_state r) ∧ countsResolve (r_state r) ∧
  graph (r_state r) = Some (replay (r_calls r) (surface v)) ∧
  Forall atMostOneHighlighted (instants (surface v) (r_calls r)).
Proof.
  intros Hwf (g & Hg & Hcur & Hplain & Honly) Hcounts. rewrite (surface_eq _ _ Hg).
  pose proof (onlyHighlighted_atMostOne _ _ Honly) as H0.
  assert (HighlightInv v) as Hv by (exists g; done).
  destruct op as [|ms|id|id]; cbn [doOp].
  - cbn. split_and!; [done|done|done|by constructor].
  - rewrite setModels_eq, Hg. destruct ms as [|m ms]; [done|]. cbn.
    set (d := convertModelsToG6Data (m :: ms)).
    assert (onlyHighlighted (G6_apply CallRender (G6_apply (CallData d) g)) None) as Hr
      by apply only_render.
    split_and!.
    + eexists. split; [done|]. split; [done|]. split; [apply G6_render_plain|exact Hr].
    + intros id c. cbn. by rewrite lookup_empty.
    + done.
    + assert (atMostOneHighlighted (G6_apply (CallData d) g)) as Hd by exact H0.
      pose proof (onlyHighlighted_atMostOne _ _ Hr) as Hr1.
      assert (atMostOneHighlighted
                (G6_apply (CallFitView 40) (G6_apply CallRender (G6_apply (CallData d) g))))
        as Hf by exact Hr1.
      cbn. repeat constructor; assumption.
  - assert (onlyHighlighted (replay (unhighlightCalls g (currentStepId v)) g) None) as H1.
    { apply only_unhighlight; [|done]. intros x Hx. by apply Hcur. }
    assert (Forall atMostOneHighlighted (instants g (unhighlightCalls g (currentStepId v)))) as Hi1.
    { pose proof (onlyHighlighted_atMostOne _ _ H1) as H1'. revert H1'.
      unfold unhighlightCalls. destruct (currentStepId v) as [prev|]; [|by repeat constructor].
      destruct (String.eqb prev ""); [by repeat constructor|].
      destruct (itemMap g !! prev); by repeat constructor. }
    destruct (updateStep_cases v g id Hg)
      as [[-> _]|[[-> _]|[(m & -> & Hne & Hl & Hs)|(it & Hu & Hne & Hit & Hs)]]].
    + cbn. split_and!; [done|done|done|by constructor].
    + cbn. split_and!; [done|done|done|by constructor].
    + cbn [r_state r_calls]. set (g1 := replay (unhighlightCalls g (currentStepId v)) g) in *.
      pose proof (unhighlightCalls_updates g (currentStepId v)) as Hupd.
      destruct (findById_Inherited_proto _ _ _ Hl) as [Hnone Hpm].
      split_and!.
      * exists g1. split; [done|]. cbn. split_and!.
        -- intros x [= <-]. split; [done|].
           pose proof (findById_replay_updates _ g id Hupd) as Hf. rewrite Hl in Hf.
           subst g1. by rewrite Hf.
        -- by apply plainItems_replay.
        -- by apply onlyHighlighted_None.
      * intros x c. unfold lookupOf. cbn. rewrite assign_lookup.
        pose proof (findById_replay_updates _ g x Hupd) as Hf. fold g1 in Hf.
        case_decide as Hd.
        -- destruct Hd as [<- _]. intros [= <-]. rewrite Hl in Hf. rewrite Hf.
           unfold plusOne. destruct (visitCounts v !! id) as [c|] eqn:E.
           ++ apply Hcounts in E. unfold lookupOf in E. rewrite (surface_eq _ _ Hg), Hl in E.
              destruct E as [ones ->]. eauto.
           ++ rewrite Hpm. eauto.
        -- intros E. apply Hcounts in E. unfold lookupOf in E. rewrite (surface_eq _ _ Hg) in E.
           destruct (G6_findById g x); [destruct Hf as [it' ->]; done|by rewrite Hf..].
      * done.
      * done.
    + cbn zeta in Hu. rewrite Hu. cbn [r_state r_calls].
      destruct (visit_count_item v g id it Hg Hplain Hcounts Hit) as [Ha Hcol].
      rewrite Hcol. unfold visitCalls.
      set (n := (visitCount v id + 1)%nat) in *.
      set (g1 := replay (unhighlightCalls g (currentStepId v)) g) in *.
      assert (onlyHighlighted
                (G6_apply (CallUpdateItem id (colorPatch (getType it) (Some (colorScale n)))) g1)
                None) as H2
        by (apply only_patch; [apply colorPatch_lineWidth|done]).
      pose proof (only_highlight _ id true H2) as H3.
      rewrite replay_app. fold g1.
      change (replay [CallUpdateItem id (colorPatch (getType it) (Some (colorScale n)));
                      CallUpdateItem id (highlightPatch true)] g1)
        with (G6_apply (CallUpdateItem id (highlightPatch true))
                (G6_apply (CallUpdateItem id (colorPatch (getType it) (Some (colorScale n)))) g1)).
      pose proof (unhighlightCalls_updates g (currentStepId v)) as Hupd.
      assert (forall x,
        is_Some (itemMap (G6_apply (CallUpdateItem id (highlightPatch true))
                   (G6_apply (CallUpdateItem id (colorPatch (getType it) (Some (colorScale n))))
                      g1)) !! x) ↔ is_Some (itemMap g !! x)) as Hsame.
      { intros x. rewrite !updateItem_is_Some. subst g1. by apply replay_updates_is_Some. }
      split_and!.
      * eexists. split; [done|]. cbn. split_and!.
        -- intros x [= <-]. split; [done|].
           pose proof (lookupItem_ext (itemMap g) _ id (Hsame id)) as Hf.
           rewrite (lookupItem_Some _ _ _ Hit) in Hf. destruct Hf as [it' Hf].
           unfold G6_findById. by rewrite Hf.
        -- by eapply plainItems_ext.
        -- done.
      * intros x c. unfold lookupOf. cbn. rewrite Ha.
        pose proof (lookupItem_ext (itemMap g) _ x (Hsame x)) as Hf.
        unfold G6_findById.
        destruct (decide (id = x)) as [<- |Hx].
        -- rewrite lookup_insert_eq. intros [= <-].
           rewrite (lookupItem_Some _ _ _ Hit) in Hf. destruct Hf as [it' ->]. eauto.
        -- rewrite lookup_insert_ne by done. intros E. apply Hcounts in E.
           unfold lookupOf in E. rewrite (surface_eq _ _ Hg) in E. unfold G6_findById in E.
           destruct (lookupItem (itemMap g) x); [destruct Hf as [it' ->]; done|by rewrite Hf..].
      * done.
      * assert (Forall atMostOneHighlighted
                  (instants g1 [CallUpdateItem id (colorPatch (getType it) (Some (colorScale n)));
                                CallUpdateItem id (highlightPatch true)])) as Htail.
        { repeat constructor; by eapply onlyHighlighted_atMostOne. }
        subst g1. unfold unhighlightCalls in *.
        destruct (currentStepId v) as [prev|]; [|done].
        destruct (String.eqb prev ""); [done|].
        destruct (itemMap g !! prev); [|done].
        cbn. constructor; [done|]. exact Htail.
  - erewrite markElementAsFailed_eq by eauto.
    destruct (G6_findById g id) as [it|m|] eqn:Hit; cbn.
    + assert (onlyHighlighted (G6_apply (CallUpdateItem id (failedPatch (getType it))) g)
                (currentStepId v)) as H1
        by (apply only_patch; [apply failedPatch_lineWidth|done]).
      assert (forall x,
        is_Some (itemMap (G6_apply (CallUpdateItem id (failedPatch (getType it))) g) !! x) ↔
        is_Some (itemMap g !! x)) as Hsame by (intros x; apply updateItem_is_Some).
      split_and!.
      * eexists. split; [done|]. cbn. split_and!; [|by eapply plainItems_ext|done].
        intros x Hx. destruct (Hcur x Hx) as [? Hn]. split; [done|].
        pose proof (lookupItem_ext (itemMap g) _ x (Hsame x)) as Hf.
        unfold G6_findById in *.
        destruct (lookupItem (itemMap g) x); [destruct Hf as [it' ->]; done|by rewrite Hf..].
      * intros x c. unfold lookupOf. cbn. intros E. apply Hcounts in E.
        unfold lookupOf in E. rewrite (surface_eq _ _ Hg) in E.
        pose proof (lookupItem_ext (itemMap g) _ x (Hsame x)) as Hf.
        unfold G6_findById in *.
        destruct (lookupItem (itemMap g) x); [destruct Hf as [it' ->]; done|by rewrite Hf..].
      * done.
      * repeat constructor; [done|]. by eapply onlyHighlighted_atMostOne.
    + split_and!; [exists g; cbn; by rewrite Hg| |by rewrite Hg|by constructor].
      intros x c. unfold lookupOf, surface. cbn. rewrite Hg. intros E. apply Hcounts in E.
      unfold lookupOf in E. by rewrite (surface_eq _ _ Hg) in E.
    + split_and!; [exists g; cbn; by rewrite Hg| |by rewrite Hg|by constructor].
      intros x c. unfold lookupOf, surface. cbn. rewrite Hg. intros E. apply Hcounts in E.
      unfold lookupOf in E. by rewrite (surface_eq _ _ Hg) in E.
Qed.

Lemma Consistent_init u : Consistent (init u).
Proof.
  split; [apply Ready_init|]. split.
  - exists G6_new. split; [done|]. split; [done|]. split.
    + intros id [it Hit]. cbn in Hit. by rewrite lookup_empty in Hit.
    + intros x it. cbn. by rewrite lookup_empty.
  - intros id c. cbn. by rewrite lookup_empty.
Qed.

Lemma Consistent_deliver a data : Consistent a -> Consistent (deliver a data).
Proof.
  intros (Hr & Hh & Hc). split; [by apply Ready_deliver|].
  rewrite deliver_viz.
  destruct (doOp_highlight (frameOp (wsClient a) data) _ (frameOp_wellFormed _ _) Hh Hc)
    as (? & ? & _). done.
Qed.

Lemma Consistent_run frames a : Consistent a -> Consistent (run frames a).
Proof.
  revert a. induction frames as [|p frames IH]; intros a Ha; [done|].
  cbn. apply IH, Consistent_deliver, Ha.
Qed.

Lemma Consistent_reached u history : Consistent (run history (init u)).
Proof. apply Consistent_run, Consistent_init. Qed.

Lemma Consistent_clear a : Consistent a -> Consistent (r_state (viz clear a)).
Proof.
  intros (Hr & (g & Hg & _) & _). split; [by apply Ready_clear|]. cbn. rewrite clear_eq. cbn.
  rewrite Hg. cbn. split.
  - eexists. split; [done|]. cbn. split; [done|]. split.
    + intros id [it Hit]. unfold G6_apply in Hit. cbn in Hit. by rewrite lookup_empty in Hit.
    + intros x it. unfold G6_apply. cbn. by rewrite lookup_empty.
  - intros id c. cbn. by rewrite lookup_empty.
Qed.

Lemma HighlightInv_run frames a :
  Consistent a -> HighlightInv (graphVisualizer (run frames a)).
Proof. intros H. by apply (Consistent_run frames) in H as (_ & ? & _). Qed.

(** ** Frames that are no run-start only restyle *)

Lemma unhighlightCalls_length g cur : (length (unhighlightCalls g cur) <= 1)%nat.
Proof.
  unfold unhighlightCalls. destruct cur as [prev|]; [|cbn; lia].
  destruct (String.eqb prev ""); [cbn; lia|]. destruct (itemMap g !! prev); cbn; lia.
Qed.

Lemma doOp_updates op v g :
  graph v = Some g -> opKind op ≠ KRebuild ->
  let r := doOp op v in
  Forall isUpdate (r_calls r) ∧ (length (r_calls r) <= 3)%nat ∧
  graph (r_state r) = Some (replay (r_calls r) g) ∧ models (r_state r) = models v.
Proof.
  intros Hg Hk. destruct op as [|ms|id|id]; cbn [doOp]; [|done|..].
  - cbn. split_and!; [done|lia|done..].
  - pose proof (unhighlightCalls_length g (currentStepId v)) as Hlen.
    destruct (updateStep_cases v g id Hg)
      as [[-> _]|[[-> _]|[(m & -> & _)|(it & -> & _)]]]; cbn [r_state r_calls].
    + cbn. split_and!; [done|lia|done..].
    + cbn. split_and!; [done|lia|done..].
    + split_and!; [apply unhighlightCalls_updates|lia|done..].
    + split_and!; [apply visitCalls_updates| |done..].
      unfold visitCalls. rewrite length_app. cbn. lia.
  - erewrite markElementAsFailed_eq by eauto.
    destruct (G6_findById g id); cbn; rewrite ?Hg; split_and!; try done; try lia.
    by repeat constructor.
Qed.

Lemma frameOp_std_kind data : isRunStart data = false -> opKind (frameOp std data) ≠ KRebuild.
Proof.
  intros H. pose proof (frameOp_std_cases data) as Hc.
  destruct (opKind (frameOp std data)); try done. destruct Hc. congruence.
Qed.

Lemma deliver_updates a data g :
  Ready a -> graph (graphVisualizer a) = Some g -> isRunStart data = false ->
  let r := onmessage data a in
  Forall isUpdate (r_calls r) ∧ (length (r_calls r) <= 3)%nat ∧
  graph (graphVisualizer (deliver a data)) = Some (replay (r_calls r) g) ∧
  models (graphVisualizer (deliver a data)) = models (graphVisualizer a).
Proof.
  intros [Hw _] Hg Hrs. cbn zeta. rewrite deliver_viz.
  destruct (onmessage_viz data a) as (_ & _ & -> & _). rewrite Hw.
  apply doOp_updates; [done|by apply frameOp_std_kind].
Qed.

Lemma deliver_known a data :
  Ready a -> isRunStart data = false ->
  forall id, known (graphVisualizer (deliver a data)) id = known (graphVisualizer a) id.
Proof.
  intros Ha Hrs id. destruct Ha as [Hw [g Hg]].
  destruct (deliver_updates a data g) as (Hu & _ & Hg' & _); [by split; eauto|done..|].
  eapply known_ext; [done..|]. intros x. by apply replay_updates_is_Some.
Qed.

Lemma deliver_lookup_kind a data id :
  Ready a -> isRunStart data = false ->
  match lookupOf (graphVisualizer a) id with
  | Found _ => exists it', lookupOf (graphVisualizer (deliver a data)) id = Found it'
  | answer => lookupOf (graphVisualizer (deliver a data)) id = answer
  end.
Proof.
  intros Ha Hrs. destruct Ha as [Hw [g Hg]].
  destruct (deliver_updates a data g) as (Hu & _ & Hg' & _); [by split; eauto|done..|].
  unfold lookupOf. rewrite (surface_eq _ _ Hg), (surface_eq _ _ Hg').
  by apply findById_replay_updates.
Qed.

Lemma deliver_answered a data :
  Ready a -> isRunStart data = false ->
  forall id, answered (graphVisualizer (deliver a data)) id = answered (graphVisualizer a) id.
Proof.
  intros Ha Hrs id. pose proof (deliver_lookup_kind a data id Ha Hrs) as H.
  unfold answered. destruct (lookupOf (graphVisualizer a) id); [by destruct H as [? ->]|by rewrite H..].
Qed.

(** ** Visit counts *)

Lemma visitCount_not_item v id :
  countsResolve v -> HighlightInv v -> known v id = false -> visitCount v id = 0%nat.
Proof.
  intros Hc (g & Hg & _) Hk. apply (known_false _ g) in Hk; [|done].
  unfold visitCount. destruct (visitCounts v !! id) as [c|] eqn:E; [|done].
  apply Hc in E. unfold lookupOf in E. rewrite (surface_eq _ _ Hg) in E.
  unfold G6_findById in E. rewrite (lookupItem_None _ _ Hk) in E.
  destruct (protoMember id); [by destruct E as [? ->]|done].
Qed.

(** A frame that is no run-start adds one to the count of the element it
    visits, when that element is on the surface and the visualizer is not
    stuck, and changes no other count. *)
Lemma deliver_counts a data :
  Consistent a -> isRunStart data = false ->
  forall id, visitCount (graphVisualizer (deliver a data)) id =
     (visitCount (graphVisualizer a) id +
      if decide (visited data = Some id)
      then (if known (graphVisualizer a) id && negb (stuck (graphVisualizer a)) then 1 else 0)
      else 0)%nat.
Proof.
  intros Ha Hrs id.
  pose proof (Consistent_deliver a data Ha) as (_ & Hh' & Hc').
  pose proof (deliver_known a data (proj1 Ha) Hrs id) as Hk'.
  destruct Ha as ([Hw [g0 Hg0]] & Hh & Hc).
  destruct (known (graphVisualizer a) id) eqn:Hk.
  2:{ rewrite (visitCount_not_item _ id Hc') by done.
      rewrite (visitCount_not_item _ id Hc) by done. by case_decide. }
  clear Hh' Hc' Hk'. destruct Hh as (g & Hg & _ & Hplain & _).
  apply (known_iff _ g) in Hk as [it Hit]; [|done].
  rewrite deliver_viz, Hw.
  pose proof (frameOp_std_cases data) as Hcs.
  destruct (frameOp std data) as [|ms|x|x]; cbn [opKind doOp] in *.
  - destruct Hcs as (_ & -> & _). cbn. rewrite decide_False by done. lia.
  - destruct Hcs as [Hcs _]. congruence.
  - destruct Hcs as (_ & Hv & _). rewrite Hv.
    destruct (updateStep_cases _ g x Hg)
      as [[-> Hun]|[[-> (_ & _ & Hs)]|[(m & -> & _ & Hl & _)|(itx & -> & _ & Hitx & Hs)]]];
      cbn [r_state].
    + case_decide as Hd; [|lia]. injection Hd as ->.
      destruct Hun as [-> |Hun]; [by apply visited_nonempty in Hv|].
      unfold G6_findById in Hun. by rewrite (lookupItem_Some _ _ _ Hit) in Hun.
    + rewrite Hs. cbn. case_decide; lia.
    + apply findById_Inherited_proto in Hl as [Hnone Hpm].
      unfold visitCount. cbn. rewrite assign_lookup.
      rewrite decide_False by (intros [<- _]; congruence).
      rewrite decide_False by (intros [= <-]; congruence). lia.
    + rewrite Hs. cbn [negb andb]. unfold visitCount at 1. cbn [visitedState visitCounts].
      destruct (visit_count_item _ g x itx Hg Hplain Hc Hitx) as [-> _].
      case_decide as Hd.
      * injection Hd as ->. by rewrite lookup_insert_eq.
      * rewrite lookup_insert_ne by congruence. unfold visitCount. lia.
  - destruct Hcs as (_ & -> & _). erewrite markElementAsFailed_eq by eauto.
    rewrite decide_False by done.
    destruct (G6_findById g x); unfold visitCount; cbn; lia.
Qed.

Lemma stuck_kind v v' :
  currentStepId v' = currentStepId v ->
  (forall id, match lookupOf v id with
              | Found _ => exists it', lookupOf v' id = Found it'
              | answer => lookupOf v' id = answer
              end) ->
  stuck v' = stuck v.
Proof.
  intros Hc Hl. unfold stuck. rewrite Hc. destruct (currentStepId v) as [prev|]; [|done].
  destruct (String.eqb prev ""); [done|]. specialize (Hl prev).
  destruct (lookupOf v prev); [by destruct Hl as [? ->]|by rewrite Hl..].
Qed.

(** As long as no frame visits the name of an inherited member, the
    visualizer does not get stuck. *)
Lemma deliver_not_stuck a data :
  Consistent a -> stuck (graphVisualizer a) = false ->
  (forall x, visited data = Some x -> protoMember x = None) ->
  stuck (graphVisualizer (deliver a data)) = false.
Proof.
  intros Ha Hs Hv.
  pose proof (Consistent_deliver a data Ha) as (_ & (g' & Hg' & Hcur' & Hplain' & _) & _).
  destruct Ha as ([Hw [g0 Hg0]] & (g & Hg & _ & Hplain & _) & Hc).
  revert Hg' Hcur'. rewrite deliver_viz, Hw.
  pose proof (frameOp_std_cases data) as Hcs.
  destruct (frameOp std data) as [|ms|x|x]; cbn [opKind doOp] in *.
  - cbn. done.
  - rewrite setModels_eq, Hg. by destruct ms.
  - destruct Hcs as (_ & Hx & _).
    destruct (updateStep_cases _ g x Hg)
      as [[-> Hun]|[[-> (_ & _ & Hs')]|[(m & -> & _ & Hl & _)|(itx & -> & Hne & Hitx & _)]]];
      cbn [r_state]; try done; try congruence.
    + apply findById_Inherited_proto in Hl as [_ Hpm]. rewrite (Hv x Hx) in Hpm. done.
    + intros Hg' Hcur'. rewrite (stuck_eq _ _ Hg'). cbn [visitedState currentStepId].
      apply String.eqb_neq in Hne as ->.
      destruct (G6_findById g' x) as [| m |] eqn:E; [done| |done].
      apply findById_Inherited_proto in E as [_ E]. by rewrite (Hv x Hx) in E.
  - erewrite markElementAsFailed_eq by eauto. intros Hg' Hcur'. rewrite <- Hs.
    apply stuck_kind.
    + by destruct (G6_findById g x).
    + intros id. unfold lookupOf. rewrite (surface_eq _ _ Hg).
      destruct (G6_findById g x) as [it| |] eqn:E; cbn.
      * unfold surface. cbn. rewrite findById_updateItem.
        destruct (G6_findById g id); eauto.
      * unfold surface. cbn. rewrite Hg. cbn. destruct (G6_findById g id); eauto.
      * unfold surface. cbn. rewrite Hg. cbn. destruct (G6_findById g id); eauto.
Qed.

Lemma run_counts frames a id :
  Consistent a -> stuck (graphVisualizer a) = false ->
  Forall (fun data => isRunStart data = false ∧
                      forall x, visited data = Some x -> protoMember x = None) frames ->
  visitCount (graphVisualizer (run frames a)) id =
    (visitCount (graphVisualizer a) id +
     if known (graphVisualizer a) id then countVisits id frames else 0)%nat.
Proof.
  intros Ha Hs Hf. revert a Ha Hs. induction Hf as [|p frames [Hp Hq] _ IH]; intros a Ha Hs.
  - cbn. destruct (known _ _); cbn; lia.
  - change (run (p :: frames) a) with (run frames (deliver a p)).
    rewrite IH; [|by apply Consistent_deliver|by apply deliver_not_stuck].
    rewrite (deliver_counts a p Ha Hp), (deliver_known a p (proj1 Ha) Hp), Hs.
    unfold countVisits. rewrite filter_cons.
    destruct (decide (visited p = Some id)); destruct (known (graphVisualizer a) id);
      cbn [length andb negb]; lia.
Qed.

(** ** The failure colour *)

Lemma failureColoured_failedPatch it :
  failureColoured (patchItem (failedPatch (getType it)) it) = true.
Proof.
  unfold failureColoured. rewrite getType_patchItem.
  destruct (getType it); cbn; by apply bool_decide_eq_true.
Qed.

Lemma failureColoured_highlightPatch b it :
  failureColoured (patchItem (highlightPatch b) it) = failureColoured it.
Proof. unfold failureColoured. rewrite getType_patchItem. done. Qed.

Lemma failure_kept_call c g id it :
  keepsFailure c id -> itemMap g !! id = Some it -> failureColoured it = true ->
  exists it', itemMap (G6_apply c g) !! id = Some it' ∧ failureColoured it' = true.
Proof.
  destruct c as [| | | |x p]; cbn; try done. intros Hk Hit Hf.
  rewrite lookup_updateItem, Hit. case_decide as Hd; [|eauto].
  destruct Hk as [?|[-> | ->]]; [done|..]; eexists; (split; [done|]);
    by rewrite failureColoured_highlightPatch.
Qed.

Lemma failure_kept_replay cs g id it :
  Forall (fun c => keepsFailure c id) cs ->
  itemMap g !! id = Some it -> failureColoured it = true ->
  exists it', itemMap (replay cs g) !! id = Some it' ∧ failureColoured it' = true.
Proof.
  intros H. revert g it. induction H as [|c cs Hc _ IH]; intros g it Hit Hf; [eauto|].
  destruct (failure_kept_call c g id it Hc Hit Hf) as (it1 & Hit1 & Hf1).
  cbn. fold (replay cs (G6_apply c g)). eauto.
Qed.

Lemma unhighlightCalls_keepFailure g cur id :
  Forall (fun c => keepsFailure c id) (unhighlightCalls g cur).
Proof.
  unfold unhighlightCalls. destruct cur as [prev|]; [|done].
  destruct (String.eqb prev ""); [done|].
  destruct (itemMap g !! prev); [|done].
  apply Forall_cons. split; [|done]. cbn. auto.
Qed.

Lemma visitCalls_keepFailure g cur x t n id :
  x ≠ id -> Forall (fun c => keepsFailure c id) (visitCalls g cur x t n).
Proof.
  intros Hx. unfold visitCalls. apply Forall_app. split.
  - apply unhighlightCalls_keepFailure.
  - apply Forall_cons. split; [by left|].
    apply Forall_cons. split; [by left|done].
Qed.

Lemma showsFailure_iff v g id :
  graph v = Some g ->
  showsFailure v id = true ↔ exists it, itemMap g !! id = Some it ∧ failureColoured it = true.
Proof.
  intros Hg. unfold showsFailure. rewrite Hg. destruct (itemMap g !! id) as [it|]; split.
  - eauto.
  - by intros (? & [= <-] & ?).
  - done.
  - by intros (? & ? & ?).
Qed.

Lemma deliver_marks_failed a data id :
  Ready a -> failedOf data = Some id -> known (graphVisualizer a) id = true ->
  showsFailure (graphVisualizer (deliver a data)) id = true.
Proof.
  intros [Hw [g Hg]] Hf Hk. rewrite deliver_viz, Hw, (frameOp_std_failed _ _ Hf). cbn [doOp].
  apply (known_iff _ g) in Hk as [it Hit]; [|done].
  erewrite markElementAsFailed_eq by eauto. unfold G6_findById.
  rewrite (lookupItem_Some _ _ _ Hit). cbn.
  unfold showsFailure. cbn. rewrite lookup_updateItem, decide_True, Hit by done. cbn.
  apply failureColoured_failedPatch.
Qed.

Lemma deliver_keeps_failure a data id :
  Ready a -> isRunStart data = false -> visited data ≠ Some id ->
  showsFailure (graphVisualizer a) id = true ->
  showsFailure (graphVisualizer (deliver a data)) id = true.
Proof.
  intros [Hw [g Hg]] Hrs Hv Hs. rewrite deliver_viz, Hw.
  apply (showsFailure_iff _ g) in Hs as (it & Hit & Hf); [|done].
  pose proof (frameOp_std_cases data) as Hc.
  destruct (frameOp std data) as [|ms|x|x]; cbn [opKind doOp] in *.
  - cbn. apply (showsFailure_iff _ g); eauto.
  - destruct Hc as [Hc _]. congruence.
  - destruct Hc as (_ & Hx & _). assert (x ≠ id) as Hne by congruence.
    destruct (updateStep_cases _ g x Hg)
      as [[-> _]|[[-> _]|[(m & -> & _)|(itx & -> & _)]]]; cbn [r_state].
    + apply (showsFailure_iff _ g); eauto.
    + apply (showsFailure_iff _ g); eauto.
    + eapply showsFailure_iff; [reflexivity|].
      eapply failure_kept_replay; [|done..]. apply unhighlightCalls_keepFailure.
    + eapply showsFailure_iff; [reflexivity|].
      eapply failure_kept_replay; [|done..]. by apply visitCalls_keepFailure.
  - erewrite markElementAsFailed_eq by eauto.
    destruct (G6_findById g x) as [itx| |] eqn:Hitx.
    + eapply showsFailure_iff; [reflexivity|]. rewrite lookup_updateItem, Hit.
      case_decide as Hd; [|eauto]. subst. eexists. split; [done|].
      apply lookupItem_Found in Hitx.
      assert (itx = it) as -> by congruence. apply failureColoured_failedPatch.
    + eapply (showsFailure_iff _ g); [done|eauto].
    + eapply (showsFailure_iff _ g); [done|eauto].
Qed.

Lemma run_keeps_failure later a id :
  Ready a ->
  Forall (fun data => isRunStart data = false ∧ visited data ≠ Some id) later ->
  showsFailure (graphVisualizer a) id = true ->
  showsFailure (graphVisualizer (run later a)) id = true.
Proof.
  intros Ha H. revert a Ha. induction H as [|p later [Hp1 Hp2] _ IH]; intros a Ha Hs; [done|].
  change (run (p :: later) a) with (run later (deliver a p)).
  apply IH; [by apply Ready_deliver|]. by apply deliver_keeps_failure.
Qed.

(** ** Messages without a registered handler *)

Lemma onmessage_unhandled a message :
  unhandled (wsClient a) message ->
  onmessage (JsonObject message) a =
    Result (Ret tt)
      (logged (ConsoleLog "DEBUG [CLIENT]: Received message:" ::
               unhandledLines (wsClient a) message) a) [].
Proof.
  intros Hu. destruct a as [gv u c run0 con].
  unfold onmessage, JSON_parse, handleMessage, logged, unhandledLines, callInherited.
  cbn in Hu. unfold unhandled in Hu. cbn in Hu. run_app. cbn.
  destruct Hu as [-> | ->]; cbn.
  - destruct (protoMember _) as [m|]; [|by rewrite <- app_assoc].
    destruct (callable m); [|by rewrite <- app_assoc].
    destruct (returnsWithoutThis m); cbn; by rewrite <- ?app_assoc.
  - by rewrite <- app_assoc.
Qed.

Lemma deliver_unhandled a message :
  messageHandlers (wsClient a) !! default "undefined" (type message) = None ->
  deliver a (JsonObject message) =
    logged (ConsoleLog "DEBUG [CLIENT]: Received message:" ::
            unhandledLines (wsClient a) message) a.
Proof. intros Hh. unfold deliver. rewrite onmessage_unhandled; [done|by left]. Qed.

(** The handler main.js registers for a message, by its type. *)
Lemma std_handler_of message :
  messageHandlers std !! default "undefined" (type message) =
    if hasType "error" message then Some (Some HandleErrorMessage)
    else if hasType "end" message then Some (Some HandleEndMessage)
    else if hasType "step-end" message then Some (Some HandleStepEndMessage)
    else if hasType "step-start" message then Some (Some HandleStepStartMessage)
    else if hasType "start" message then Some (Some HandleStartMessage)
    else None.
Proof.
  rewrite std_handlers. unfold hasType. destruct (type message) as [t|]; [|done]. cbn.
  repeat (case_decide; [subst; done|
           match goal with H : _ ≠ _ |- _ => apply String.eqb_neq in H; rewrite H; clear H end]).
  done.
Qed.

Lemma hasType_true t message : hasType t message = true ↔ type message = Some t.
Proof.
  unfold hasType. destruct (type message) as [s|]; [|done].
  rewrite String.eqb_eq. split; congruence.
Qed.

(** The whole effect of a frame that has a handler. *)
Lemma deliver_app a message h :
  wsClient a = std ->
  messageHandlers std !! default "undefined" (type message) = Some (Some h) ->
  deliver a (JsonObject message) =
    if handlerThrows h message
    then logged [ConsoleLog "DEBUG [CLIENT]: Received message:";
                 ConsoleError "Error parsing message:"] a
    else {| graphVisualizer := r_state (doOp (handlerOp h message) (graphVisualizer a));
            uiManager := handlerUi h message (uiManager a);
            wsClient := wsClient a; isRunning := handlerRunning h (isRunning a);
            console := console a ++
              ConsoleLog "DEBUG [CLIENT]: Received message:" ::
              (if negb (guarded h message) &&
                  threw (doOp (handlerOp h message) (graphVisualizer a))
               then [ConsoleError "Error parsing message:"] else []) |}.
Proof.
  intros Hw Hh. rewrite <- Hw in Hh.
  pose proof (call_app h message
    (set_console (console a ++ [ConsoleLog "DEBUG [CLIENT]: Received message:"]) a))
    as Hc.
  destruct a as [gv u c run0 con]. cbn in Hh. cbn in Hc.
  unfold deliver, onmessage, JSON_parse, handleMessage, logged. run_app. cbn. rewrite Hh.
  destruct (call h message _) as [[[]|e] s cs]; unfold threw at 1 in Hc; cbn in Hc;
    destruct (handlerThrows h message); destruct Hc as [-> Hv]; cbn;
    rewrite <- ?Hv, <- ?app_assoc; try done.
  by destruct Hv.
Qed.

(** What throws on the visualizer. *)
Lemma threw_markElementAsFailed v id :
  is_Some (graph v) -> threw (markElementAsFailed id v) = inheritedOnly v id.
Proof.
  intros [g Hg]. rewrite (markElementAsFailed_eq _ _ _ Hg).
  unfold inheritedOnly, answered, known, lookupOf. rewrite (surface_eq _ _ Hg), Hg.
  unfold G6_findById, lookupItem. destruct (itemMap g !! id) eqn:E.
  - by rewrite bool_decide_eq_true_2 by eauto.
  - destruct (protoMember id); [|done].
    by rewrite bool_decide_eq_false_2 by (by intros [? ?]).
Qed.

Lemma threw_updateStep v id :
  is_Some (graph v) -> id ≠ "" -> threw (updateStep id v) = visitThrows v id.
Proof.
  intros [g Hg] Hne. rewrite (updateStep_eq _ _ _ Hg).
  apply String.eqb_neq in Hne as ->.
  unfold visitThrows, answered, known, lookupOf. rewrite (surface_eq _ _ Hg), Hg.
  unfold G6_findById, lookupItem. destruct (itemMap g !! id) eqn:E.
  - rewrite bool_decide_eq_true_2 by eauto. cbn. by destruct (stuck v).
  - destruct (protoMember id); [|done].
    rewrite bool_decide_eq_false_2 by (by intros [? ?]). cbn. by destruct (stuck v).
Qed.

(** ** C1 *)

(** C1. On the sample graph, a [step-start] frame whose id is
    ["constructor"] names no element, yet [updateStep] gets past its lookup
    guard: the frame stores a value under that key in [visitCounts] and
    makes it the current element.  From then on a visit of the element "A"
    is not counted: the frame that visits "A" leaves its count at 0. *)
Theorem inherited_id_is_counted_and_blocks_visits :
  let a0 := sample_started in
  let a1 := deliver a0 (stepStartFrame (Some "constructor") None) in
  let a2 := deliver a1 (stepStartFrame None (Some "A")) in
  known (graphVisualizer a0) "constructor" = false ∧
  visited (stepStartFrame (Some "constructor") None) = Some "constructor" ∧
  visitCounts (graphVisualizer a0) !! "constructor" = None ∧
  visitCounts (graphVisualizer a1) !! "constructor" = Some (Appended Pconstructor 1) ∧
  currentStepId (graphVisualizer a1) = Some "constructor" ∧
  known (graphVisualizer a1) "A" = true ∧
  visited (stepStartFrame None (Some "A")) = Some "A" ∧
  visitCount (graphVisualizer a1) "A" = 0%nat ∧
  visitCount (graphVisualizer a2) "A" = 0%nat ∧
  graphVisualizer a2 = graphVisualizer a1.
Proof. vm_compute. by split_and!. Qed.

(** ** C2 *)

(** C2. On a graph that has no element ["ghost"], an [error] frame naming
    ["ghost"] is handled without an exception, yet [failedStepId] becomes
    ["ghost"]: [markElementAsFailed] records the identifier before it looks
    the element up. *)
Theorem markElementAsFailed_unresolved_sets_failedStepId :
  known (graphVisualizer sample_started) "ghost" = false ∧
  failedStepId (graphVisualizer sample_started) = None ∧
  r_value (onmessage (errorFrame "ghost") sample_started) = Ret tt ∧
  failedStepId (graphVisualizer (r_state (onmessage (errorFrame "ghost") sample_started)))
    = Some "ghost" ∧
  failedStepId (r_state (markElementAsFailed "ghost" (graphVisualizer sample_started)))
    = Some "ghost".
Proof. vm_compute. by split_and!. Qed.

(** The sibling operation looks the identifier up first, and does nothing
    when [findById] has no answer for it. *)
Lemma updateStep_unresolved_noop a id :
  Ready a -> answered (graphVisualizer a) id = false ->
  updateStep id (graphVisualizer a) = Result (Ret tt) (graphVisualizer a) [].
Proof.
  intros [_ [g Hg]] Hk. eapply updateStep_unresolved; [done|]. right.
  by apply (answered_false (graphVisualizer a) g).
Qed.

(** In every state the application can reach, each key of [visitCounts],
    and the current element, is an identifier [findById] answers for: an
    element of the surface, or the name of an inherited member. *)
Lemma visited_ids_resolve u history id :
  let v := graphVisualizer (run history (init u)) in
  (is_Some (visitCounts v !! id) -> answered v id = true) ∧
  (currentStepId v = Some id -> answered v id = true) ∧
  (protoMember id = None -> is_Some (visitCounts v !! id) -> known v id = true) ∧
  (protoMember id = None -> currentStepId v = Some id -> known v id = true).
Proof.
  intros v. destruct (Consistent_reached u history) as (_ & (g & Hg & Hcur & _) & Hc).
  fold v in Hg, Hcur, Hc.
  assert (is_Some (visitCounts v !! id) -> answered v id = true) as H1.
  { intros [c E]. apply Hc in E. unfold answered. by destruct (lookupOf v id). }
  assert (currentStepId v = Some id -> answered v id = true) as H2.
  { intros E. apply (answered_iff _ g); [done|]. by apply Hcur. }
  split_and!; [done|done|..]; intros Hp E; rewrite <- (answered_plain _ _ Hp); auto.
Qed.

(** Before [initialize], [updateStep] returns at once and
    [markElementAsFailed] dereferences the missing surface. *)
Example markElementAsFailed_before_initialize :
  updateStep "A" GraphVisualizer_new = Result (Ret tt) GraphVisualizer_new [] ∧
  r_value (markElementAsFailed "A" GraphVisualizer_new) =
    Throw (TypeError "Cannot read properties of undefined (reading findById)") ∧
  failedStepId (r_state (markElementAsFailed "A" GraphVisualizer_new)) = Some "A".
Proof. vm_compute. by split_and!. Qed.

(** ** C3 *)






Example sample_highlight_calls :
  r_calls (onmessage (stepStartFrame None (Some "B")) sample_after_visit) =
    [CallUpdateItem "A" (highlightPatch false);
     CallUpdateItem "B" (colorPatch node (Some "rgb(170, 232, 205)"));
     CallUpdateItem "B" (highlightPatch true)].
Proof. vm_compute. reflexivity. Qed.

(** ** C4 *)

Lemma convertSubModel_eq modelName acc actual :
  convertSubModel modelName acc actual =
    {| nodes := nodes acc ++ subNodes modelName actual;
       edges := edges acc ++ subEdges modelName actual |}.
Proof.
  unfold convertSubModel, subNodes, subEdges.
  destruct (m_vertices actual), (m_edges actual); cbn; by rewrite ?app_nil_r.
Qed.

Lemma fold_convertSubModel modelName actuals acc :
  fold_left (convertSubModel modelName) actuals acc =
    {| nodes := nodes acc ++ flat_map (subNodes modelName) actuals;
       edges := edges acc ++ flat_map (subEdges modelName) actuals |}.
Proof.
  revert acc. induction actuals as [|actual actuals IH]; intros acc; cbn.
  - rewrite !app_nil_r. by destruct acc.
  - rewrite IH, convertSubModel_eq. cbn. by rewrite <- !app_assoc.
Qed.

Lemma fold_convertModel models acc :
  fold_left convertModel models acc =
    {| nodes := nodes acc ++
         flat_map (fun model => flat_map (subNodes (modelNameOf model)) (actualModels model)) models;
       edges := edges acc ++
         flat_map (fun model => flat_map (subEdges (modelNameOf model)) (actualModels model)) models |}.
Proof.
  revert acc. induction models as [|model models IH]; intros acc; cbn.
  - rewrite !app_nil_r. by destruct acc.
  - rewrite IH. unfold convertModel. fold (actualModels model). fold (modelNameOf model).
    rewrite fold_convertSubModel. cbn. by rewrite <- !app_assoc.
Qed.

Lemma convertModelsToG6Data_eq models :
  convertModelsToG6Data models =
    {| nodes := flat_map (fun model => flat_map (subNodes (modelNameOf model)) (actualModels model)) models;
       edges := flat_map (fun model => flat_map (subEdges (modelNameOf model)) (actualModels model)) models |}.
Proof. unfold convertModelsToG6Data. by rewrite fold_convertModel. Qed.

(** C4, counterexample: the edge of [dangling_model] points at a vertex that
    does not exist, and it is in the edge list all the same. *)
Lemma dangling_edges_excluded_counterexample : ¬ dangling_edges_excluded.
Proof.
  intros H.
  refine (H [dangling_model] dangling_model dangling_model _ dangling_edge
            _ _ eq_refl _ _
            {| g_id := "go"; g_source := "A"; g_target := "v9"; g_label := "go";
               g_originalId := "e1"; g_modelName := "default" |} _ eq_refl).
  - apply list_elem_of_singleton. reflexivity.
  - apply list_elem_of_singleton. reflexivity.
  - apply list_elem_of_singleton. reflexivity.
  - right. reflexivity.
  - apply list_elem_of_singleton. reflexivity.
Qed.

(** C4 (amended). Every edge of every sub-model reaches the edge list,
    whether or not its endpoints match a vertex: an endpoint that matches no
    vertex of the sub-model is passed on as the declared identifier.
    [setModels] returns normally on every list of models. *)
Theorem dangling_edge_kept models model actual es edge :
  model ∈ models -> actual ∈ actualModels model ->
  m_edges actual = Some es -> edge ∈ es ->
  let g := edgeToG6 (modelNameOf model) (m_vertices actual) edge in
  g ∈ edges (convertModelsToG6Data models) ∧
  g_originalId g = e_id edge ∧
  (findVertex (m_vertices actual) (e_sourceVertexId edge) = None ->
   g_source g = e_sourceVertexId edge) ∧
  (findVertex (m_vertices actual) (e_targetVertexId edge) = None ->
   g_target g = e_targetVertexId edge) ∧
  (forall v, r_value (setModels models v) = Ret tt).
Proof.
  intros Hm Ha He Hin g. split_and!.
  - rewrite convertModelsToG6Data_eq. cbn.
    apply list_elem_of_In, in_flat_map. exists model. split; [by apply list_elem_of_In|].
    apply in_flat_map. exists actual. split; [by apply list_elem_of_In|].
    unfold subEdges. rewrite He. apply in_map. by apply list_elem_of_In.
  - done.
  - intros Hs. subst g. cbn. by rewrite Hs.
  - intros Ht. subst g. cbn. by rewrite Ht.
  - intros v. rewrite setModels_eq. by destruct (graph v), models.
Qed.

Lemma dangling_edge_kept_witness :
  findVertex (m_vertices dangling_model) (e_targetVertexId dangling_edge) = None ∧
  edgeToG6 (modelNameOf dangling_model) (m_vertices dangling_model) dangling_edge
    ∈ edges (convertModelsToG6Data [dangling_model]) ∧
  g_target (edgeToG6 (modelNameOf dangling_model) (m_vertices dangling_model) dangling_edge)
    = e_targetVertexId dangling_edge.
Proof.
  pose proof (dangling_edge_kept [dangling_model] dangling_model dangling_model
                [dangling_edge] dangling_edge
                (proj2 (list_elem_of_singleton _ _) eq_refl)
                (proj2 (list_elem_of_singleton _ _) eq_refl)
                eq_refl
                (proj2 (list_elem_of_singleton _ _) eq_refl)) as (H1 & _ & _ & H4 & _).
  split; [reflexivity|]. split; [exact H1|]. exact (H4 eq_refl).
Defined.

(** ** C5 *)




(** ** C6 *)

(** C6, counterexample: with two edges out of three visited the formula
    gives 67, and the panel shows the 66 the message carries. *)
Lemma coverage_computed_from_counts_counterexample : ¬ coverage_computed_from_counts.
Proof.
  intros H.
  destruct (H sample_statistics (statsPanel sample_ui)) as [He _]; [done..|].
  vm_compute in He. discriminate.
Qed.

(** C6 (amended). The percentage shown for edges and for vertices is the
    [edgeCoverage] and [vertexCoverage] figure of the [end] message's
    statistics, unchanged, and 0 when the figure or the statistics are
    absent; the same rule serves both figures, nothing is divided, and the
    handler returns normally. *)
Theorem coverage_shown_verbatim message a :
  let r := handleEndMessage message a in
  let panel := statsPanel (uiManager (r_state r)) in
  r_value r = Ret tt ∧
  statsEdgeCoverage panel = percentText (js_or0 (msg_statistics message ≫= edgeCoverage)) ∧
  statsVertexCoverage panel = percentText (js_or0 (msg_statistics message ≫= vertexCoverage)) ∧
  statsEdgeCoverageClass panel =
    "px-2 py-1 rounded text-xs font-medium " +:+
    getCoverageClass (js_or0 (msg_statistics message ≫= edgeCoverage)) ∧
  statsVertexCoverageClass panel =
    "px-2 py-1 rounded text-xs font-medium " +:+
    getCoverageClass (js_or0 (msg_statistics message ≫= vertexCoverage)).
Proof.
  destruct a as [gv u c run0 con]. unfold handleEndMessage.
  destruct (msg_statistics message) as [s|]; by split_and!.
Qed.

(** ** C7 *)

(** C7, counterexample: after a run that visited "A" and ended, a [start]
    message with an empty models array leaves "A" as the current element. *)
Lemma start_resets_session_counterexample : ¬ start_resets_session.
Proof.
  intros H.
  destruct (H sample_ui
              [startFrame [sample_model]; stepStartFrame None (Some "A")]
              (endFrame true) emptyStart [] eq_refl eq_refl eq_refl) as (_ & Hc & _).
  vm_compute in Hc. discriminate.
Qed.

(** C7 (amended). In every state the application can reach, in particular
    after an [end] frame, a [start] message that carries at least one model
    empties [visitCounts], clears [currentStepId] and [failedStepId], stores
    the new models, and replaces the surface by the rendering of the newly
    normalised models, whatever the previous state was. *)
Theorem run_start_resets_session u history message m ms :
  type message = Some "start" -> msg_models message = Some (m :: ms) ->
  let a := run history (init u) in
  let v := graphVisualizer (deliver a (JsonObject message)) in
  visitCounts v = ∅ ∧ currentStepId v = None ∧ failedStepId v = None ∧
  models v = m :: ms ∧
  graph v = Some {| g6_data := convertModelsToG6Data (m :: ms);
                    itemMap := G6_render (convertModelsToG6Data (m :: ms)) |}.
Proof.
  intros Ht Hm a v.
  assert (Ready a) as [Hw [g Hg]] by apply Ready_run, Ready_init.
  assert (isRunStart (JsonObject message) = true) as Hs.
  { cbn. unfold hasType. by rewrite Ht, Hm. }
  destruct (frameOp_std_runStart _ Hs) as (message' & m' & ms' & [= <-] & Hm' & Hop).
  assert (m' :: ms' = m :: ms) as Heq by congruence.
  subst v. rewrite deliver_viz, Hw, Hop, Heq. cbn [doOp].
  rewrite setModels_eq, Hg. done.
Qed.

Lemma run_start_resets_session_witness :
  type secondStart = Some "start" ∧ msg_models secondStart = Some [named_model] ∧
  visitCounts (graphVisualizer (deliver sample_after_end (JsonObject secondStart))) = ∅ ∧
  currentStepId (graphVisualizer (deliver sample_after_end (JsonObject secondStart))) = None ∧
  failedStepId (graphVisualizer (deliver sample_after_end (JsonObject secondStart))) = None.
Proof.
  unfold sample_after_end.
  pose proof (run_start_resets_session sample_ui
                [startFrame [sample_model]; stepStartFrame None (Some "A"); endFrame true]
                secondStart named_model [] eq_refl eq_refl) as (H1 & H2 & H3 & _).
  split; [reflexivity|]. split; [reflexivity|]. split; [exact H1|]. split; [exact H2|exact H3].
Defined.

(** ** C8 *)

(** C8, counterexample: "A" is reported failed and then visited; the visit
    paints it with the colour of its visit count. *)
Lemma failure_colour_persists_until_rebuild_counterexample :
  ¬ failure_colour_persists_until_rebuild.
Proof.
  intros H.
  assert (Forall (fun p => isRunStart p = false) [stepStartFrame None (Some "A")]) as Hl
    by (repeat constructor).
  assert (known (graphVisualizer (run [startFrame [sample_model]] (init sample_ui))) "A" = true)
    as Hk by (vm_compute; reflexivity).
  pose proof (H sample_ui [startFrame [sample_model]] (errorFrame "A")
                [stepStartFrame None (Some "A")] "A" eq_refl Hk Hl) as Hf.
  vm_compute in Hf. discriminate.
Qed.

(** C8 (amended). Once a frame reports an element of the graph as failed,
    the element shows the fixed failure colours, whatever its visit count,
    and keeps them through every later frame that is neither a run-start nor
    a visit of that same element; a later visit of the element recolours it
    by its visit count. *)
Theorem failure_colour_persists_until_recolour u history data later id :
  let a := run history (init u) in
  failedOf data = Some id -> known (graphVisualizer a) id = true ->
  Forall (fun p => isRunStart p = false ∧ visited p ≠ Some id) later ->
  showsFailure (graphVisualizer (run later (deliver a data))) id = true.
Proof.
  intros a Hf Hk Hl.
  assert (Ready a) as Ha by apply Ready_run, Ready_init.
  apply run_keeps_failure; [by apply Ready_deliver|done|].
  by apply deliver_marks_failed.
Qed.

Lemma failure_colour_persists_until_recolour_witness :
  failedOf (errorFrame "A") = Some "A" ∧
  known (graphVisualizer sample_after_visit) "A" = true ∧
  Forall (fun p => isRunStart p = false ∧ visited p ≠ Some "A") sample_later ∧
  showsFailure
    (graphVisualizer (run sample_later (deliver sample_after_visit (errorFrame "A")))) "A"
    = true.
Proof.
  unfold sample_after_visit.
  assert (known (graphVisualizer
            (run [startFrame [sample_model]; stepStartFrame None (Some "A")] (init sample_ui)))
            "A" = true) as Hk by (vm_compute; reflexivity).
  assert (Forall (fun p => isRunStart p = false ∧ visited p ≠ Some "A") sample_later) as Hl.
  { repeat (apply Forall_cons; split; [split; [reflexivity|discriminate]|]). apply Forall_nil. done. }
  split; [reflexivity|]. split; [exact Hk|]. split; [exact Hl|].
  exact (failure_colour_persists_until_recolour sample_ui
           [startFrame [sample_model]; stepStartFrame None (Some "A")]
           (errorFrame "A") _ "A" eq_refl Hk Hl).
Defined.

(** ** C9 *)



(** Three types without a registered handler: one no object has, one that
    names an inherited function that returns, one that names an inherited
    function that throws. *)
Example unhandled_types :
  console (deliver (init sample_ui) (JsonObject (emptyMessage "ping"))) =
    [ConsoleLog "DEBUG [CLIENT]: Received message:"; ConsoleLog "Unhandled message type:"] ∧
  console (deliver (init sample_ui) (JsonObject (emptyMessage "constructor"))) =
    [ConsoleLog "DEBUG [CLIENT]: Received message:"] ∧
  console (deliver (init sample_ui) (JsonObject (emptyMessage "hasOwnProperty"))) =
    [ConsoleLog "DEBUG [CLIENT]: Received message:"; ConsoleError "Error parsing message:"].
Proof. vm_compute. by split_and!. Qed.

(** ** C10 *)

(** C10. A [start] message with no [models] field, or with an empty models
    array, never reaches [setModels]: the handler returns normally, makes no
    call on the surface, and leaves the whole visualizer state (surface,
    models, [visitCounts], [currentStepId], [failedStepId]) as the previous
    run left it; the same holds when the frame is delivered through the
    transport in any reachable state.  [renderGraph] itself returns at once
    when the model list is empty. *)
Theorem start_without_models_keeps_stale_run u history message :
  msg_models message = None ∨ msg_models message = Some [] ->
  type message = Some "start" ->
  let a := run history (init u) in
  let r := handleStartMessage message a in
  r_value r = Ret tt ∧ r_calls r = [] ∧
  graphVisualizer (r_state r) = graphVisualizer a ∧
  graphVisualizer (deliver a (JsonObject message)) = graphVisualizer a ∧
  (forall v, renderGraph (set_models [] v) = Result (Ret tt) (set_models [] v) []).
Proof.
  intros Hm Ht a r.
  assert (Ready a) as [Hw _] by apply Ready_run, Ready_init.
  assert (frameOp std (JsonObject message) = OpNone) as Hop.
  { cbn. rewrite Ht, std_handlers. cbn [default].
    repeat (case_decide; [done|]). rewrite decide_True by done.
    cbn. destruct Hm as [-> | ->]; done. }
  split_and!.
  - subst r. destruct a. unfold handleStartMessage. by destruct Hm as [-> | ->].
  - subst r. destruct a. unfold handleStartMessage. by destruct Hm as [-> | ->].
  - subst r. destruct a. unfold handleStartMessage. by destruct Hm as [-> | ->].
  - by rewrite deliver_viz, Hw, Hop.
  - intros v. rewrite renderGraph_eq. cbn. by destruct (graph v).
Qed.

Lemma start_without_models_keeps_stale_run_witness :
  (msg_models emptyStart = None ∨ msg_models emptyStart = Some []) ∧
  type emptyStart = Some "start" ∧
  graphVisualizer (deliver sample_after_end (JsonObject emptyStart)) =
    graphVisualizer sample_after_end.
Proof.
  unfold sample_after_end.
  pose proof (start_without_models_keeps_stale_run sample_ui
                [startFrame [sample_model]; stepStartFrame None (Some "A"); endFrame true]
                emptyStart (or_intror eq_refl) eq_refl) as (_ & _ & _ & H4 & _).
  split; [right; reflexivity|]. split; [reflexivity|]. exact H4.
Defined.

Example stale_run_remains :
  visitCount (graphVisualizer (deliver sample_after_end (JsonObject emptyStart))) "A" = 1%nat ∧
  currentStepId (graphVisualizer (deliver sample_after_end (JsonObject emptyStart))) = Some "A" ∧
  known (graphVisualizer (deliver sample_after_end (JsonObject emptyStart))) "A" = true.
Proof. vm_compute. by split_and!. Qed.

(** * Further properties of the code *)

(** ** Normalisation: order, endpoints, nesting *)

(** X1. Normalisation works model by model: the nodes (edges) of a list of
    models are the nodes (edges) of its first part followed by those of the
    rest, so output order follows model order, and no model influences what
    another contributes. *)
Theorem normalisation_is_compositional ms1 ms2 :
  nodes (convertModelsToG6Data (ms1 ++ ms2)) =
    nodes (convertModelsToG6Data ms1) ++ nodes (convertModelsToG6Data ms2) ∧
  edges (convertModelsToG6Data (ms1 ++ ms2)) =
    edges (convertModelsToG6Data ms1) ++ edges (convertModelsToG6Data ms2) ∧
  length (nodes (convertModelsToG6Data (ms1 ++ ms2))) =
    (length (nodes (convertModelsToG6Data ms1)) +
     length (nodes (convertModelsToG6Data ms2)))%nat.
Proof.
  rewrite !convertModelsToG6Data_eq. cbn. rewrite !flat_map_app.
  split_and!; [done|done|]. by rewrite length_app.
Qed.

Lemma found_vertex_is_node models model actual id v :
  model ∈ models -> actual ∈ actualModels model ->
  findVertex (m_vertices actual) id = Some v ->
  v_id v = id ∧ vertexToNode (modelNameOf model) v ∈ nodes (convertModelsToG6Data models).
Proof.
  intros Hm Ha Hf.
  assert (v ∈ default [] (m_vertices actual) ∧ v_id v = id) as [Hv Heq].
  { unfold findVertex in Hf. destruct (m_vertices actual) as [vs|]; [|done].
    apply find_some in Hf as [Hv Heq]. apply String.eqb_eq in Heq.
    split; [by apply list_elem_of_In|done]. }
  split; [done|].
  rewrite convertModelsToG6Data_eq. cbn.
  apply list_elem_of_In, in_flat_map. exists model. split; [by apply list_elem_of_In|].
  apply in_flat_map. exists actual. split; [by apply list_elem_of_In|].
  unfold subNodes. destruct (m_vertices actual) as [vs|]; [|by apply list_elem_of_In in Hv].
  apply in_map. by apply list_elem_of_In.
Qed.

(** X2. An endpoint of an edge, its source as well as its target, that
    matches a vertex of the sub-model is rewritten to the identifier of the
    node generated for that vertex; that node keeps the vertex id as its
    original id and is in the output: a resolved endpoint never points
    outside the node list. *)
Theorem resolved_endpoint_names_node models model actual es edge :
  model ∈ models -> actual ∈ actualModels model ->
  m_edges actual = Some es -> edge ∈ es ->
  let g := edgeToG6 (modelNameOf model) (m_vertices actual) edge in
  (forall v, findVertex (m_vertices actual) (e_sourceVertexId edge) = Some v ->
     let n := vertexToNode (modelNameOf model) v in
     g_source g = n_id n ∧ n_originalId n = e_sourceVertexId edge ∧
     n ∈ nodes (convertModelsToG6Data models)) ∧
  (forall v, findVertex (m_vertices actual) (e_targetVertexId edge) = Some v ->
     let n := vertexToNode (modelNameOf model) v in
     g_target g = n_id n ∧ n_originalId n = e_targetVertexId edge ∧
     n ∈ nodes (convertModelsToG6Data models)) ∧
  g ∈ edges (convertModelsToG6Data models).
Proof.
  intros Hm Ha He Hin g. split_and!.
  - intros v Hf n. destruct (found_vertex_is_node models model actual _ v Hm Ha Hf) as [Heq Hn].
    split_and!; [|done..]. subst g n. cbn. rewrite Hf. cbn. by rewrite Heq.
  - intros v Hf n. destruct (found_vertex_is_node models model actual _ v Hm Ha Hf) as [Heq Hn].
    split_and!; [|done..]. subst g n. cbn. rewrite Hf. cbn. by rewrite Heq.
  - rewrite convertModelsToG6Data_eq. cbn.
    apply list_elem_of_In, in_flat_map. exists model. split; [by apply list_elem_of_In|].
    apply in_flat_map. exists actual. split; [by apply list_elem_of_In|].
    unfold subEdges. rewrite He. apply in_map. by apply list_elem_of_In.
Qed.

Lemma resolved_endpoint_names_node_witness :
  findVertex (m_vertices sample_model) "v1" = Some {| v_id := "v1"; v_name := Some "A" |} ∧
  findVertex (m_vertices sample_model) "v2" = Some {| v_id := "v2"; v_name := Some "B" |} ∧
  g_source (edgeToG6 (modelNameOf sample_model) (m_vertices sample_model)
              {| e_id := "e1"; e_name := Some "go";
                 e_sourceVertexId := "v1"; e_targetVertexId := "v2" |}) =
    n_id (vertexToNode (modelNameOf sample_model) {| v_id := "v1"; v_name := Some "A" |}) ∧
  g_target (edgeToG6 (modelNameOf sample_model) (m_vertices sample_model)
              {| e_id := "e1"; e_name := Some "go";
                 e_sourceVertexId := "v1"; e_targetVertexId := "v2" |}) =
    n_id (vertexToNode (modelNameOf sample_model) {| v_id := "v2"; v_name := Some "B" |}).
Proof.
  pose proof (resolved_endpoint_names_node [sample_model] sample_model sample_model
                  [ {| e_id := "e1"; e_name := Some "go";
                       e_sourceVertexId := "v1"; e_targetVertexId := "v2" |} ]
                  {| e_id := "e1"; e_name := Some "go";
                     e_sourceVertexId := "v1"; e_targetVertexId := "v2" |}
                  (proj2 (list_elem_of_singleton _ _) eq_refl)
                  (proj2 (list_elem_of_singleton _ _) eq_refl)
                  eq_refl
                  (proj2 (list_elem_of_singleton _ _) eq_refl)) as (Hs & Ht & _).
  split; [reflexivity|]. split; [reflexivity|]. split.
  - exact (proj1 (Hs {| v_id := "v1"; v_name := Some "A" |} eq_refl)).
  - exact (proj1 (Ht {| v_id := "v2"; v_name := Some "B" |} eq_refl)).
Defined.

Lemma flat_map_strip {A} (f : Model -> list A) subs :
  (forall sub, f (strip sub) = f sub) ->
  flat_map f (map strip subs) = flat_map f subs.
Proof. intros H. induction subs as [|sub subs IH]; [done|]. cbn. by rewrite H, IH. Qed.

(** X3. A container that has a [models] collection contributes only what its
    sub-models declare, under the container's name: its own vertices and
    edges are not read, and of a sub-model neither the name nor a nested
    collection is followed. *)
Theorem container_reads_one_level name subs vs es :
  convertModelsToG6Data [MkModel name (Some subs) vs es] =
    convertModelsToG6Data [MkModel name (Some (map strip subs)) None None] ∧
  nodes (convertModelsToG6Data [MkModel name (Some subs) vs es]) =
    flat_map (subNodes (js_or name "default")) subs ∧
  convertModelsToG6Data [MkModel name (Some []) vs es] = {| nodes := []; edges := [] |}.
Proof.
  rewrite !convertModelsToG6Data_eq. unfold actualModels, modelNameOf. cbn.
  rewrite !app_nil_r, !flat_map_strip by done. done.
Qed.

Example nested_container_nodes :
  map n_id (nodes (convertModelsToG6Data [nested_container])) = ["Cart"; "A"] ∧
  map n_modelName (nodes (convertModelsToG6Data [nested_container])) = ["Shop"; "Shop"].
Proof. vm_compute. done. Qed.

(** ** The surface after a visit, a failure, a run-start *)

Lemma itemOf_eq v g id : graph v = Some g -> itemOf v id = itemMap g !! id.
Proof. intros Hg. unfold itemOf. by rewrite (surface_eq _ _ Hg). Qed.

(** The item at [id] after the calls of a visit of [id]. *)
Lemma lookup_visitCalls g cur id t n it :
  itemMap g !! id = Some it ->
  itemMap (replay (visitCalls g cur id t n) g) !! id =
    Some (patchItem (highlightPatch true)
            (patchItem (colorPatch t n)
               (if decide (cur = Some id ∧ id ≠ "")
                then patchItem (highlightPatch false) it else it))).
Proof.
  intros Hit. unfold visitCalls. rewrite replay_app. cbn.
  rewrite !lookup_updateItem, !decide_True by done.
  rewrite lookup_unhighlight, Hit. by case_decide.
Qed.

(** The item at another identifier after the calls of a visit of [id]. *)
Lemma lookup_visitCalls_ne g cur id t n x :
  x ≠ id ->
  itemMap (replay (visitCalls g cur id t n) g) !! x =
    if decide (cur = Some x ∧ x ≠ "")
    then patchItem (highlightPatch false) <$> itemMap g !! x
    else itemMap g !! x.
Proof.
  intros Hx. unfold visitCalls. rewrite replay_app. cbn.
  rewrite !lookup_updateItem, !decide_False by done.
  apply lookup_unhighlight.
Qed.

Lemma visitColoured_colorPatch it c :
  visitColoured (patchItem (colorPatch (getType it) (Some c)) it) c.
Proof. unfold visitColoured. rewrite getType_patchItem. by destruct (getType it). Qed.

Lemma visitColoured_highlightPatch b it c :
  visitColoured it c -> visitColoured (patchItem (highlightPatch b) it) c.
Proof. unfold visitColoured. rewrite getType_patchItem. by destruct (getType it). Qed.

(** What a frame that visits an element of the graph does, in a state the
    application reaches and in which the visualizer is not stuck. *)
Lemma deliver_visit a data id :
  Consistent a -> visited data = Some id -> known (graphVisualizer a) id = true ->
  stuck (graphVisualizer a) = false ->
  exists g it,
    graph (graphVisualizer a) = Some g ∧ itemMap g !! id = Some it ∧ id ≠ "" ∧
    let v := graphVisualizer a in
    let cs := visitCalls g (currentStepId v) id (getType it)
                (Some (colorScale (visitCount v id + 1))) in
    onmessage_calls a data = cs ∧
    graphVisualizer (deliver a data) =
      {| graph := Some (replay cs g); models := models v;
         visitCounts := <[id := Count (visitCount v id + 1)]> (visitCounts v);
         currentStepId := Some id; failedStepId := failedStepId v;
         layoutDirection := layoutDirection v |}.
Proof.
  intros ([Hw _] & Hh & Hc) Hv Hk Hs.
  pose proof Hh as (g & Hg & Hcur & Hplain & _).
  pose proof (proj1 (known_iff (graphVisualizer a) g id Hg) Hk) as [it Hit].
  pose proof (visited_nonempty _ _ Hv) as Hne.
  exists g, it. split_and!; [done..|]. cbn zeta. unfold onmessage_calls.
  rewrite deliver_viz. destruct (onmessage_viz data a) as (_ & _ & -> & _).
  rewrite Hw, (frameOp_std_visit _ _ Hv). cbn [doOp].
  erewrite updateStep_resolved by eauto. cbn [r_calls r_state].
  destruct (visit_count_item _ g id it Hg Hplain Hc Hit) as [Ha Hcol].
  unfold visitedState. by rewrite Hcol, Ha.
Qed.

(** X4. In a state the application reaches and in which the visualizer is
    not stuck, a frame that visits an element of the graph makes it the
    current element, adds one to its count, and leaves it on the surface
    drawn with the emphasis and with the colour of its new count; what the
    item stands for (its label, model, endpoints) is untouched. *)
Theorem visit_paints_and_highlights u history data id :
  let a := run history (init u) in
  let v := graphVisualizer a in
  let v' := graphVisualizer (deliver a data) in
  visited data = Some id -> known v id = true -> stuck v = false ->
  currentStepId v' = Some id ∧
  visitCount v' id = (visitCount v id + 1)%nat ∧
  exists it,
    itemOf v' id = Some it ∧ emphasis it = emphasisOn ∧
    visitColoured it (colorScale (visitCount v' id)) ∧
    it_model <$> itemOf v id = Some (it_model it).
Proof.
  intros a v v' Hv Hk Hs. subst v v'.
  destruct (deliver_visit a data id (Consistent_reached u history) Hv Hk Hs)
    as (g & it & Hg & Hit & Hne & _ & ->).
  match goal with |- context [visitCount ?v' id = _] =>
    assert (visitCount v' id = (visitCount (graphVisualizer a) id + 1)%nat) as Hn
      by (unfold visitCount at 1; cbn; by rewrite lookup_insert_eq) end.
  rewrite Hn. split_and!; [done|done|].
  eexists. split_and!.
    + erewrite itemOf_eq by reflexivity. by apply lookup_visitCalls.
    + done.
    + apply visitColoured_highlightPatch.
      case_decide.
      * rewrite <- (getType_patchItem (highlightPatch false) it) at 1.
        apply visitColoured_colorPatch.
      * apply visitColoured_colorPatch.
    + rewrite (itemOf_eq _ g _ Hg), Hit. cbn. by case_decide.
Qed.

Lemma visit_paints_and_highlights_witness :
  visited (stepStartFrame None (Some "B")) = Some "B" ∧
  known (graphVisualizer sample_after_visit) "B" = true ∧
  stuck (graphVisualizer sample_after_visit) = false ∧
  currentStepId (graphVisualizer (deliver sample_after_visit (stepStartFrame None (Some "B"))))
    = Some "B".
Proof.
  unfold sample_after_visit.
  assert (known (graphVisualizer
            (run [startFrame [sample_model]; stepStartFrame None (Some "A")] (init sample_ui)))
            "B" = true) as Hk by (vm_compute; reflexivity).
  assert (stuck (graphVisualizer
            (run [startFrame [sample_model]; stepStartFrame None (Some "A")] (init sample_ui)))
            = false) as Hs by (vm_compute; reflexivity).
  split; [reflexivity|]. split; [exact Hk|]. split; [exact Hs|].
  exact (proj1 (visit_paints_and_highlights sample_ui
                  [startFrame [sample_model]; stepStartFrame None (Some "A")]
                  (stepStartFrame None (Some "B")) "B" eq_refl Hk Hs)).
Defined.

Lemma emphasis_patch p it :
  p_lineWidth p = None -> p_shadowColor p = None -> p_shadowBlur p = None ->
  emphasis (patchItem p it) = emphasis it.
Proof. intros H1 H2 H3. unfold emphasis. cbn. by rewrite H1, H2, H3. Qed.

Lemma emphasis_failedPatch t it : emphasis (patchItem (failedPatch t) it) = emphasis it.
Proof. by destruct t. Qed.

Lemma emphasis_colorPatch t c it : emphasis (patchItem (colorPatch t c) it) = emphasis it.
Proof. by destruct t. Qed.

Lemma doOp_emphasis op v :
  wellFormedOp op -> HighlightInv v -> EmphasisInv v ->
  EmphasisInv (r_state (doOp op v)).
Proof.
  intros Hwf (g & Hg & Hcur & _) He.
  destruct op as [|ms|id|id]; cbn [doOp].
  - done.
  - rewrite setModels_eq, Hg. destruct ms as [|m ms]; [done|].
    intros x it. erewrite itemOf_eq by reflexivity. cbn. intros Hx.
    rewrite decide_False by done.
    by apply (G6_render_Forall (fun i => emphasis i = emphasisOff)
                (convertModelsToG6Data (m :: ms))) in Hx.
  - assert (forall x it,
              itemMap (replay (unhighlightCalls g (currentStepId v)) g) !! x = Some it ->
              emphasis it = emphasisOff) as Hoff.
    { intros x it. rewrite lookup_unhighlight. case_decide as Hd.
      - destruct (itemMap g !! x); cbn; [|done]. by intros [= <-].
      - intros Hit'. rewrite (He x it) by by rewrite (itemOf_eq _ g _ Hg).
        case_decide as Hc; [|done]. destruct Hd. split; [done|]. by apply Hcur. }
    destruct (updateStep_cases v g id Hg)
      as [[-> _]|[[-> _]|[(m & -> & _ & Hl & _)|(it0 & -> & _ & Hit & _)]]];
      cbn [r_state]; [done|done|..].
    + intros x it. erewrite itemOf_eq by reflexivity. cbn [visitedState currentStepId].
      intros Hx. rewrite (Hoff x it Hx). rewrite decide_False; [done|].
      intros [= ->]. apply findById_Inherited_proto in Hl as [Hnone _].
      assert (is_Some (itemMap g !! x)) as [? ?]; [|congruence].
      eapply replay_updates_is_Some; [apply unhighlightCalls_updates|eauto].
    + intros x it. erewrite itemOf_eq by reflexivity. cbn [visitedState currentStepId].
      destruct (decide (x = id)) as [-> |Hx].
      * erewrite lookup_visitCalls by done. intros [= <-].
        by rewrite (decide_True (P := Some id = Some id)).
      * unfold visitCalls. rewrite replay_app. cbn.
        rewrite !lookup_updateItem, !decide_False by done.
        rewrite (decide_False (P := Some id = Some x)) by congruence. apply Hoff.
  - erewrite markElementAsFailed_eq by eauto.
    destruct (G6_findById g id) as [it0| |] eqn:Hit; intros x it.
    + erewrite itemOf_eq by reflexivity. cbn [r_state currentStepId set_graph set_failedStepId].
      apply lookupItem_Found in Hit.
      rewrite lookup_updateItem. case_decide as Hd.
      * subst. rewrite Hit. cbn. intros [= <-]. rewrite emphasis_failedPatch.
        apply He. by rewrite (itemOf_eq _ g _ Hg).
      * intros Hx. apply He. by rewrite (itemOf_eq _ g _ Hg).
    + intros Hx. apply (He x it). revert Hx. unfold itemOf, surface. cbn. by rewrite Hg.
    + intros Hx. apply (He x it). revert Hx. unfold itemOf, surface. cbn. by rewrite Hg.
Qed.

Lemma EmphasisInv_run history a :
  Consistent a -> EmphasisInv (graphVisualizer a) ->
  EmphasisInv (graphVisualizer (run history a)).
Proof.
  revert a. induction history as [|p history IH]; intros a Ha He; [done|].
  change (run (p :: history) a) with (run history (deliver a p)).
  apply IH; [by apply Consistent_deliver|]. rewrite deliver_viz.
  apply doOp_emphasis; [apply frameOp_wellFormed|apply Ha|done].
Qed.

Lemma EmphasisInv_reached u history : EmphasisInv (graphVisualizer (run history (init u))).
Proof.
  apply EmphasisInv_run; [apply Consistent_init|].
  intros y i. unfold itemOf. cbn. by rewrite lookup_empty.
Qed.

(** X5. In every state the application can reach, the emphasis marks exactly
    the current element: an item is drawn with line width 4 and the blue
    shadow when it is the current element, and with line width 2 and no
    shadow otherwise.  The current identifier, if there is one, is either an
    element, which then carries the emphasis, or the name of an inherited
    member that is no element, and then no item carries the emphasis. *)
Theorem emphasis_marks_exactly_current u history x it :
  let v := graphVisualizer (run history (init u)) in
  itemOf v x = Some it ->
  emphasis it = (if decide (currentStepId v = Some x) then emphasisOn else emphasisOff) ∧
  match currentStepId v with
  | Some y =>
      match lookupOf v y with
      | Found current => emphasis current = emphasisOn
      | Inherited _ => forall z other, itemOf v z = Some other -> emphasis other = emphasisOff
      | Undefined => False
      end
  | None => True
  end.
Proof.
  intros v Hx. pose proof (EmphasisInv_reached u history) as He. fold v in He.
  split; [by apply He|].
  destruct (Consistent_reached u history) as (_ & (g & Hg & Hcur & _) & _).
  fold v in Hg, Hcur. destruct (currentStepId v) as [y|] eqn:Hy; [|done].
  destruct (Hcur y eq_refl) as [_ Hl]. unfold lookupOf. rewrite (surface_eq _ _ Hg).
  destruct (G6_findById g y) as [cur|m|] eqn:E; [| |done].
  - apply lookupItem_Found in E. rewrite (He y cur) by by rewrite (itemOf_eq _ g _ Hg).
    by rewrite decide_True.
  - intros z other Hz. rewrite (He z other Hz). rewrite decide_False; [done|].
    intros Heq. assert (y = z) as Hyz by congruence.
    apply findById_Inherited_proto in E as [E _].
    rewrite (itemOf_eq _ g _ Hg) in Hz. congruence.
Qed.

Lemma emphasis_marks_exactly_current_witness :
  itemOf (graphVisualizer sample_after_visit) "A" = Some sample_item_A ∧
  emphasis sample_item_A =
    (if decide (currentStepId (graphVisualizer sample_after_visit) = Some "A")
     then emphasisOn else emphasisOff).
Proof.
  unfold sample_after_visit.
  assert (itemOf (graphVisualizer
            (run [startFrame [sample_model]; stepStartFrame None (Some "A")] (init sample_ui)))
            "A" = Some sample_item_A) as Hi by (vm_compute; reflexivity).
  split; [exact Hi|].
  exact (proj1 (emphasis_marks_exactly_current sample_ui
                  [startFrame [sample_model]; stepStartFrame None (Some "A")]
                  "A" sample_item_A Hi)).
Defined.

(** A visit of ["constructor"] leaves it as the current identifier, and no
    item emphasised. *)
Example current_identifier_without_item :
  let v := graphVisualizer
             (run [startFrame [sample_model]; stepStartFrame None (Some "A");
                   stepStartFrame (Some "constructor") None] (init sample_ui)) in
  currentStepId v = Some "constructor" ∧ lookupOf v "constructor" = Inherited Pconstructor ∧
  stuck v = true ∧ emphasis <$> itemOf v "A" = Some emphasisOff.
Proof. vm_compute. by split_and!. Qed.

(** ** What frames other than a run-start leave alone *)

Lemma updateItem_model g x p id :
  it_model <$> itemMap (G6_apply (CallUpdateItem x p) g) !! id = it_model <$> itemMap g !! id.
Proof.
  rewrite lookup_updateItem. case_decide; [|done]. by destruct (itemMap g !! id).
Qed.

Lemma replay_updates_model cs g id :
  Forall isUpdate cs ->
  it_model <$> itemMap (replay cs g) !! id = it_model <$> itemMap g !! id.
Proof.
  intros H. revert g. induction H as [|c cs Hc _ IH]; intros g; [done|].
  cbn. fold (replay cs (G6_apply c g)). rewrite IH.
  destruct c; try done. apply updateItem_model.
Qed.

Lemma deliver_keeps_items a data id :
  Ready a -> isRunStart data = false ->
  it_model <$> itemOf (graphVisualizer (deliver a data)) id =
    it_model <$> itemOf (graphVisualizer a) id ∧
  models (graphVisualizer (deliver a data)) = models (graphVisualizer a).
Proof.
  intros Ha Hrs. pose proof Ha as [Hw [g Hg]].
  destruct (deliver_updates a data g Ha Hg Hrs) as (Hu & _ & Hg' & Hm).
  split; [|done]. rewrite (itemOf_eq _ _ _ Hg'), (itemOf_eq _ g _ Hg).
  by apply replay_updates_model.
Qed.

(** X6. Only a run-start changes which elements exist: through any frames
    that are not a run-start, every identifier resolves to an item that
    stands for the same node or edge as before (or to none, as before), and
    the stored models stay the same; steps, failures and run ends only
    restyle. *)
Theorem only_run_start_changes_items u history frames id :
  Forall (fun data => isRunStart data = false) frames ->
  let a := run history (init u) in
  it_model <$> itemOf (graphVisualizer (run frames a)) id =
    it_model <$> itemOf (graphVisualizer a) id ∧
  models (graphVisualizer (run frames a)) = models (graphVisualizer a).
Proof.
  intros Hf a. assert (Ready a) as Ha by apply Ready_run, Ready_init.
  clearbody a. revert a Ha. induction Hf as [|p frames Hp _ IH]; intros a Ha; [done|].
  change (run (p :: frames) a) with (run frames (deliver a p)).
  destruct (IH (deliver a p) (Ready_deliver _ _ Ha)) as [-> ->].
  by apply deliver_keeps_items.
Qed.

Lemma only_run_start_changes_items_witness :
  Forall (fun data => isRunStart data = false) sample_later ∧
  models (graphVisualizer (run sample_later (run [startFrame [sample_model]] (init sample_ui)))) =
    models (graphVisualizer (run [startFrame [sample_model]] (init sample_ui))).
Proof.
  assert (Forall (fun data => isRunStart data = false) sample_later) as H
    by (repeat constructor).
  split; [exact H|].
  exact (proj2 (only_run_start_changes_items sample_ui [startFrame [sample_model]]
                  sample_later "A" H)).
Defined.

Lemma run_counts_bounds frames a id :
  Consistent a -> Forall (fun data => isRunStart data = false) frames ->
  (visitCount (graphVisualizer a) id <= visitCount (graphVisualizer (run frames a)) id)%nat ∧
  (visitCount (graphVisualizer (run frames a)) id <=
     visitCount (graphVisualizer a) id + length frames)%nat.
Proof.
  intros Ha Hf. revert a Ha. induction Hf as [|p frames Hp _ IH]; intros a Ha.
  - cbn. lia.
  - change (run (p :: frames) a) with (run frames (deliver a p)).
    destruct (IH (deliver a p) (Consistent_deliver _ _ Ha)) as [H1 H2].
    rewrite (deliver_counts a p Ha Hp id) in H1, H2. cbn [length].
    destruct (decide _); [destruct (_ && _)|]; lia.
Qed.

(** X7. Under an identifier that is not the name of an inherited member,
    [visitCounts] holds a number or nothing.  Within a run that number
    never goes down, and a list of frames raises it by at most the number
    of frames. *)
Theorem visit_counts_never_decrease u history frames id :
  Forall (fun data => isRunStart data = false) frames ->
  protoMember id = None ->
  let a := run history (init u) in
  (visitCount (graphVisualizer a) id <= visitCount (graphVisualizer (run frames a)) id)%nat ∧
  (visitCount (graphVisualizer (run frames a)) id <=
     visitCount (graphVisualizer a) id + length frames)%nat ∧
  (forall c, visitCounts (graphVisualizer (run frames a)) !! id = Some c ->
     c = Count (visitCount (graphVisualizer (run frames a)) id)).
Proof.
  intros Hf Hp a. pose proof (Consistent_reached u history) as Ha. fold a in Ha.
  destruct (run_counts_bounds frames a id Ha Hf) as [H1 H2]. split_and!; [done..|].
  intros c Hc. unfold visitCount. rewrite Hc.
  destruct (Consistent_run frames a Ha) as (_ & (g & Hg & _) & Hcr).
  apply Hcr in Hc. unfold lookupOf in Hc. rewrite (surface_eq _ _ Hg) in Hc.
  unfold G6_findById, lookupItem in Hc. rewrite Hp in Hc.
  destruct (itemMap g !! id); [|done]. by destruct Hc as [n ->].
Qed.

Lemma visit_counts_never_decrease_witness :
  Forall (fun data => isRunStart data = false) sample_visits ∧
  protoMember "A" = None ∧
  (visitCount (graphVisualizer (run [startFrame [sample_model]] (init sample_ui))) "A" <=
   visitCount (graphVisualizer
                 (run sample_visits (run [startFrame [sample_model]] (init sample_ui)))) "A")%nat.
Proof.
  assert (Forall (fun data => isRunStart data = false) sample_visits) as H
    by (repeat constructor).
  split; [exact H|]. split; [reflexivity|].
  exact (proj1 (visit_counts_never_decrease sample_ui [startFrame [sample_model]]
                  sample_visits "A" H eq_refl)).
Defined.

(** X8. A frame that reports a failure records the reported identifier in
    [failedStepId] and leaves the visit bookkeeping alone: counts, current
    element and models are unchanged, every item other than the reported one
    is unchanged, and no item gains or loses the emphasis. *)
Theorem failure_report_leaves_bookkeeping u history data id :
  let a := run history (init u) in
  let v := graphVisualizer a in
  let v' := graphVisualizer (deliver a data) in
  failedOf data = Some id ->
  failedStepId v' = Some id ∧
  visitCounts v' = visitCounts v ∧ currentStepId v' = currentStepId v ∧
  models v' = models v ∧
  (forall x, x = id ∨ itemOf v' x = itemOf v x) ∧
  (forall x, emphasis <$> itemOf v' x = emphasis <$> itemOf v x).
Proof.
  intros a v v' Hf. subst v v'.
  assert (Ready a) as [Hw [g Hg]] by apply Ready_run, Ready_init.
  rewrite deliver_viz, Hw, (frameOp_std_failed _ _ Hf). cbn [doOp].
  erewrite markElementAsFailed_eq by eauto.
  destruct (G6_findById g id) as [it| |] eqn:Hit; cbn [r_state].
  - apply lookupItem_Found in Hit. split_and!; try done.
    + intros x. destruct (decide (x = id)) as [Hx|Hx]; [by left|right].
      erewrite itemOf_eq by reflexivity. rewrite (itemOf_eq _ g _ Hg).
      by rewrite lookup_updateItem, decide_False.
    + intros x. erewrite itemOf_eq by reflexivity. rewrite (itemOf_eq _ g _ Hg).
      rewrite lookup_updateItem. case_decide; [|done]. subst. rewrite Hit. cbn.
      by rewrite emphasis_failedPatch.
  - split_and!; try done. intros x. by right.
  - split_and!; try done. intros x. by right.
Qed.

Lemma failure_report_leaves_bookkeeping_witness :
  failedOf (errorFrame "A") = Some "A" ∧
  failedStepId (graphVisualizer (deliver sample_after_visit (errorFrame "A"))) = Some "A" ∧
  visitCounts (graphVisualizer (deliver sample_after_visit (errorFrame "A"))) =
    visitCounts (graphVisualizer sample_after_visit).
Proof.
  unfold sample_after_visit.
  pose proof (failure_report_leaves_bookkeeping sample_ui
                [startFrame [sample_model]; stepStartFrame None (Some "A")]
                (errorFrame "A") "A" eq_refl) as (H1 & H2 & _).
  split; [reflexivity|]. split; [exact H1|exact H2].
Defined.

(** ** The surface a run-start builds *)









Example raw_vertex_id_does_not_resolve :
  known (graphVisualizer sample_started) "A" = true ∧
  known (graphVisualizer sample_started) "v1" = false ∧
  known (graphVisualizer sample_started) "go" = true ∧
  known (graphVisualizer sample_started) "e1" = false.
Proof. vm_compute. done. Qed.

(** The dangling edge of [dangling_model] is on the edge list and not on
    the surface. *)
Example dangling_edge_is_not_drawn :
  let v := graphVisualizer (deliver (init sample_ui) (startFrame [dangling_model])) in
  map g_id (edges (convertModelsToG6Data [dangling_model])) = ["go"] ∧
  known v "A" = true ∧ known v "go" = false.
Proof. vm_compute. done. Qed.

(** ** The colour scale *)

Lemma colorScale_min n : colorScale n = colorScale (n `min` 5).
Proof.
  unfold colorScale.
  assert (Z.of_nat n `min` 5 = Z.of_nat (n `min` 5) `min` 5) as -> by lia. done.
Qed.

(** X10. The colour of the visit scale tells visit counts apart exactly up to
    5: two counts get the same colour if and only if they agree once capped
    at 5.  The scale starts at #d1f4e0 and stays at #10b981 from the fifth
    visit on. *)
Theorem colorScale_distinguishes_up_to_five (n m : nat) :
  (colorScale n = colorScale m ↔ (n `min` 5 = m `min` 5)%nat) ∧
  colorScale 0 = "rgb(209, 244, 224)" ∧
  colorScale (5 + n) = "rgb(16, 185, 129)".
Proof.
  split_and!.
  - rewrite (colorScale_min n), (colorScale_min m). split; [|by intros ->].
    assert (n `min` 5 <= 5)%nat as Hn by lia. assert (m `min` 5 <= 5)%nat as Hm by lia.
    revert Hn Hm. generalize (n `min` 5)%nat (m `min` 5)%nat. intros k l Hk Hl.
    do 6 (destruct k as [|k]; [do 6 (destruct l as [|l];
            [intros H; vm_compute in H; first [reflexivity|discriminate H]|]); lia|]).
    lia.
  - vm_compute. reflexivity.
  - rewrite colorScale_min. replace ((5 + n) `min` 5)%nat with 5%nat by lia.
    vm_compute. reflexivity.
Qed.

(** ** After [destroy] *)

(** X11. After [destroy] the visualizer has no surface and its other fields
    are as before.  From then on [updateStep], [renderGraph], [setModels],
    [clear] and a second [destroy] return normally without reaching a
    surface, while [markElementAsFailed], [highlightElement] and
    [updateElementColor] throw; [markElementAsFailed] has recorded the
    identifier by then. *)
Theorem use_after_destroy v id ms b :
  let v' := r_state (destroy v) in
  r_value (destroy v) = Ret tt ∧ v' = set_graph None v ∧
  updateStep id v' = Result (Ret tt) v' [] ∧
  renderGraph v' = Result (Ret tt) v' [] ∧
  destroy v' = Result (Ret tt) v' [] ∧
  (r_value (clear v') = Ret tt ∧ r_calls (clear v') = [] ∧ graph (r_state (clear v')) = None) ∧
  (r_value (setModels ms v') = Ret tt ∧ r_calls (setModels ms v') = [] ∧
   models (r_state (setModels ms v')) = ms ∧ graph (r_state (setModels ms v')) = None) ∧
  (exists e, markElementAsFailed id v' = Result (Throw e) (set_failedStepId (Some id) v') []) ∧
  (exists e, highlightElement id b v' = Result (Throw e) v' []) ∧
  (exists e, updateElementColor id v' = Result (Throw e) v' []).
Proof.
  intros v'.
  assert (destroy v = Result (Ret tt) (set_graph None v) []) as Hd.
  { unfold destroy. rewrite get_bind. destruct v as [[g|] ? ? ? ? ?]; done. }
  subst v'. rewrite Hd. cbn [r_state r_value].
  set (v' := set_graph None v).
  assert (graph v' = None) as Hg by done.
  split_and!; try done.
  - eexists. unfold markElementAsFailed. rewrite modify_bind.
    erewrite bind_Throw; [done|]. by apply findById_null.
  - eexists. unfold highlightElement. erewrite bind_Throw; [done|]. by apply findById_null.
  - eexists. unfold updateElementColor. rewrite get_bind.
    erewrite bind_Throw; [done|]. by apply findById_null.
Qed.

(** ** [clear] *)

(** X12. [clear] empties the surface but keeps the models: afterwards no
    identifier resolves to an element.  [updateStep] then does nothing for
    an identifier that is not the name of an inherited member; for such a
    name it gets past its guard, stores a value under the name, makes it
    the current identifier and throws, without a call on the surface.  When
    there are models, a [renderGraph] after the [clear] gives the very
    state [setModels] gives for the same models. *)
Theorem clear_then_render_is_setModels v :
  is_Some (graph v) -> models v ≠ [] ->
  let v1 := r_state (clear v) in
  (forall id, known v1 id = false) ∧
  (forall id,
     updateStep id v1 =
       match protoMember id with
       | None => Result (Ret tt) v1 []
       | Some _ =>
           Result (Throw (TypeError "item.getType is not a function"))
             (visitedState v1 (surface v1) id) []
       end) ∧
  models v1 = models v ∧
  r_state (renderGraph v1) = r_state (setModels (models v) v).
Proof.
  intros [g Hg] Hm v1. subst v1. rewrite clear_eq, Hg. cbn [r_state fmap option_fmap option_map].
  split_and!.
  - intros id. unfold known. cbn. unfold G6_apply. cbn. by rewrite lookup_empty.
  - intros id. erewrite updateStep_eq by reflexivity.
    unfold G6_findById, lookupItem, G6_apply. cbn [itemMap]. rewrite lookup_empty.
    destruct (protoMember id) as [m|] eqn:Hp.
    + destruct (String.eqb_spec id "") as [-> |Hne]; [done|]. done.
    + by destruct (String.eqb id "").
  - done.
  - rewrite renderGraph_eq, setModels_eq, Hg. cbn [graph models].
    destruct (models v) as [|m ms]; done.
Qed.

Lemma clear_then_render_is_setModels_witness :
  is_Some (graph sample_viz) ∧ models sample_viz ≠ [] ∧
  r_state (renderGraph (r_state (clear sample_viz))) =
    r_state (setModels (models sample_viz) sample_viz).
Proof.
  assert (is_Some (graph sample_viz)) as H1 by (vm_compute; eauto).
  assert (models sample_viz ≠ []) as H2 by (vm_compute; discriminate).
  split; [exact H1|]. split; [exact H2|].
  exact (proj2 (proj2 (proj2 (clear_then_render_is_setModels sample_viz H1 H2)))).
Defined.
(** ** The handler table *)

Lemma lookup_on t h c k :
  messageHandlers (on t h c) !! k =
    (fun o => if decide (t = k) then Some h else o) <$> messageHandlers c !! k.
Proof.
  unfold on. destruct (messageHandlers c !! t) as [o|] eqn:Ht; cbn.
  - rewrite lookup_insert. case_decide; subst; [by rewrite Ht|].
    by destruct (messageHandlers c !! k).
  - destruct (messageHandlers c !! k) eqn:Hk; [|done]. cbn.
    case_decide; [congruence|done].
Qed.

Lemma lookup_register regs c k :
  messageHandlers (register regs c) !! k = lastFor k regs <$> messageHandlers c !! k.
Proof.
  revert c. induction regs as [|r regs IH]; intros c; cbn.
  - by destruct (messageHandlers c !! k).
  - unfold register in IH. rewrite IH, lookup_on.
    by destruct (messageHandlers c !! k).
Qed.

Lemma lookup_new k :
  messageHandlers WebSocketClient_new !! k =
    if decide (k ∈ knownTypes) then Some None else None.
Proof.
  unfold WebSocketClient_new, knownTypes. cbn.
  rewrite !lookup_insert, lookup_empty.
  repeat (case_decide;
            [subst; rewrite decide_True by (rewrite !elem_of_cons; tauto); done|]).
  rewrite decide_False; [done|]. rewrite !elem_of_cons, elem_of_nil. intuition congruence.
Qed.

(** X13. Whatever registrations are made on a fresh client, its table keeps
    exactly the five message types of the constructor as keys: a registration
    for any other type is ignored, and each of the five types holds the
    handler of the last registration made for it, or none. *)
Theorem handler_table_keeps_its_keys regs k :
  messageHandlers (register regs WebSocketClient_new) !! k =
    if decide (k ∈ knownTypes) then Some (lastFor k regs None) else None.
Proof. rewrite lookup_register, lookup_new. by case_decide. Qed.

Example setupWebSocketHandlers_registers :
  setupWebSocketHandlers WebSocketClient_new =
    register [("start", HandleStartMessage); ("step-start", HandleStepStartMessage);
              ("step-end", HandleStepEndMessage); ("end", HandleEndMessage);
              ("error", HandleErrorMessage)] WebSocketClient_new ∧
  on "ping" HandleEndMessage std = std.
Proof. split; [reflexivity|]. vm_compute. reflexivity. Qed.

(** ** Frames that end in the [catch] of [onmessage] *)

(** Case analysis on the type of a message: one of the five types main.js
    handles, another type, or none. *)
Ltac type_cases message :=
  rewrite ?(std_handler_of message); unfold hasType in *;
  let t := fresh "t" in
  destruct (type message) as [t|];
  [ destruct (String.eqb_spec t "error") as [-> |?];
    [|destruct (String.eqb_spec t "end") as [-> |?];
      [|destruct (String.eqb_spec t "step-end") as [-> |?];
        [|destruct (String.eqb_spec t "step-start") as [-> |?];
          [|destruct (String.eqb_spec t "start") as [-> |?]]]]]
  |].

Lemma throwingType_handled message h :
  messageHandlers std !! default "undefined" (type message) = Some (Some h) ->
  throwingType (JsonObject message) = false.
Proof.
  rewrite std_handlers. unfold throwingType.
  repeat (case_decide;
            [match goal with H : _ = _ |- _ => rewrite H end; intros _; reflexivity|]).
  done.
Qed.

(** A frame with a handler ends in the [catch] when the handler reads a
    field the message lacks, or its call on the visualizer throws outside
    any [try] of the handler. *)
Lemma endsInCatch_handled a message h :
  Ready a ->
  messageHandlers std !! default "undefined" (type message) = Some (Some h) ->
  endsInCatch a (JsonObject message) =
    handlerThrows h message ||
    (negb (guarded h message) && threw (doOp (handlerOp h message) (graphVisualizer a))).
Proof.
  intros [_ Hg] Hh. unfold endsInCatch. rewrite (throwingType_handled _ _ Hh), orb_false_r.
  revert Hh. unfold malformed, visitedById, failedOf. type_cases message; cbn;
    intros [= <-]; cbn [handlerThrows guarded handlerOp negb andb orb].
  - destruct (msg_step message) as [step|]; cbn; [|done].
    destruct (truthy (s_id step)) eqn:E; cbn; [|done].
    apply truthy_default in E as [E ?]. rewrite E at 1. cbn.
    by rewrite threw_markElementAsFailed.
  - done.
  - destruct (msg_result message) as [result|]; cbn.
    + rewrite ?bool_decide_eq_false_2 by done. cbn.
      destruct (sr_error result); cbn; [|done].
      destruct (truthy (sr_id result)) eqn:E; cbn; [|done].
      apply truthy_default in E as [E ?]. rewrite E at 1. cbn.
      by rewrite threw_markElementAsFailed.
    + by rewrite ?bool_decide_eq_true_2.
  - destruct (msg_step message) as [step|]; cbn.
    + rewrite ?bool_decide_eq_false_2 by done. cbn.
      destruct (truthy (s_id step)) eqn:E; cbn; [|done].
      apply truthy_default in E as [E ?]. rewrite E at 1. cbn.
      rewrite threw_updateStep by done. by rewrite orb_false_r.
    + by rewrite ?bool_decide_eq_true_2.
  - done.
Qed.

(** X14. No frame makes [onmessage] raise.  In every state the application
    can reach, the frames that end in the [catch] of [onmessage], and so
    leave the error line as the last line of the console, are exactly:
    text that is not JSON and the JSON value [null]; a [step-start] without
    [step] and a [step-end] without [result]; a message whose type names an
    inherited function that throws; a [step-start] whose step id makes
    [updateStep] throw; and a failure report for an identifier that is no
    element although [findById] answers for it.  Every other frame adds the
    received line and at most the line for an unhandled type.  A frame of
    the first three kinds changes the console only. *)
Theorem handler_exceptions_are_caught u history data :
  let a := run history (init u) in
  r_value (onmessage data a) = Ret tt ∧
  (if endsInCatch a data
   then exists entries,
          console (deliver a data) =
            console a ++ entries ++ [ConsoleError "Error parsing message:"]
   else exists entries,
          console (deliver a data) =
            console a ++ ConsoleLog "DEBUG [CLIENT]: Received message:" :: entries ∧
          (entries = [] ∨ entries = [ConsoleLog "Unhandled message type:"])) ∧
  (malformed data || throwingType data = true ->
   exists entries,
     deliver a data = logged (entries ++ [ConsoleError "Error parsing message:"]) a).
Proof.
  intros a. assert (Ready a) as Ha by apply Ready_run, Ready_init. clearbody a.
  split; [apply onmessage_viz|].
  destruct data as [raw| |message].
  - split; [exists []; by destruct a|]. intros _. exists []. by destruct a.
  - split; [exists []; by destruct a|]. intros _. exists []. by destruct a.
  - pose proof Ha as [Hw _].
    destruct (messageHandlers std !! default "undefined" (type message)) as [[h|]|] eqn:Hh.
    + rewrite (endsInCatch_handled a message h Ha Hh), (throwingType_handled _ _ Hh),
        orb_false_r, (deliver_app a message h Hw Hh).
      assert (malformed (JsonObject message) = handlerThrows h message) as ->.
      { revert Hh. unfold malformed. type_cases message; cbn; intros [= <-]; cbn; try done.
        - by rewrite orb_false_r. }
      destruct (handlerThrows h message); cbn.
      * split; [by exists [ConsoleLog "DEBUG [CLIENT]: Received message:"]|].
        intros _. by exists [ConsoleLog "DEBUG [CLIENT]: Received message:"].
      * split; [|done].
        destruct (negb (guarded h message) && threw _).
        -- by exists [ConsoleLog "DEBUG [CLIENT]: Received message:"].
        -- exists []. eauto.
    + rewrite std_handlers in Hh. repeat case_decide; done.
    + rewrite <- Hw in Hh. rewrite (deliver_unhandled _ _ Hh).
      assert (endsInCatch a (JsonObject message) = throwingType (JsonObject message)) as ->.
      { rewrite Hw in Hh. revert Hh. unfold endsInCatch, malformed, visitedById, failedOf.
        type_cases message; cbn; try done; intros _; by rewrite ?orb_false_r. }
      assert (malformed (JsonObject message) = false) as ->.
      { rewrite Hw in Hh. revert Hh. unfold malformed.
        type_cases message; cbn; try done. }
      cbn [orb]. unfold unhandledLines, throwingType. rewrite Hh.
      destruct (protoMember _) as [m|]; cbn.
      * destruct (callable m); cbn.
        -- destruct (returnsWithoutThis m); cbn.
           ++ split; [|done]. exists []. destruct a; cbn. eauto.
           ++ split; [by exists [ConsoleLog "DEBUG [CLIENT]: Received message:"]|].
              intros _. by exists [ConsoleLog "DEBUG [CLIENT]: Received message:"].
        -- split; [|done]. eexists. destruct a; cbn. eauto.
      * split; [|done]. eexists. destruct a; cbn. eauto.
Qed.

(** A visit of ["constructor"] by id, and the visit of an element that
    follows it, end in the [catch]; so does a failure report for
    ["constructor"]. *)
Example frames_that_end_in_catch :
  let a1 := sample_started in
  let a2 := deliver a1 (stepStartFrame (Some "constructor") None) in
  endsInCatch a1 (stepStartFrame (Some "constructor") None) = true ∧
  endsInCatch a1 (stepStartFrame (Some "A") None) = false ∧
  endsInCatch a2 (stepStartFrame (Some "A") None) = true ∧
  endsInCatch a2 (stepStartFrame None (Some "A")) = false ∧
  endsInCatch a1 (errorFrame "constructor") = true ∧
  endsInCatch a1 (errorFrame "ghost") = false ∧
  endsInCatch a1 (JsonObject (emptyMessage "valueOf")) = true ∧
  endsInCatch a1 (JsonObject (emptyMessage "toString")) = false.
Proof. vm_compute. by split_and!. Qed.

(** ** Calls on the surface, frame by frame *)

(** X20. Only a run-start redraws: it makes the three calls [data],
    [render], [fitView(40)].  Every other frame makes at most three calls,
    all of them style updates of single items, so the layout and the viewport
    stay as they are during a run. *)
Theorem only_run_start_redraws u history data :
  let a := run history (init u) in
  let cs := r_calls (onmessage data a) in
  if isRunStart data
  then exists d, cs = [CallData d; CallRender; CallFitView 40]
  else Forall isUpdate cs ∧ (length cs <= 3)%nat.
Proof.
  intros a cs. subst cs.
  assert (Ready a) as Ha by apply Ready_run, Ready_init. clearbody a.
  pose proof Ha as [Hw [g Hg]].
  destruct (isRunStart data) eqn:Hs.
  - destruct (onmessage_viz data a) as (_ & _ & -> & _). rewrite Hw.
    destruct (frameOp_std_runStart _ Hs) as (message & m & ms & _ & _ & ->).
    cbn [doOp]. rewrite setModels_eq, Hg. cbn. eauto.
  - destruct (deliver_updates a data g Ha Hg Hs) as (H1 & H2 & _). done.
Qed.

(** ** The panels, frame by frame *)

Lemma deliver_ui a data :
  Ready a ->
  uiManager (deliver a data) = frameUi data (uiManager a) ∧
  isRunning (deliver a data) = frameRunning data (isRunning a).
Proof.
  intros Ha. destruct data as [raw| |message]; [by destruct a..|].
  unfold frameUi, frameRunning. pose proof Ha as [Hw _].
  destruct (messageHandlers std !! default "undefined" (type message)) as [[h|]|] eqn:Hh.
  - rewrite (deliver_app _ _ _ Hw Hh). destruct (handlerThrows h message); by destruct a.
  - rewrite std_handlers in Hh. repeat case_decide; done.
  - rewrite <- Hw in Hh. rewrite (deliver_unhandled _ _ Hh). by destruct a.
Qed.

Lemma append_assoc (a b c : string) : (a +:+ b) +:+ c = a +:+ (b +:+ c).
Proof.
  induction a as [|x a IH]; [done|].
  change (String x ((a +:+ b) +:+ c) = String x (a +:+ b +:+ c)). by f_equal.
Qed.

Lemma append_nil_r (a : string) : a +:+ "" = a.
Proof.
  induction a as [|x a IH]; [done|].
  change (String x (a +:+ "") = String x a). by f_equal.
Qed.

Lemma deliver_output a data :
  Ready a ->
  outputText (uiManager (deliver a data)) =
    if isStart data then "" else outputText (uiManager a) +:+ outputOf data.
Proof.
  intros Ha. destruct (deliver_ui a data Ha) as [-> _].
  destruct data as [raw| |message]; cbn [frameUi isStart outputOf];
    [by rewrite append_nil_r..|].
  type_cases message; cbn; rewrite ?append_nil_r; try done.
  - destruct (msg_result message) as [result|]; cbn; [|by rewrite append_nil_r].
    rewrite ?bool_decide_eq_false_2 by done.
    destruct (sr_error result), (truthy (sr_output result)); cbn; by rewrite ?append_nil_r.
  - destruct (msg_step message) as [step|]; cbn; [|done].
    by rewrite ?bool_decide_eq_false_2 by done.
Qed.

Lemma run_output frames a :
  Ready a -> Forall (fun data => isStart data = false) frames ->
  outputText (uiManager (run frames a)) = outputText (uiManager a) +:+ transcript frames.
Proof.
  intros Ha Hf. revert a Ha. induction Hf as [|p frames Hp _ IH]; intros a Ha.
  - cbn. by rewrite append_nil_r.
  - change (run (p :: frames) a) with (run frames (deliver a p)).
    rewrite IH by by apply Ready_deliver. rewrite deliver_output, Hp by done.
    cbn. by rewrite append_assoc.
Qed.

(** X15. The output panel holds the transcript of the current run: every
    [start] message empties it, also one without models, and from then on
    each [step-end] with output adds that output and a newline, each [end]
    adds the completion line, and no other frame changes it. *)
Theorem output_is_transcript u history start frames :
  isStart start = true -> Forall (fun data => isStart data = false) frames ->
  let a := run history (init u) in
  outputText (uiManager (run frames (deliver a start))) = transcript frames ∧
  outputText (uiManager (run frames a)) = outputText (uiManager a) +:+ transcript frames.
Proof.
  intros Hs Hf a. assert (Ready a) as Ha by apply Ready_run, Ready_init.
  split; [|by apply run_output].
  rewrite run_output, deliver_output, Hs; [done..|by apply Ready_deliver|done].
Qed.

Lemma output_is_transcript_witness :
  isStart (startFrame []) = true ∧
  Forall (fun data => isStart data = false)
    [stepEndFrame "ok"; errorFrame "A"; endFrame true] ∧
  outputText (uiManager
    (run [stepEndFrame "ok"; errorFrame "A"; endFrame true]
       (deliver (run [stepEndFrame "stale"] (init sample_ui)) (startFrame [])))) =
    transcript [stepEndFrame "ok"; errorFrame "A"; endFrame true].
Proof.
  assert (Forall (fun data => isStart data = false)
            [stepEndFrame "ok"; errorFrame "A"; endFrame true]) as Hf
    by (repeat constructor).
  split; [reflexivity|]. split; [exact Hf|].
  exact (proj1 (output_is_transcript sample_ui [stepEndFrame "stale"] (startFrame [])
                  [stepEndFrame "ok"; errorFrame "A"; endFrame true] eq_refl Hf)).
Defined.

(** ** The phase of a run *)

Lemma deliver_phase a data :
  Ready a ->
  let a' := deliver a data in
  isRunning a' = (if isStart data then true else if isEnd data then false else isRunning a) ∧
  currentStepSectionHidden (uiManager a') =
    (if isStart data then false else if isEnd data then true
     else currentStepSectionHidden (uiManager a)) ∧
  statisticsSectionHidden (uiManager a') =
    (if isStart data then true else if isEnd data then false
     else statisticsSectionHidden (uiManager a)).
Proof.
  intros Ha a'. subst a'. destruct (deliver_ui a data Ha) as [-> ->].
  destruct data as [raw| |message]; cbn [frameUi frameRunning isStart isEnd]; [done..|].
  type_cases message; cbn; try done.
  - destruct (msg_result message) as [result|]; cbn; [|done].
    rewrite ?bool_decide_eq_false_2 by done.
    by destruct (sr_error result), (truthy (sr_output result)).
  - destruct (msg_step message) as [step|]; cbn; [|done].
    by rewrite ?bool_decide_eq_false_2 by done.
Qed.

Lemma run_phase frames a :
  Ready a ->
  let tied a := currentStepSectionHidden (uiManager a) = negb (isRunning a) ∧
                statisticsSectionHidden (uiManager a) = isRunning a in
  let a' := run frames a in
  (tied a -> tied a') ∧
  if existsb (fun data => isStart data || isEnd data) frames then tied a'
  else isRunning a' = isRunning a ∧
       currentStepSectionHidden (uiManager a') = currentStepSectionHidden (uiManager a) ∧
       statisticsSectionHidden (uiManager a') = statisticsSectionHidden (uiManager a).
Proof.
  intros Ha tied. revert a Ha. induction frames as [|p frames IH]; intros a Ha; [done|].
  change (run (p :: frames) a) with (run frames (deliver a p)). cbn [existsb].
  destruct (IH (deliver a p) (Ready_deliver _ _ Ha)) as [IH1 IH2].
  destruct (deliver_phase a p Ha) as (Hr & Hc & Hs).
  assert (tied a -> tied (deliver a p)) as Hstep.
  { unfold tied. rewrite Hr, Hc, Hs. destruct (isStart p), (isEnd p); tauto. }
  cbn zeta. split; [tauto|].
  destruct (isStart p) eqn:H1; cbn [orb].
  { assert (tied (deliver a p)) as Ht by (unfold tied; by rewrite Hr, Hc, Hs).
    destruct (existsb _ frames); tauto. }
  destruct (isEnd p) eqn:H2; cbn [orb].
  { assert (tied (deliver a p)) as Ht by (unfold tied; by rewrite Hr, Hc, Hs).
    destruct (existsb _ frames); tauto. }
  destruct (existsb _ frames); [done|]. rewrite <- Hr, <- Hc, <- Hs. done.
Qed.

(** X16. [isRunning] and the two sections move together.  A [start] message
    sets [isRunning], also when it carries no models, an [end] message clears
    it, and no other frame changes it.  Once a [start] or an [end] has been
    handled, the current-step section is shown exactly while [isRunning]
    holds and the statistics section exactly while it does not; before that,
    [isRunning] is false and both sections are as the page had them. *)
Theorem sections_follow_phase u history data :
  let a := run history (init u) in
  isRunning (deliver a data) =
    (if isStart data then true else if isEnd data then false else isRunning a) ∧
  if existsb (fun data => isStart data || isEnd data) history
  then currentStepSectionHidden (uiManager a) = negb (isRunning a) ∧
       statisticsSectionHidden (uiManager a) = isRunning a
  else isRunning a = false ∧
       currentStepSectionHidden (uiManager a) = currentStepSectionHidden u ∧
       statisticsSectionHidden (uiManager a) = statisticsSectionHidden u.
Proof.
  intros a. assert (Ready a) as Ha by apply Ready_run, Ready_init.
  split; [by apply deliver_phase|].
  apply (run_phase history (init u)), Ready_init.
Qed.

(** ** The error panel *)

Lemma js_or_nonempty a b : b ≠ "" -> js_or a b ≠ "".
Proof.
  intros Hb. unfold js_or. destruct a as [t|]; [|done].
  by destruct (String.eqb_spec t "").
Qed.

(** X17. The error panel follows the reports: an [error] message, and a
    [step-end] whose result carries an error, put their message and trace in
    the panel, whether or not they name an element and whether or not it
    resolves; the message shown is then never empty.  A [start] message
    empties both fields, and no other frame changes them. *)
Theorem error_panel_follows_reports u history data :
  let a := run history (init u) in
  let u' := uiManager (deliver a data) in
  (errorMessage u', errorTrace u') =
    match errorOf data with
    | Some report => report
    | None => if isStart data then ("", "")
              else (errorMessage (uiManager a), errorTrace (uiManager a))
    end ∧
  match errorOf data with
  | Some _ => errorMessage u' ≠ ""
  | None => True
  end.
Proof.
  intros a u'. subst u'. assert (Ready a) as Ha by apply Ready_run, Ready_init. clearbody a.
  destruct (deliver_ui a data Ha) as [-> _].
  destruct data as [raw| |message]; cbn [frameUi isStart errorOf]; [done..|].
  type_cases message; cbn; try done.
  - split; [done|]. by apply js_or_nonempty.
  - destruct (msg_result message) as [result|]; cbn; [|done].
    rewrite ?bool_decide_eq_false_2 by done.
    destruct (sr_error result) as [error|]; cbn.
    + split; [done|]. by apply js_or_nonempty.
    + by destruct (truthy (sr_output result)).
  - by destruct (msg_step message) as [step|].
Qed.

(** ** The step panel *)

(** X18. The step panel shows the step of the last [step-start] message that
    carried one: its name, id, model name and data with their defaults,
    whether or not the step resolves to an element.  No other frame changes
    the panel; in particular a [start] message leaves the step of the
    previous run on display. *)
Theorem step_panel_shows_last_step u history data :
  let a := run history (init u) in
  stepPanel (uiManager (deliver a data)) =
    match stepOf data with
    | Some step =>
        {| stepName := js_or (s_name step) ""; stepId := js_or (s_id step) "";
           stepModel := js_or (s_modelName step) ""; stepData := default "{}" (s_data step) |}
    | None => stepPanel (uiManager a)
    end.
Proof.
  intros a. assert (Ready a) as Ha by apply Ready_run, Ready_init. clearbody a.
  destruct (deliver_ui a data Ha) as [-> _].
  destruct data as [raw| |message]; cbn [frameUi stepOf]; [done..|].
  type_cases message; cbn; try done.
  - destruct (msg_result message) as [result|]; cbn; [|done].
    rewrite ?bool_decide_eq_false_2 by done.
    by destruct (sr_error result), (truthy (sr_output result)).
  - by destruct (msg_step message) as [step|].
Qed.

(** ** The status badge *)

(** X19. On an [end] message the badge shows Passed or Failed after the
    reported status, where a status inside [statistics] wins over the
    message's own; when the message reports no status at all, the badge of
    the previous run stays.  The seven counters and the two coverage
    figures are always rewritten from the statistics, with 0 for every
    absent figure. *)
Theorem end_status_badge u history message :
  type message = Some "end" ->
  let a := run history (init u) in
  let p := statsPanel (uiManager a) in
  let p' := statsPanel (uiManager (deliver a (JsonObject message))) in
  let figure (field : Statistics -> option Z) := js_or0 (msg_statistics message ≫= field) in
  statsStatus p' =
    match statusOf message with
    | Some true => "Passed"
    | Some false => "Failed"
    | None => statsStatus p
    end ∧
  statsStatusClass p' =
    match statusOf message with
    | Some b =>
        "px-3 py-1 rounded-full text-sm font-medium " +:+
        (if b then "bg-green-100 text-green-800" else "bg-red-100 text-red-800")
    | None => statsStatusClass p
    end ∧
  statsModelsTotal p' = pretty (figure totalNumberOfModels) ∧
  statsModelsCompleted p' = pretty (figure totalCompletedNumberOfModels) ∧
  statsModelsFailed p' = pretty (figure totalFailedNumberOfModels) ∧
  statsEdgesVisited p' = pretty (figure totalNumberOfVisitedEdges) ∧
  statsEdgesUnvisited p' = pretty (figure totalNumberOfUnvisitedEdges) ∧
  statsVerticesVisited p' = pretty (figure totalNumberOfVisitedVertices) ∧
  statsVerticesUnvisited p' = pretty (figure totalNumberOfUnvisitedVertices) ∧
  statsEdgeCoverage p' = percentText (figure edgeCoverage) ∧
  statsVertexCoverage p' = percentText (figure vertexCoverage).
Proof.
  intros Ht a p p' figure. subst p p' figure.
  assert (Ready a) as Ha by apply Ready_run, Ready_init.
  clearbody a. destruct (deliver_ui a (JsonObject message) Ha) as [-> _].
  unfold frameUi. rewrite std_handler_of. unfold hasType. rewrite Ht. cbn.
  unfold statusOf.
  destruct (msg_statistics message) as [s|]; cbn.
  - destruct (st_status s) as [[]|]; cbn; [by split_and!..|].
    destruct (msg_status message) as [[]|]; by split_and!.
  - destruct (msg_status message) as [[]|]; by split_and!.
Qed.

Lemma end_status_badge_witness :
  type (emptyMessage "end") = Some "end" ∧
  statsStatus (statsPanel (uiManager
    (deliver (run [endFrame true] (init sample_ui)) (JsonObject (emptyMessage "end"))))) =
  statsStatus (statsPanel (uiManager (run [endFrame true] (init sample_ui)))).
Proof.
  split; [reflexivity|].
  exact (proj1 (end_status_badge sample_ui [endFrame true] (emptyMessage "end") eq_refl)).
Defined.

Example stale_badge :
  statsStatus (statsPanel (uiManager
    (run [endFrame true; startFrame [sample_model]; JsonObject (emptyMessage "end")]
       (init sample_ui)))) = "Passed".
Proof. vm_compute. reflexivity. Qed.

(** ** Colours *)

Lemma converted_nodes_default models n :
  n ∈ nodes (convertModelsToG6Data models) ->
  n_fill n = "#ffffff" ∧ n_stroke n = "#5B8FF9".
Proof.
  rewrite convertModelsToG6Data_eq. cbn [nodes].
  intros H. apply list_elem_of_In, in_flat_map in H as (model & _ & H).
  apply in_flat_map in H as (actual & _ & H).
  unfold subNodes in H. destruct (m_vertices actual) as [vs|]; [|done].
  apply in_map_iff in H as (vx & <- & _). done.
Qed.

Lemma colours_highlightPatch b it : colours (patchItem (highlightPatch b) it) = colours it.
Proof. done. Qed.

Lemma colours_paint it c :
  colours it = defaultColours (getType it) ∨ colours it = failureColours (getType it) ∨
  (exists c0, colours it = paint (getType it) c0) ->
  colours (patchItem (colorPatch (getType it) (Some c)) it) = paint (getType it) c.
Proof.
  unfold colours, paint, defaultColours, failureColours. destruct it as [m st].
  unfold getType. cbn. destruct m; cbn;
    intros [H|[H|[c0 H]]]; injection H as H1 H2 H3; by rewrite ?H1, ?H2, ?H3.
Qed.

Lemma colours_failed it :
  colours it = defaultColours (getType it) ∨ colours it = failureColours (getType it) ∨
  (exists c0, colours it = paint (getType it) c0) ->
  colours (patchItem (failedPatch (getType it)) it) = failureColours (getType it).
Proof.
  unfold colours, paint, defaultColours, failureColours. destruct it as [m st].
  unfold getType. cbn. destruct m; cbn;
    intros [H|[H|[c0 H]]]; injection H as H1 H2 H3; by rewrite ?H1, ?H2, ?H3.
Qed.

Lemma ColourInv_shape v id it :
  ColourInv v -> itemOf v id = Some it ->
  colours it = defaultColours (getType it) ∨ colours it = failureColours (getType it) ∨
  (exists c0, colours it = paint (getType it) c0).
Proof.
  intros Hinv Hit. destruct (Hinv id it Hit) as [H|H]; [tauto|].
  unfold countColours in H. destruct (visitCount v id); eauto.
Qed.

Lemma lookup_unhighlight_colours g cur x it :
  itemMap (replay (unhighlightCalls g cur) g) !! x = Some it ->
  exists it0, itemMap g !! x = Some it0 ∧ colours it = colours it0 ∧ getType it = getType it0.
Proof.
  rewrite lookup_unhighlight. case_decide.
  - destruct (itemMap g !! x) as [it0|]; cbn; [|done]. intros [= <-]. eauto.
  - eauto.
Qed.

Lemma doOp_colours op v :
  wellFormedOp op -> HighlightInv v -> countsResolve v -> ColourInv v ->
  ColourInv (r_state (doOp op v)).
Proof.
  intros Hwf (g & Hg & _ & Hplain & _) Hcr Hinv.
  destruct op as [|ms|id|id]; cbn [doOp].
  - done.
  - rewrite setModels_eq, Hg. destruct ms as [|m ms]; [done|].
    intros x it. erewrite itemOf_eq by reflexivity. cbn. intros Hx. right.
    unfold visitCount. cbn. rewrite lookup_empty.
    apply (G6_render_Forall_in (fun i => colours i = defaultColours (getType i))
             (convertModelsToG6Data (m :: ms))) in Hx; [done| |done].
    intros n Hn. apply converted_nodes_default in Hn as [Hf Hs].
    unfold colours. cbn. by rewrite Hf, Hs.
  - destruct (updateStep_cases v g id Hg)
      as [[-> _]|[[-> _]|[(m & -> & _ & Hl & _)|(it0 & Hu & _ & Hit & _)]]];
      cbn [r_state]; [done|done|..].
    + intros x it. erewrite itemOf_eq by reflexivity. cbn [visitedState].
      intros Hx. apply lookup_unhighlight_colours in Hx as (itx & Hitx & -> & ->).
      apply findById_Inherited_proto in Hl as [Hnone _].
      assert (visitCount (visitedState v (replay (unhighlightCalls g (currentStepId v)) g) id) x
              = visitCount v x) as ->.
      { unfold visitCount. cbn. rewrite assign_lookup.
        rewrite decide_False; [done|]. intros [-> _]. congruence. }
      apply Hinv. by rewrite (itemOf_eq _ g _ Hg).
    + cbn zeta in Hu. rewrite Hu. cbn [r_state].
      destruct (visit_count_item v g id it0 Hg Hplain Hcr Hit) as [Ha Hcol]. rewrite Hcol.
      assert (forall G x, visitCount (visitedState v G id) x =
                if decide (x = id) then S (visitCount v id) else visitCount v x) as Hvc.
      { intros G x. unfold visitCount at 1. cbn [visitedState visitCounts]. rewrite Ha.
        case_decide; [subst; rewrite lookup_insert_eq; lia|by rewrite lookup_insert_ne]. }
      assert (itemOf v id = Some it0) as Hit0 by by rewrite (itemOf_eq _ g _ Hg).
      pose proof (ColourInv_shape _ _ _ Hinv Hit0) as Hshape.
      replace (visitCount v id + 1)%nat with (S (visitCount v id)) by lia.
      intros x it. erewrite itemOf_eq by reflexivity. rewrite Hvc.
      destruct (decide (x = id)) as [-> |Hx].
      * erewrite lookup_visitCalls by done. intros [= <-]. right.
        set (it1 := if decide (currentStepId v = Some id ∧ id ≠ "")
                    then patchItem (highlightPatch false) it0 else it0).
        assert (getType it1 = getType it0 ∧ colours it1 = colours it0) as [Ht Hc]
          by (subst it1; by case_decide).
        rewrite colours_highlightPatch, !getType_patchItem.
        cbn [countColours]. rewrite <- Ht. apply colours_paint. by rewrite Hc, Ht.
      * rewrite lookup_visitCalls_ne by done.
        case_decide as Hd.
        -- destruct (itemMap g !! x) as [itx|] eqn:Hitx; cbn; [|done]. intros [= <-].
           rewrite colours_highlightPatch, getType_patchItem.
           apply Hinv. by rewrite (itemOf_eq _ g _ Hg).
        -- intros Hit'. apply Hinv. by rewrite (itemOf_eq _ g _ Hg).
  - erewrite markElementAsFailed_eq by eauto.
    destruct (G6_findById g id) as [it0| |] eqn:Hit; intros x it.
    + erewrite itemOf_eq by reflexivity. cbn [r_state set_graph set_failedStepId graph].
      apply lookupItem_Found in Hit.
      assert (itemOf v id = Some it0) as Hit0 by by rewrite (itemOf_eq _ g _ Hg).
      pose proof (ColourInv_shape _ _ _ Hinv Hit0) as Hshape.
      rewrite lookup_updateItem. case_decide as Hd.
      * subst. rewrite Hit. cbn. intros [= <-]. left.
        rewrite getType_patchItem. by apply colours_failed.
      * intros Hx. apply (Hinv x it). by rewrite (itemOf_eq _ g _ Hg).
    + intros Hx. apply (Hinv x it). revert Hx. unfold itemOf, surface. cbn. by rewrite Hg.
    + intros Hx. apply (Hinv x it). revert Hx. unfold itemOf, surface. cbn. by rewrite Hg.
Qed.

Lemma ColourInv_run history a :
  Consistent a -> ColourInv (graphVisualizer a) -> ColourInv (graphVisualizer (run history a)).
Proof.
  revert a. induction history as [|p history IH]; intros a Ha Hc; [done|].
  change (run (p :: history) a) with (run history (deliver a p)).
  apply IH; [by apply Consistent_deliver|]. rewrite deliver_viz.
  destruct Ha as (_ & Hh & Hcr).
  apply doOp_colours; [apply frameOp_wellFormed|done..].
Qed.

(** X21. In every state the application can reach, the colour of each
    element is accounted for: it is either the fixed failure colour, or the
    colour the scale gives its visit count, and for an element not yet
    visited in the run the colour it was rendered with. *)
Theorem colours_reflect_counts u history id it :
  let v := graphVisualizer (run history (init u)) in
  itemOf v id = Some it ->
  colours it = failureColours (getType it) ∨
  colours it = countColours (getType it) (visitCount v id).
Proof.
  intros v. apply (ColourInv_run history (init u)); [apply Consistent_init|].
  intros x i. unfold itemOf. cbn. by rewrite lookup_empty.
Qed.

Lemma colours_reflect_counts_witness :
  itemOf (graphVisualizer sample_after_visit) "A" = Some sample_item_A ∧
  (colours sample_item_A = failureColours (getType sample_item_A) ∨
   colours sample_item_A =
     countColours (getType sample_item_A) (visitCount (graphVisualizer sample_after_visit) "A")).
Proof.
  unfold sample_after_visit.
  assert (itemOf (graphVisualizer
            (run [startFrame [sample_model]; stepStartFrame None (Some "A")] (init sample_ui)))
            "A" = Some sample_item_A) as Hi by (vm_compute; reflexivity).
  split; [exact Hi|].
  exact (colours_reflect_counts sample_ui
           [startFrame [sample_model]; stepStartFrame None (Some "A")]
           "A" sample_item_A Hi).
Defined.

(** ** Frames that leave the visualizer alone *)

(** X22. A frame that is not a run-start, reports no failure and visits no
    identifier [findById] answers for leaves the whole visualizer as it was
    and makes no call on the surface: an [end], a [step-end] without error,
    a step whose key is neither an element nor the name of an inherited
    member, a message of any other type, a malformed frame. *)
Theorem other_frames_leave_the_visualizer u history data :
  let a := run history (init u) in
  isRunStart data = false -> failedOf data = None ->
  (forall id, visited data = Some id -> answered (graphVisualizer a) id = false) ->
  graphVisualizer (deliver a data) = graphVisualizer a ∧
  r_calls (onmessage data a) = [].
Proof.
  intros a Hs Hf Hv. assert (Ready a) as Ha by apply Ready_run, Ready_init. clearbody a.
  destruct (onmessage_viz data a) as (_ & _ & -> & _).
  rewrite deliver_viz. pose proof Ha as [Hw [g Hg]]. rewrite Hw.
  pose proof (frameOp_std_cases data) as Hc.
  destruct (frameOp std data) as [|ms|x|x]; cbn [opKind doOp] in *.
  - done.
  - destruct Hc as [Hc _]. congruence.
  - destruct Hc as (_ & Hc & _). specialize (Hv x Hc).
    by rewrite updateStep_unresolved_noop.
  - destruct Hc as (_ & _ & Hc). congruence.
Qed.

Lemma other_frames_leave_the_visualizer_witness :
  isRunStart (stepStartFrame (Some "v1") (Some "A")) = false ∧
  failedOf (stepStartFrame (Some "v1") (Some "A")) = None ∧
  visited (stepStartFrame (Some "v1") (Some "A")) = Some "v1" ∧
  answered (graphVisualizer sample_after_visit) "v1" = false ∧
  graphVisualizer (deliver sample_after_visit (stepStartFrame (Some "v1") (Some "A"))) =
    graphVisualizer sample_after_visit.
Proof.
  unfold sample_after_visit.
  assert (answered (graphVisualizer
            (run [startFrame [sample_model]; stepStartFrame None (Some "A")] (init sample_ui)))
            "v1" = false) as Hk by (vm_compute; reflexivity).
  split; [reflexivity|]. split; [reflexivity|]. split; [reflexivity|]. split; [exact Hk|].
  refine (proj1 (other_frames_leave_the_visualizer sample_ui
                  [startFrame [sample_model]; stepStartFrame None (Some "A")]
                  (stepStartFrame (Some "v1") (Some "A")) eq_refl eq_refl _)).
  intros id Hid. injection Hid as <-. exact Hk.
Defined.

(** X25. The name of a step is a fallback for a missing id only, never for
    an id that does not resolve: a [step-start] whose step has a non-empty
    id that [findById] has no answer for changes nothing on the visualizer
    and makes no call on the surface, whatever its name is, even the name
    of an element of the graph. *)
Theorem unresolved_id_is_not_retried_by_name u history message step :
  let a := run history (init u) in
  type message = Some "step-start" -> msg_step message = Some step ->
  truthy (s_id step) = true ->
  answered (graphVisualizer a) (default "" (s_id step)) = false ->
  graphVisualizer (deliver a (JsonObject message)) = graphVisualizer a ∧
  r_calls (onmessage (JsonObject message) a) = [].
Proof.
  intros a Ht Hs Hid Hk. assert (Ready a) as Ha by apply Ready_run, Ready_init. clearbody a.
  destruct (onmessage_viz (JsonObject message) a) as (_ & _ & -> & _).
  rewrite deliver_viz. pose proof Ha as [Hw _]. rewrite Hw.
  cbn [frameOp]. rewrite std_handler_of. unfold hasType. rewrite Ht. cbn.
  rewrite Hs, Hid. cbn [doOp]. by rewrite updateStep_unresolved_noop.
Qed.

Lemma unresolved_id_is_not_retried_by_name_witness :
  known (graphVisualizer (run [startFrame [sample_model]] (init sample_ui))) "A" = true ∧
  answered (graphVisualizer (run [startFrame [sample_model]] (init sample_ui))) "v1" = false ∧
  graphVisualizer
    (deliver (run [startFrame [sample_model]] (init sample_ui))
       (stepStartFrame (Some "v1") (Some "A"))) =
  graphVisualizer (run [startFrame [sample_model]] (init sample_ui)).
Proof.
  assert (known (graphVisualizer (run [startFrame [sample_model]] (init sample_ui))) "A" = true)
    as HA by (vm_compute; reflexivity).
  assert (answered (graphVisualizer (run [startFrame [sample_model]] (init sample_ui)))
            (default "" (Some "v1")) = false) as Hk by (vm_compute; reflexivity).
  split; [exact HA|]. split; [exact Hk|]. unfold stepStartFrame.
  exact (proj1 (unresolved_id_is_not_retried_by_name sample_ui [startFrame [sample_model]]
                  {| type := Some "step-start"; msg_models := None;
                     msg_step := Some {| s_id := Some "v1"; s_name := Some "A";
                                         s_modelName := None; s_data := None |};
                     msg_result := None; msg_status := None; msg_statistics := None;
                     msg_message := None; msg_trace := None |}
                  {| s_id := Some "v1"; s_name := Some "A"; s_modelName := None;
                     s_data := None |} eq_refl eq_refl eq_refl Hk)).
Defined.

(** ** Counting visits *)

(** X26. After a run-start or a [clear], and as long as no frame visits the
    name of an inherited member, the count stored for an element is the
    number of [step-start] frames since then whose key is that element, and
    nothing is counted for an identifier that is no element.  In any state
    the application reaches, a [step-start] frame whose key [findById] has
    no answer for leaves [visitCounts] as it was. *)
Theorem visit_count_equals_events u history frames id :
  Forall (fun data => isRunStart data = false ∧
                      forall x, visited data = Some x -> protoMember x = None) frames ->
  let a0 := run history (init u) in
  (forall start, isRunStart start = true ->
     let a := deliver a0 start in
     visitCount (graphVisualizer (run frames a)) id =
       if known (graphVisualizer a) id then countVisits id frames else 0%nat) ∧
  (let a := r_state (viz clear a0) in
   visitCount (graphVisualizer (run frames a)) id =
     if known (graphVisualizer a) id then countVisits id frames else 0%nat) ∧
  (forall data, visited data = Some id -> answered (graphVisualizer a0) id = false ->
     visitCounts (graphVisualizer (deliver a0 data)) = visitCounts (graphVisualizer a0)).
Proof.
  intros Hf a0. pose proof (Consistent_reached u history) as H0. fold a0 in H0.
  split_and!.
  - intros start Hs a.
    assert (currentStepId (graphVisualizer a) = None ∧ visitCounts (graphVisualizer a) = ∅)
      as [Hcur Hcounts].
    { subst a. destruct H0 as ([Hw [g Hg]] & _). rewrite deliver_viz, Hw.
      destruct (frameOp_std_runStart _ Hs) as (message & m & ms & _ & _ & ->).
      cbn [doOp]. by rewrite setModels_eq, Hg. }
    rewrite run_counts; [|by apply Consistent_deliver| |done].
    + unfold visitCount at 1. by rewrite Hcounts, lookup_empty.
    + unfold stuck. by rewrite Hcur.
  - intros a. rewrite run_counts; [|by apply Consistent_clear| |done].
    + unfold visitCount at 1. subst a. cbn. rewrite clear_eq. cbn. by rewrite lookup_empty.
    + subst a. cbn. by rewrite clear_eq.
  - intros data Hv Hk. destruct H0 as (Hr & _). pose proof Hr as [Hw _].
    rewrite deliver_viz, Hw, (frameOp_std_visit _ _ Hv). cbn [doOp].
    by rewrite updateStep_unresolved_noop.
Qed.

Lemma visit_count_equals_events_witness :
  Forall (fun data => isRunStart data = false ∧
                      forall x, visited data = Some x -> protoMember x = None)
    sample_visits ∧
  isRunStart (startFrame [sample_model]) = true ∧
  visitCount (graphVisualizer (run sample_visits sample_started)) "A" =
    if known (graphVisualizer sample_started) "A"
    then countVisits "A" sample_visits else 0%nat.
Proof.
  unfold sample_started.
  assert (Forall (fun data => isRunStart data = false ∧
                      forall x, visited data = Some x -> protoMember x = None)
            sample_visits) as H.
  { repeat (apply Forall_cons; split;
              [split; [reflexivity|intros x Hx; injection Hx as <-; reflexivity]|]).
    apply Forall_nil. done. }
  split; [exact H|]. split; [reflexivity|].
  exact (proj1 (visit_count_equals_events sample_ui [] sample_visits "A" H)
           (startFrame [sample_model]) eq_refl).
Defined.

Example sample_visits_counted :
  visitCount (graphVisualizer (run sample_visits sample_started)) "A" = 2%nat ∧
  known (graphVisualizer sample_started) "A" = true ∧
  countVisits "A" sample_visits = 2%nat.
Proof. vm_compute. by split_and!. Qed.

(** ** The resizer *)

Lemma Resizer_Sized_mono events e s :
  Resizer.Sized events s -> Resizer.Sized (events ++ [e]) s.
Proof.
  unfold Resizer.Sized. destruct (Resizer.leftWidth s), (Resizer.rightWidth s); try done.
  intros (H1 & H2 & w & Hin & Hw). split_and!; [done..|].
  exists w. split; [|done]. apply elem_of_app. by left.
Qed.

Lemma Resizer_run_snoc events e s :
  Resizer.run (events ++ [e]) s = Resizer.handle (Resizer.run events s) e.
Proof. unfold Resizer.run. by rewrite fold_left_app. Qed.

(** X23. Dragging the resizer never leaves a panel 300 pixels wide or
    narrower: after any sequence of mouse events the two panel widths are
    either both unset or both set by one accepted move, each above 300 and
    adding up, with the 8 pixels of the resizer, to the window width of that
    move.  A move after the button is released changes nothing, and neither
    does any move in a window at most 608 pixels wide. *)
Theorem resizer_keeps_minimum_widths events x w s :
  Resizer.Sized events (Resizer.run events Resizer.initial) ∧
  Resizer.mousemove x w (Resizer.mouseup s) = Resizer.mouseup s ∧
  Resizer.mousemove x (w `min` 608) s = s.
Proof.
  split_and!.
  - induction events as [|e events IH] using rev_ind; [done|].
    rewrite Resizer_run_snoc. apply (Resizer_Sized_mono _ e) in IH.
    destruct e as [|cx iw|]; cbn [Resizer.handle].
    + done.
    + unfold Resizer.mousemove.
      destruct (Resizer.isResizing _); cbn [negb]; [|done].
      destruct (300 <? cx) eqn:H1; cbn [andb]; [|done].
      destruct (300 <? iw - cx - 8) eqn:H2; [|done].
      unfold Resizer.Sized. cbn. apply Z.ltb_lt in H1, H2. split_and!; [done..|].
      exists iw. split; [|lia]. apply elem_of_app. right. by left.
    + unfold Resizer.mouseup. by destruct (Resizer.isResizing _).
  - unfold Resizer.mousemove, Resizer.mouseup.
    destruct (Resizer.isResizing s) eqn:H; cbn; by rewrite ?H.
  - unfold Resizer.mousemove. destruct (negb _); [done|].
    destruct (300 <? x) eqn:H1; cbn [andb]; [|done].
    destruct (300 <? w `min` 608 - x - 8) eqn:H2; [|done].
    apply Z.ltb_lt in H1, H2. lia.
Qed.

Example resizer_drag :
  Resizer.run [Resizer.MouseMove 500 1200; Resizer.MouseDown; Resizer.MouseMove 200 1200;
               Resizer.MouseMove 400 1200; Resizer.MouseMove 1000 1200; Resizer.MouseUp;
               Resizer.MouseMove 600 1200] Resizer.initial =
    {| Resizer.isResizing := false; Resizer.leftWidth := Some 400;
       Resizer.rightWidth := Some 792; Resizer.cursor := ""; Resizer.userSelect := "";
       Resizer.resizeEvents := 1 |}.
Proof. vm_compute. reflexivity. Qed.

(** ** The socket *)

Lemma Socket_run_app e1 e2 s : Socket.run (e1 ++ e2) s = Socket.run e2 (Socket.run e1 s).
Proof. apply fold_left_app. Qed.

Lemma Socket_send_fields m s :
  Socket.ws (Socket.send m s) = Socket.ws s ∧
  Socket.connected (Socket.send m s) = Socket.connected s ∧
  Socket.created (Socket.send m s) = Socket.created s ∧
  Socket.opened (Socket.send m s) = Socket.opened s.
Proof. unfold Socket.send. destruct (Socket.ws s); [destruct (Socket.connected s)|]; done. Qed.

Lemma Socket_filter_opened (f : nat -> bool) (n : nat) l :
  Forall (fun j => (j < n)%nat) l -> Forall (fun j => (j < n)%nat) (List.filter f l).
Proof.
  intros H. induction H as [|j l Hj _ IH]; cbn; [done|].
  destruct (f j); [by constructor|done].
Qed.

(** Only sockets that were created are open. *)
Lemma Socket_handle_opened e s :
  Forall (fun j => (j < Socket.created s)%nat) (Socket.opened s) ->
  Forall (fun j => (j < Socket.created (Socket.handle s e))%nat)
    (Socket.opened (Socket.handle s e)).
Proof.
  intros Hs. destruct e as [p h|k|k|k|m|]; unfold Socket.handle.
  - destruct h; cbn; [|done]. eapply Forall_impl; [done|]. cbn. lia.
  - destruct (Nat.ltb_spec k (Socket.created s)); [|done].
    unfold Socket.onopen.
    set (s1 := Socket.set_connected true (Socket.set_opened (k :: Socket.opened s) s)).
    destruct (Socket_send_fields {| Socket.o_type := "init"; Socket.o_client := Some "viewer" |} s1)
      as (_ & _ & Hc1 & Ho1).
    destruct (Socket_send_fields {| Socket.o_type := "start"; Socket.o_client := None |}
                (Socket.send {| Socket.o_type := "init"; Socket.o_client := Some "viewer" |} s1))
      as (_ & _ & Hc2 & Ho2).
    rewrite Hc2, Ho2, Hc1, Ho1. cbn. by constructor.
  - by destruct (Nat.ltb k (Socket.created s)).
  - destruct (Nat.ltb k (Socket.created s)); [|done]. cbn. by apply Socket_filter_opened.
  - destruct (Socket_send_fields m s) as (_ & _ & -> & ->). done.
  - unfold Socket.disconnect. destruct (Socket.ws s); [|done]. cbn.
    by apply Socket_filter_opened.
Qed.

Lemma Socket_opened_created events s :
  Forall (fun j => (j < Socket.created s)%nat) (Socket.opened s) ->
  Forall (fun j => (j < Socket.created (Socket.run events s))%nat)
    (Socket.opened (Socket.run events s)).
Proof.
  revert s. induction events as [|e events IH]; intros s Hs; [done|].
  change (Socket.run (e :: events) s) with (Socket.run events (Socket.handle s e)).
  by apply IH, Socket_handle_opened.
Qed.

Lemma Socket_no_socket post s :
  Socket.ws s = None -> Forall (fun e => Socket.isConnect e = false) post ->
  Socket.sent (Socket.run post s) = Socket.sent s ∧ Socket.ws (Socket.run post s) = None.
Proof.
  intros Hs Hp. revert s Hs. induction Hp as [|e post He _ IH]; intros s Hs; [done|].
  change (Socket.run (e :: post) s) with (Socket.run post (Socket.handle s e)).
  assert (Socket.sent (Socket.handle s e) = Socket.sent s ∧
          Socket.ws (Socket.handle s e) = None) as [H1 H2].
  { destruct e as [p h|k|k|k|m|]; unfold Socket.handle.
    - by destruct h.
    - destruct (Nat.ltb k (Socket.created s)); [|done].
      unfold Socket.onopen, Socket.send. cbn. by rewrite Hs.
    - by destruct (Nat.ltb k (Socket.created s)).
    - by destruct (Nat.ltb k (Socket.created s)).
    - unfold Socket.send. by rewrite Hs.
    - unfold Socket.disconnect. by rewrite Hs. }
  destruct (IH _ H2) as [-> ->]. done.
Qed.

Lemma Socket_closed post s :
  Socket.connected s = false -> Forall (fun e => Socket.isOpen e = false) post ->
  Socket.sent (Socket.run post s) = Socket.sent s ∧
  Socket.connected (Socket.run post s) = false.
Proof.
  intros Hs Hp. revert s Hs. induction Hp as [|e post He _ IH]; intros s Hs; [done|].
  change (Socket.run (e :: post) s) with (Socket.run post (Socket.handle s e)).
  assert (Socket.sent (Socket.handle s e) = Socket.sent s ∧
          Socket.connected (Socket.handle s e) = false) as [H1 H2].
  { destruct e as [p h|k|k|k|m|]; unfold Socket.handle.
    - done.
    - done.
    - by destruct (Nat.ltb k (Socket.created s)).
    - by destruct (Nat.ltb k (Socket.created s)).
    - unfold Socket.send. rewrite Hs. by destruct (Socket.ws s).
    - unfold Socket.disconnect. by destruct (Socket.ws s). }
  destruct (IH _ H2) as [-> ->]. done.
Qed.

Lemma Socket_filter_Forall (f : Socket.Event -> bool) post :
  Forall (fun e => f e = false) (List.filter (fun e => negb (f e)) post).
Proof.
  induction post as [|e post IH]; cbn; [constructor|].
  destruct (f e) eqn:E; cbn; [done|]. by constructor.
Qed.

Lemma Socket_next_not_open (n : nat) l :
  Forall (fun j => (j < n)%nat) l -> S n ∉ n :: l.
Proof.
  intros Hl [?|H]%elem_of_cons; [lia|].
  pose proof (proj1 (list.Forall_forall _ _) Hl _ H). cbn in *. lia.
Qed.

(** X24. What is handed to a socket follows [this.ws] and the flag
    [connected], not the state of the socket.  When the socket of a
    successful [connect] opens, the client hands it the [init] message and
    then the [start] message.  After [disconnect] nothing is handed over by
    any events that hold no successful [connect], not even by a late
    [onopen] or by [send]; after the [onclose] or the [onerror] of a socket
    nothing is handed over by any events that hold no [onopen].  But
    [connect] leaves the flag as it is: once a socket has opened and a
    second [connect] has replaced it, a [send] hands its message to the new
    socket, which has not opened. *)
Theorem socket_sends_follow_connected_flag pre post port port' message j :
  let s := Socket.run pre Socket.initial in
  let k := Socket.created s in
  let noConnect := List.filter (fun e => negb (Socket.isConnect e)) post in
  let noOpen := List.filter (fun e => negb (Socket.isOpen e)) post in
  let handed socket m b :=
    {| Socket.h_socket := socket; Socket.h_message := m; Socket.h_open := b |} in
  (j < k)%nat ->
  Socket.sent (Socket.run [Socket.Connect port true; Socket.Open k] s) =
    Socket.sent s ++ [handed k Socket.init_message true; handed k Socket.start_message true] ∧
  Socket.sent (Socket.run (Socket.Disconnect :: noConnect) s) = Socket.sent s ∧
  Socket.sent (Socket.run (Socket.Close j :: noOpen) s) = Socket.sent s ∧
  Socket.sent (Socket.run (Socket.Error j :: noOpen) s) = Socket.sent s ∧
  Socket.sent (Socket.run [Socket.Connect port true; Socket.Open k;
                           Socket.Connect port' true; Socket.Send message] s) =
    Socket.sent s ++ [handed k Socket.init_message true; handed k Socket.start_message true;
                      handed (S k) message false].
Proof.
  intros s k noConnect noOpen handed Hj.
  assert (Forall (fun j => (j < k)%nat) (Socket.opened s)) as Hopen.
  { apply Socket_opened_created. constructor. }
  assert (S k ∉ k :: Socket.opened s) as Hfresh by by apply Socket_next_not_open.
  apply Nat.ltb_lt in Hj.
  assert (forall s0, Socket.created s0 = S k ->
            Socket.handle s0 (Socket.Open k) =
              Socket.onopen (Socket.set_opened (k :: Socket.opened s0) s0)) as Hop.
  { intros s0 H0. unfold Socket.handle.
    by rewrite H0, (proj2 (Nat.ltb_lt k (S k)) (Nat.lt_succ_diag_r k)). }
  split_and!.
  - change (Socket.run [Socket.Connect port true; Socket.Open k] s)
      with (Socket.handle (Socket.connect port true s) (Socket.Open k)).
    rewrite Hop by done. unfold Socket.onopen, Socket.send. cbn.
    rewrite bool_decide_eq_true_2 by by left. by rewrite <- app_assoc.
  - change (Socket.run (Socket.Disconnect :: noConnect) s)
      with (Socket.run noConnect (Socket.disconnect s)).
    destruct (Socket_no_socket noConnect (Socket.disconnect s)) as [-> _].
    + unfold Socket.disconnect. by destruct (Socket.ws s) eqn:E.
    + apply Socket_filter_Forall.
    + unfold Socket.disconnect. by destruct (Socket.ws s).
  - change (Socket.run (Socket.Close j :: noOpen) s)
      with (Socket.run noOpen (Socket.handle s (Socket.Close j))).
    destruct (Socket_closed noOpen (Socket.handle s (Socket.Close j))) as [-> _].
    + unfold Socket.handle. fold k. by rewrite Hj.
    + apply Socket_filter_Forall.
    + unfold Socket.handle. fold k. by rewrite Hj.
  - change (Socket.run (Socket.Error j :: noOpen) s)
      with (Socket.run noOpen (Socket.handle s (Socket.Error j))).
    destruct (Socket_closed noOpen (Socket.handle s (Socket.Error j))) as [-> _].
    + unfold Socket.handle. fold k. by rewrite Hj.
    + apply Socket_filter_Forall.
    + unfold Socket.handle. fold k. by rewrite Hj.
  - change (Socket.run [Socket.Connect port true; Socket.Open k;
                        Socket.Connect port' true; Socket.Send message] s)
      with (Socket.send message
              (Socket.connect port' true
                 (Socket.handle (Socket.connect port true s) (Socket.Open k)))).
    rewrite Hop by done. unfold Socket.onopen, Socket.send. cbn.
    rewrite bool_decide_eq_true_2 by by left.
    rewrite bool_decide_eq_false_2 by done. by rewrite <- !app_assoc.
Qed.

Lemma socket_sends_follow_connected_flag_witness :
  (0 < Socket.created (Socket.run [Socket.Connect 5555 true] Socket.initial))%nat ∧
  Socket.sent (Socket.run [Socket.Connect 5555 true; Socket.Connect 5555 true; Socket.Open 1;
                           Socket.Connect 5556 true;
                           Socket.Send Socket.start_message] Socket.initial) =
    [ {| Socket.h_socket := 1; Socket.h_message := Socket.init_message;
         Socket.h_open := true |};
      {| Socket.h_socket := 1; Socket.h_message := Socket.start_message;
         Socket.h_open := true |};
      {| Socket.h_socket := 2; Socket.h_message := Socket.start_message;
         Socket.h_open := false |} ].
Proof.
  assert (0 < Socket.created (Socket.run [Socket.Connect 5555 true] Socket.initial))%nat
    as H by (cbn; lia).
  split; [exact H|].
  exact (proj2 (proj2 (proj2 (proj2
    (socket_sends_follow_connected_flag [Socket.Connect 5555 true] [] 5555 5556
       Socket.start_message 0 H))))).
Defined.

Example socket_late_open :
  Socket.sent
    (Socket.run [Socket.Connect 5555 true; Socket.Open 0; Socket.Disconnect; Socket.Open 0;
                 Socket.Send Socket.start_message]
       Socket.initial) =
    [ {| Socket.h_socket := 0; Socket.h_message := Socket.init_message;
         Socket.h_open := true |};
      {| Socket.h_socket := 0; Socket.h_message := Socket.start_message;
         Socket.h_open := true |} ].
Proof. vm_compute. reflexivity. Qed.
